(** * Kleinblatt production planner

    A shallow embedding of the scheduling core of the planner
    (database.py, models.py and the order dialogs of weekly_view.py and
    main.py), with the properties of its specification stated and
    settled against it.

    Conventions of the embedding.
    - A [datetime.date] is its proleptic Gregorian ordinal
      ([date.toordinal()]), an integer; [timedelta(days=n)] arithmetic is
      integer addition.  The embedding leaves out the [OverflowError] of
      dates outside the years 1..9999.
    - A Python [str] is its list of Unicode code points.
    - A Python [float] is kept abstract (class [PyFloat]): the planner
      only parses amounts, compares them with zero, stores them and lets
      the database add them up.
    - A database table is a finite map from the integer primary key to
      the row; a new row gets the key [max + 1], as SQLite's rowid does.
    - A raised exception is a value of [exn]; [db.atomic()] rolls the
      store back when its body raises and commits when the body is left
      normally, including by [return]. *)

From Stdlib Require Import ZArith List Lia Permutation.
From Stdlib Require Import Ascii String.
From stdpp Require Import gmap list sorting.

Local Open Scope Z_scope.

(** ** Python values *)

Module Py.

Definition date := Z.
Definition datetime := Z.
Definition uuid := Z.
Definition str := list N.

(** [date.weekday()]: Monday is 0 and Sunday is 6; CPython computes it as
    [(toordinal() + 6) % 7]. *)
Definition weekday (d : date) : Z := (d + 6) mod 7.

Inductive exn :=
| KeyError
| ValueError
| AttributeError
| TypeError
| IndexError
| DoesNotExist
| IntegrityError.

Inductive result (A : Type) :=
| Ok (a : A)
| Raise (e : exn).
Arguments Ok {A} a.
Arguments Raise {A} e.

#[global] Instance result_ret : MRet result := fun A a => Ok a.
#[global] Instance result_bind : MBind result := fun A B k r =>
  match r with
  | Ok a => k a
  | Raise e => Raise e
  end.

(** The operations the planner uses on floats: [float(s)] ([None] when it
    raises [ValueError]), [x <= 0], and the comparison and the addition
    behind the database's [GROUP BY] and [SUM]. *)
Class PyFloat (F : Type) := {
  float_of_str : str -> option F;
  float_le_zero : F -> bool;
  float_eqb : F -> F -> bool;
  float_add : F -> F -> F
}.

End Py.

Export Py.

(** ** models.py *)

Module Models.

Section Rows.
Context {F : Type}.

Record Item := {
  item_name : str;
  seed_quantity : F;
  soaking_days : Z;
  germination_days : Z;
  growth_days : Z;
  price : F;
  substrate : option str
}.

(** [Item.total_days] *)
Definition total_days (i : Item) : Z := germination_days i + growth_days i.

Record Order := {
  customer : Z;
  delivery_date : date;
  from_date : option date;
  to_date : option date;
  subscription_type : Z;
  halbe_channel : bool;
  order_id : uuid;
  is_future : bool;
  created_at : datetime
}.

Record OrderItem := {
  oi_order : Z;
  oi_item : Z;
  amount : F;
  production_date : date;
  transfer_date : option date
}.

(** An [OrderItem] instance in memory, with its [item] reference
    resolved: either a row read through [order.order_items] or a
    temporary [OrderItem(item=item, amount=amount)]. *)
Record OrderItemObj := {
  obj_item : Item;
  obj_amount : F
}.

(** The [production_date] attribute of an [Order] instance.  It is no
    column of the table: [save_changes] of weekly_view.py assigns the
    per-item dictionary of [calculate_itemwise_production_dates] and
    [save_order] of main.py assigns one date before they expand a
    subscription.  An order read from the database has no such
    attribute; a caller that expands one says so where it does.  A
    dictionary keeps its insertion order. *)
Inductive production_date_attr :=
| PdDate (d : date)
| PdDict (d : list (OrderItemObj * date)).

(** An [Order] instance in memory: its row id, its fields and the
    attribute above. *)
Record OrderObj := {
  obj_id : Z;
  obj_fields : Order;
  obj_production_date : production_date_attr
}.

End Rows.

Arguments Item : clear implicits.
Arguments Order : clear implicits.
Arguments OrderItem : clear implicits.
Arguments OrderItemObj : clear implicits.
Arguments production_date_attr : clear implicits.
Arguments OrderObj : clear implicits.

End Models.

Export Models.

(** ** database.py: date rules and subscription expansion *)

Module Database.

Section DateRules.
Context {F : Type}.

(** One turn of the loop of [calculate_itemwise_production_dates]. *)
Definition production_date_of (delivery : date) (allow_sunday : bool)
    (order_item : OrderItemObj F) : date :=
  let days := total_days (obj_item order_item) in
  let production := delivery - days in
  if negb allow_sunday && (weekday production =? 6)
  then production - 1
  else production.

(** [calculate_itemwise_production_dates(delivery_date, items, allow_sunday)];
    the items are distinct objects, so the dictionary has one entry for
    each of them. *)
Definition calculate_itemwise_production_dates (delivery : date)
    (items : list (OrderItemObj F)) (allow_sunday : bool)
    : list (OrderItemObj F * date) :=
  map (fun order_item => (order_item, production_date_of delivery allow_sunday order_item))
      items.

(** The same call with [allow_sunday] left at its default, [True]. *)
Definition calculate_itemwise_production_dates_default (delivery : date)
    (items : list (OrderItemObj F)) : list (OrderItemObj F * date) :=
  calculate_itemwise_production_dates delivery items true.

(** The dictionary [new_order] that [generate_subscription_orders] builds
    for one future delivery. *)
Record draft := {
  d_customer : Z;
  d_delivery_date : date;
  d_production_date : list (OrderItemObj F * date);
  d_halbe_channel : bool;
  d_is_future : bool;
  d_subscription_type : Z;
  d_from_date : option date;
  d_to_date : option date
}.

(** [frequencies[subscription_type]]; a missing key raises [KeyError]. *)
Definition frequencies (subscription_type : Z) : option Z :=
  if subscription_type =? 1 then Some 7
  else if subscription_type =? 2 then Some 14
  else if subscription_type =? 3 then Some 21
  else if subscription_type =? 4 then Some 28
  else None.

(** [next(iter(production_dates.values()), None)] where
    [production_dates] is the order's attribute when that is a
    dictionary, and the empty dictionary otherwise. *)
Definition sample_date (pd : production_date_attr F) : option date :=
  match pd with
  | PdDict ((_, d) :: _) => Some d
  | PdDict [] => None
  | PdDate _ => None
  end.

(** [allow_sunday = sample_date.weekday() != 6 if sample_date else True] *)
Definition allow_sunday_of (pd : production_date_attr F) : bool :=
  match sample_date pd with
  | Some d => negb (weekday d =? 6)
  | None => true
  end.

Definition new_order (order : OrderObj F) (order_items : list (OrderItemObj F))
    (current_date : date) : draft :=
  {| d_customer := customer (obj_fields order);
     d_delivery_date := current_date;
     d_production_date :=
       calculate_itemwise_production_dates current_date order_items
         (allow_sunday_of (obj_production_date order));
     d_halbe_channel := halbe_channel (obj_fields order);
     d_is_future := true;
     d_subscription_type := subscription_type (obj_fields order);
     d_from_date := from_date (obj_fields order);
     d_to_date := to_date (obj_fields order) |}.

(** [while current_date <= order.to_date: ...; current_date += delta],
    unrolled [fuel] times. *)
Fixpoint expansion_loop (fuel : nat) (order : OrderObj F)
    (order_items : list (OrderItemObj F)) (delta to_d current_date : Z)
    : list draft :=
  match fuel with
  | O => []
  | S fuel' =>
      if current_date <=? to_d
      then new_order order order_items current_date
             :: expansion_loop fuel' order order_items delta to_d (current_date + delta)
      else []
  end.

(** The loop itself: with a positive step it runs at most
    [to_date - current_date + 1] times (lemma [expansion_unfold]). *)
Definition expansion (order : OrderObj F) (order_items : list (OrderItemObj F))
    (delta to_d current_date : Z) : list draft :=
  expansion_loop (Z.to_nat (to_d - current_date + 1)) order order_items
    delta to_d current_date.

(** [generate_subscription_orders(order)]; [order_items] is what
    [list(order.order_items)] reads from the database. *)
Definition generate_subscription_orders (order : OrderObj F)
    (order_items : list (OrderItemObj F)) : result (list draft) :=
  let o := obj_fields order in
  if subscription_type o =? 0 then Ok []
  else
    match from_date o, to_date o with
    | Some _, Some to_d =>
        match frequencies (subscription_type o) with
        | None => Raise KeyError
        | Some delta => Ok (expansion order order_items delta to_d (delivery_date o + delta))
        end
    | _, _ => Ok []
    end.

End DateRules.

Arguments draft : clear implicits.

End Database.

Export Database.

(** ** Text: string literals, [str.strip] and [str.replace] *)

Module Text.

Fixpoint bytes_of (s : string) : list N :=
  match s with
  | EmptyString => []
  | String a s' => N_of_ascii a :: bytes_of s'
  end.

(** The code points of a UTF-8 byte sequence; it reads the literals of
    this file, which are written in UTF-8 as the Python sources are. *)
Fixpoint utf8_decode (bs : list N) : list N :=
  match bs with
  | [] => []
  | b1 :: r1 =>
      if (b1 <? 128)%N then b1 :: utf8_decode r1
      else
        match r1 with
        | [] => []
        | b2 :: r2 =>
            if (b1 <? 224)%N
            then ((b1 - 192) * 64 + (b2 - 128))%N :: utf8_decode r2
            else
              match r2 with
              | [] => []
              | b3 :: r3 =>
                  if (b1 <? 240)%N
                  then ((b1 - 224) * 4096 + (b2 - 128) * 64 + (b3 - 128))%N
                         :: utf8_decode r3
                  else
                    match r3 with
                    | [] => []
                    | b4 :: r4 =>
                        ((b1 - 240) * 262144 + (b2 - 128) * 4096
                         + (b3 - 128) * 64 + (b4 - 128))%N
                          :: utf8_decode r4
                    end
              end
        end
  end.

Definition lit (s : string) : str := utf8_decode (bytes_of s).

(** [str.isspace] for one character: the code points Python treats as
    white space. *)
Definition isspace (c : N) : bool :=
  ((9 <=? c) && (c <=? 13) || (28 <=? c) && (c <=? 32)
   || (c =? 133) || (c =? 160) || (c =? 5760)
   || (8192 <=? c) && (c <=? 8202)
   || (c =? 8232) || (c =? 8233) || (c =? 8239) || (c =? 8287)
   || (c =? 12288))%N.

Fixpoint lstrip (s : str) : str :=
  match s with
  | [] => []
  | c :: s' => if isspace c then lstrip s' else s
  end.

Definition rstrip (s : str) : str := rev (lstrip (rev s)).

(** [s.strip()] *)
Definition strip (s : str) : str := rstrip (lstrip s).

(** [s.replace(',', '.')] *)
Definition replace_comma (s : str) : str :=
  map (fun c => if (c =? 44)%N then 46%N else c) s.

(** [needle in text] for strings *)
Fixpoint is_prefix (p s : str) : bool :=
  match p, s with
  | [], _ => true
  | _ :: _, [] => false
  | a :: p', b :: s' => (a =? b)%N && is_prefix p' s'
  end.

Fixpoint occurs (needle text : str) : bool :=
  is_prefix needle text ||
  match text with
  | [] => false
  | _ :: text' => occurs needle text'
  end.

(** Lexicographic order on code points: SQLite's BINARY collation of the
    UTF-8 text, and Python's [<=] on [str]. *)
Fixpoint str_le (a b : str) : bool :=
  match a, b with
  | [], _ => true
  | _ :: _, [] => false
  | x :: a', y :: b' => (x <? y)%N || (x =? y)%N && str_le a' b'
  end.

End Text.

Export Text.

(** ** The database: tables and the peewee operations the planner uses *)

Module Store.

Section Tables.
Context {F : Type}.

(** The tables of models.py (the customer table is left out: an order
    refers to its customer by id).  models.py opens the database
    without the [foreign_keys] pragma, so SQLite applies no
    [ON DELETE CASCADE]: line items go with their order only where the
    code asks for it ([delete_instance(recursive=True)]). *)
Record db := {
  items : gmap Z (Item F);
  orders : gmap Z Order;
  order_items : gmap Z (OrderItem F)
}.

(** The rows of a table by ascending primary key, the order in which
    SQLite scans a table. *)
Definition key_le {A} (a b : Z * A) : Prop := a.1 <= b.1.

#[global] Instance key_le_dec {A} : RelDecision (@key_le A).
Proof. intros a b. unfold key_le. apply _. Defined.

Definition rows {A} (t : gmap Z A) : list (Z * A) :=
  merge_sort key_le (map_to_list t).

(** The key of the next inserted row: the largest key plus one. *)
Definition next_id {A} (t : gmap Z A) : Z :=
  1 + foldr Z.max 0 (map fst (map_to_list t)).

(** [Model.select().where(p)] *)
Definition select {A} (p : Z -> A -> bool) (t : gmap Z A) : list (Z * A) :=
  List.filter (fun r => p r.1 r.2) (rows t).

(** [Model.select().where(p).exists()] *)
Definition exists_where {A} (p : Z -> A -> bool) (t : gmap Z A) : bool :=
  match select p t with
  | [] => false
  | _ :: _ => true
  end.

(** [Model.get_or_none(p)] *)
Definition get_or_none {A} (p : Z -> A -> bool) (t : gmap Z A) : option (Z * A) :=
  head (select p t).

(** [Model.delete().where(p).execute()] *)
Definition delete_where {A} (p : Z -> A -> bool) (t : gmap Z A) : gmap Z A :=
  filter (fun r => p r.1 r.2 = false) t.

(** [for row in query: row.delete_instance()], a [DELETE] by primary
    key for every row the query returned *)
Definition delete_rows {A} (selected : list (Z * A)) (t : gmap Z A) : gmap Z A :=
  foldr (fun r acc => delete r.1 acc) t selected.

(** [order.order_items], the back-reference query *)
Definition order_items_of (st : db) (order_pk : Z) : list (Z * OrderItem F) :=
  select (fun _ oi => oi_order oi =? order_pk) (order_items st).

(** [oi.item], the lazy load of the referenced row; peewee raises
    [DoesNotExist] when there is none. *)
Definition get_item (st : db) (item_pk : Z) : result (Item F) :=
  match items st !! item_pk with
  | Some it => Ok it
  | None => Raise DoesNotExist
  end.

(** The instances behind [list(order.order_items)], each with its
    [item] loaded. *)
Fixpoint load_items (st : db) (l : list (Z * OrderItem F))
    : result (list (OrderItemObj F)) :=
  match l with
  | [] => Ok []
  | (_, oi) :: l' =>
      it ← get_item st (oi_item oi);
      rest ← load_items st l';
      Ok ({| obj_item := it; obj_amount := amount oi |} :: rest)
  end.

(** [OrderItem.create(order=..., item=..., amount=..., production_date=...,
    transfer_date=...)] *)
Definition create_order_item (oi : OrderItem F) (st : db) : db :=
  {| items := items st;
     orders := orders st;
     order_items := <[next_id (order_items st) := oi]> (order_items st) |}.

(** [Order.create(...)]: the column [order_id] is unique, and a second
    row with the same value raises [IntegrityError].  Returns the new
    row's key. *)
Definition create_order (o : Order) (st : db) : result (Z * db) :=
  if exists_where (fun _ o' => order_id o' =? order_id o) (orders st)
  then Raise IntegrityError
  else
    let pk := next_id (orders st) in
    Ok (pk, {| items := items st;
               orders := <[pk := o]> (orders st);
               order_items := order_items st |}).

(** [order.save()] of an instance that has a primary key: an [UPDATE]
    of every column of that row, which changes nothing when the row is
    gone. *)
Definition save_order_row (pk : Z) (o : Order) (st : db) : db :=
  {| items := items st;
     orders := alter (fun _ => o) pk (orders st);
     order_items := order_items st |}.

(** [order.delete_instance(recursive=True)]: delete the line items that
    refer to the order, then the order. *)
Definition delete_instance_recursive (pk : Z) (st : db) : db :=
  {| items := items st;
     orders := delete pk (orders st);
     order_items := delete_where (fun _ oi => oi_order oi =? pk) (order_items st) |}.

(** [with db.atomic(): body]: a raised exception rolls the store back
    and is passed on; the caller turns it into a message. *)
Definition atomic {A} (body : db -> result (A * db)) (st : db) : result A * db :=
  match body st with
  | Ok (a, st') => (Ok a, st')
  | Raise e => (Raise e, st)
  end.

End Tables.

Arguments db : clear implicits.

End Store.

Export Store.

(** ** database.py: the production view *)

Module Queries.

Section ProductionPlan.
Context {F : Type} `{PyFloat F}.

(** A row of the result of [get_production_plan].  The query also
    selects [OrderItem.transfer_date] and [Order.delivery_date], which
    are not grouped: SQLite takes them from some row of the group, and
    they are left out here. *)
Record plan_row := {
  r_production_date : date;
  r_name : str;
  r_total_amount : F;
  r_seed_quantity : F;
  r_substrate : option str
}.

(** [OrderItem JOIN Order JOIN Item WHERE production_date >= start_date
    AND production_date <= end_date], by ascending line-item key.  A
    comparison with [None] is a comparison with [NULL], which no row
    passes. *)
Definition joined (st : db F) (start_date end_date : option date)
    : list (OrderItem F * Item F) :=
  match start_date, end_date with
  | Some s, Some e =>
      omap (fun r : Z * OrderItem F =>
              match orders st !! oi_order r.2, items st !! oi_item r.2 with
              | Some _, Some it =>
                  if (s <=? production_date r.2) && (production_date r.2 <=? e)
                  then Some (r.2, it) else None
              | _, _ => None
              end)
           (rows (order_items st))
  | _, _ => []
  end.

(** [GROUP BY OrderItem.production_date, Item.name, Item.seed_quantity,
    Item.substrate] *)
Definition same_group (g : plan_row) (oi : OrderItem F) (it : Item F) : bool :=
  (r_production_date g =? production_date oi)
  && bool_decide (r_name g = item_name it)
  && float_eqb (r_seed_quantity g) (seed_quantity it)
  && bool_decide (r_substrate g = substrate it).

(** One joined row added to its group, [SUM(OrderItem.amount)] *)
Fixpoint add_to_groups (oi : OrderItem F) (it : Item F) (gs : list plan_row)
    : list plan_row :=
  match gs with
  | [] =>
      [ {| r_production_date := production_date oi;
           r_name := item_name it;
           r_total_amount := amount oi;
           r_seed_quantity := seed_quantity it;
           r_substrate := substrate it |} ]
  | g :: gs' =>
      if same_group g oi it
      then {| r_production_date := r_production_date g;
              r_name := r_name g;
              r_total_amount := float_add (r_total_amount g) (amount oi);
              r_seed_quantity := r_seed_quantity g;
              r_substrate := r_substrate g |} :: gs'
      else g :: add_to_groups oi it gs'
  end.

(** The groups of the query, each with its sum. *)
Definition plan_groups (st : db F) (start_date end_date : option date)
    : list plan_row :=
  foldl (fun gs r => add_to_groups r.1 r.2 gs) [] (joined st start_date end_date).

(** [ORDER BY OrderItem.production_date] *)
Definition by_production_date (a b : plan_row) : Prop :=
  r_production_date a <= r_production_date b.

(** [list(query)]: the groups in an order that [ORDER BY] allows.  The
    query names the production date alone, so SQL leaves the order of
    the rows of one date to the engine. *)
Definition get_production_plan (st : db F) (start_date end_date : option date)
    (results : list plan_row) : Prop :=
  results ≡ₚ plan_groups st start_date end_date
  /\ StronglySorted by_production_date results.



End ProductionPlan.

Arguments plan_row : clear implicits.

End Queries.

Export Queries.

(** ** main.py: the undo log *)

Module UndoLog.

(** The action types of the order dialogs.  The log also records edits
    and actions on customers and items; their reversal is not part of
    this development. *)
Inductive action_type :=
| ACTION_CREATE_ORDER
| ACTION_DELETE_ORDER.

Section Log.
Context {F : Type}.

(** The dictionary [serialize_order] returns.  Its dates are written
    with [strftime('%Y-%m-%d')] and read back with [strptime]; the
    embedding keeps the date.  [s_order_items] is [None] once
    [order_data.pop('order_items', [])] has removed the key. *)
Record order_data := {
  s_id : Z;
  s_order_id : uuid;
  s_customer_id : Z;
  s_delivery_date : date;
  s_from_date : option date;
  s_to_date : option date;
  s_subscription_type : Z;
  s_halbe_channel : bool;
  s_is_future : bool;
  s_order_items : option (list (Z * Z * F))
}.

(** The values of [old_data] and [new_data]: [None], one serialized
    order, [{'orders': [...]}], or [{'order_id': ..., 'count': ...}]. *)
Inductive data :=
| NoData
| OrderData (d : order_data)
| OrdersData (l : list order_data)
| Created (created_order_id : uuid) (count : nat).

Record action := {
  a_type : action_type;
  old_data : data;
  new_data : data
}.

(** [self.undo_stack] and [self.undo_pointer] *)
Record log := {
  undo_stack : list action;
  undo_pointer : Z
}.

Definition max_undo_steps : nat := 20.

(** [record_action(action_type, old_data, new_data, description)]; the
    description is only printed and is left out. *)
Definition record_action (t : action_type) (old new : data) (l : log) : log :=
  let stack :=
    if undo_pointer l <? Z.of_nat (List.length (undo_stack l)) - 1
    then take (Z.to_nat (undo_pointer l + 1)) (undo_stack l)
    else undo_stack l in
  let stack := stack ++ [ {| a_type := t; old_data := old; new_data := new |} ] in
  let stack :=
    if (max_undo_steps <? List.length stack)%nat then drop 1 stack else stack in
  {| undo_stack := stack; undo_pointer := Z.of_nat (List.length stack) - 1 |}.

(** The loop "Add order items" of [serialize_order]: [item.item.id]
    loads the item row. *)
Fixpoint serialize_items (st : db F) (l : list (Z * OrderItem F))
    : result (list (Z * Z * F)) :=
  match l with
  | [] => Ok []
  | (pk, oi) :: l' =>
      _ ← get_item st (oi_item oi);
      rest ← serialize_items st l';
      Ok ((pk, oi_item oi, amount oi) :: rest)
  end.

(** [serialize_order(order)] *)
Definition serialize_order (st : db F) (pk : Z) (o : Order) : result order_data :=
  order_items ← serialize_items st (order_items_of st pk);
  Ok {| s_id := pk;
        s_order_id := order_id o;
        s_customer_id := customer o;
        s_delivery_date := delivery_date o;
        s_from_date := from_date o;
        s_to_date := to_date o;
        s_subscription_type := subscription_type o;
        s_halbe_channel := halbe_channel o;
        s_is_future := is_future o;
        s_order_items := Some order_items |}.

(** [collect_orders_data(orders)] *)
Fixpoint collect_orders_data (st : db F) (l : list (Z * Order))
    : result (list order_data) :=
  match l with
  | [] => Ok []
  | (pk, o) :: l' =>
      d ← serialize_order st pk o;
      rest ← collect_orders_data st l';
      Ok (d :: rest)
  end.

End Log.

Arguments order_data : clear implicits.
Arguments data : clear implicits.
Arguments action : clear implicits.
Arguments log : clear implicits.

End UndoLog.

Export UndoLog.

(** ** weekly_view.py: the order editor of the weekly delivery view *)

Module WeeklyView.

(** The radio buttons "current" and "future", as [save_changes] and
    [delete_order] rename them. *)
Inductive scope :=
| only_this
| this_and_future.

(** What the editor's widgets hold when a button is pressed.  A date
    entry is [None] when [datetime.strptime(text, "%d.%m.%Y")] raises
    [ValueError]. *)
Record form := {
  delivery_date_entry : option date;
  sub_var : Z;
  from_date_entry : option date;
  to_date_entry : option date;
  halbe_var : bool;
  item_rows : list (str * str);
  update_type : scope
}.

(** What the user is shown: a [showerror] raised by a validation step, a
    [showerror] for an exception of the transaction, or the success
    note. *)
Inductive outcome :=
| Rejected (message : str)
| Failed (e : exn)
| Saved.

Definition SUBSCRIPTION_LABELS : list str :=
  [ lit "Wöchentlich"; lit "Zweiwöchentlich"; lit "Alle 3 Wochen";
    lit "Alle 4 Wochen"; lit "Kein Abonnement" ].

Definition msg_subscription_type (amount_str item_name : str) : str :=
  lit "Ungültige Menge: '" ++ amount_str
  ++ lit "' scheint ein Abonnementtyp zu sein statt einer Zahl für Artikel "
  ++ item_name.

Definition msg_not_positive (item_name : str) : str :=
  lit "Menge muss größer als 0 sein für Artikel " ++ item_name.

Definition msg_not_a_number (item_name : str) : str :=
  lit "Ungültige Menge für Artikel " ++ item_name
  ++ lit ". Bitte geben Sie eine Zahl ein.".

Definition msg_unknown_item (item_name : str) : str :=
  lit "Ungültiger Artikel: " ++ item_name.

Definition msg_date_format : str :=
  lit "Ungültiges Datumsformat. Verwenden Sie dd.mm.yyyy".

Definition msg_from_after_to : str :=
  lit "Von-Datum muss vor Bis-Datum liegen".

Definition msg_window_format : str :=
  lit "Ungültiges Datumsformat für Abonnementzeitraum. Verwenden Sie dd.mm.yyyy".

Section Editor.
Context {F : Type} `{PyFloat F}.

(** The application around the dialog: the item cache [self.app.items]
    (name to row id and row), the clock, and the values [uuid.uuid4()]
    returns, in the order of the calls. *)
Record env := {
  app_items : gmap str (Z * Item F);
  now : datetime;
  today : date;
  uuid4 : nat -> uuid
}.

(** One turn of the loop "Gather item data" of [save_changes]. *)
Definition gather_row (e : env) (row : str * str) : str + (str * F) :=
  let item_name := row.1 in
  let amount_str := strip row.2 in
  if bool_decide (amount_str ∈ SUBSCRIPTION_LABELS)
  then inl (msg_subscription_type amount_str item_name)
  else
    let amount_str := replace_comma amount_str in
    match float_of_str amount_str with
    | Some amount =>
        if float_le_zero amount then inl (msg_not_positive item_name)
        else if bool_decide (is_Some (app_items e !! item_name))
             then inr (item_name, amount)
             else inl (msg_unknown_item item_name)
    | None => inl (msg_not_a_number item_name)
    end.

(** The loop: the first row that fails ends [save_changes]. *)
Fixpoint gather_items (e : env) (item_rows : list (str * str))
    : str + list (str * F) :=
  match item_rows with
  | [] => inr []
  | row :: item_rows' =>
      match gather_row e row with
      | inl message => inl message
      | inr order_item_data =>
          match gather_items e item_rows' with
          | inl message => inl message
          | inr order_items_data => inr (order_item_data :: order_items_data)
          end
      end
  end.

(** What [save_changes] has parsed when it opens the transaction. *)
Record parsed := {
  new_date : date;
  p_from_date : option date;
  p_to_date : option date;
  order_items_data : list (str * F)
}.

(** [save_changes] up to [with self.db.atomic()]: the dates, then the
    item rows. *)
Definition validate (e : env) (f : form) : str + parsed :=
  match delivery_date_entry f with
  | None => inl msg_date_format
  | Some new_d =>
      let window :=
        if 0 <? sub_var f then
          match from_date_entry f, to_date_entry f with
          | Some from_d, Some to_d =>
              if to_d <? from_d then inl msg_from_after_to
              else inr (Some from_d, Some to_d)
          | _, _ => inl msg_window_format
          end
        else inr (None, None) in
      match window with
      | inl message => inl message
      | inr (from_d, to_d) =>
          match gather_items e (item_rows f) with
          | inl message => inl message
          | inr data =>
              inr {| new_date := new_d; p_from_date := from_d;
                     p_to_date := to_d; order_items_data := data |}
          end
      end
  end.

(** The line item the dialogs store for [item] on an order delivered on
    [delivery]: weekly_view.py and main.py repeat this computation
    wherever they call [OrderItem.create]. *)
Definition line_item (order_pk item_pk : Z) (item : Item F) (amount_ : F)
    (delivery : date) : OrderItem F :=
  let total_days := germination_days item + growth_days item in
  let production := delivery - total_days in
  {| oi_order := order_pk;
     oi_item := item_pk;
     amount := amount_;
     production_date := production;
     transfer_date := Some (production + germination_days item) |}.

(** [self.app.items[item_name]] *)
Definition lookup_item (e : env) (item_name : str) : result (Z * Item F) :=
  match app_items e !! item_name with
  | Some r => Ok r
  | None => Raise KeyError
  end.

(** "Create temporary items to calculate production date" *)
Fixpoint temp_items (e : env) (data : list (str * F))
    : result (list (OrderItemObj F)) :=
  match data with
  | [] => Ok []
  | (item_name, amount_) :: data' =>
      r ← lookup_item e item_name;
      rest ← temp_items e data';
      Ok ({| obj_item := r.2; obj_amount := amount_ |} :: rest)
  end.

(** "Update items for the current order": the loop of [OrderItem.create] *)
Fixpoint create_items (e : env) (order_pk : Z) (delivery : date)
    (data : list (str * F)) (st : db F) : result (db F) :=
  match data with
  | [] => Ok st
  | (item_name, amount_) :: data' =>
      r ← lookup_item e item_name;
      create_items e order_pk delivery data'
        (create_order_item (line_item order_pk r.1 r.2 amount_ delivery) st)
  end.

(** "Check if the order should be detached from subscription" *)
Definition should_detach (s : scope) (new_d original_delivery_date : date)
    (sub original_subscription_type : Z) : bool :=
  match s with
  | only_this =>
      if negb (new_d =? original_delivery_date)
         || negb (sub =? original_subscription_type)
      then
        negb (sub =? original_subscription_type)
        || negb (new_d =? original_delivery_date) && (0 <? original_subscription_type)
      else false
  | this_and_future => false
  end.

(** [generate_subscription_orders(order)] on an instance whose line
    items are in the database.  Python reads [order.order_items] and
    each [item] inside the loop, so a missing item row raises only when
    the loop runs. *)
Definition expand_order (order : OrderObj F) (st : db F) : result (list (draft F)) :=
  match load_items st (order_items_of st (obj_id order)) with
  | Ok objs => generate_subscription_orders order objs
  | Raise e =>
      match generate_subscription_orders order [] with
      | Ok [] => Ok []
      | Ok (_ :: _) => Raise e
      | Raise e' => Raise e'
      end
  end.


(** [Order.create] with the entries of [future_data] and
    [order_id=uuid.uuid4()] *)
Definition order_of_draft (d : draft F) (id : uuid) (t : datetime) : Order :=
  {| customer := d_customer d;
     delivery_date := d_delivery_date d;
     from_date := d_from_date d;
     to_date := d_to_date d;
     subscription_type := d_subscription_type d;
     halbe_channel := d_halbe_channel d;
     order_id := id;
     is_future := d_is_future d;
     created_at := t |}.

(** "Copy items from the updated current order" *)
Fixpoint copy_items (order_pk : Z) (delivery : date)
    (current_items : list (Z * OrderItem F)) (st : db F) : result (db F) :=
  match current_items with
  | [] => Ok st
  | (_, item_data) :: rest =>
      it ← get_item st (oi_item item_data);
      copy_items order_pk delivery rest
        (create_order_item
           (line_item order_pk (oi_item item_data) it (amount item_data) delivery) st)
  end.

(** "Create the new future orders": a date that already has an order of
    the customer with the same window is skipped.  [n] counts the calls
    of [uuid.uuid4()]. *)
Fixpoint create_future (e : env) (customer_ : Z)
    (current_items : list (Z * OrderItem F)) (n : nat)
    (new_future_orders : list (draft F)) (st : db F) : result (db F) :=
  match new_future_orders with
  | [] => Ok st
  | future_data :: rest =>
      if exists_where
           (fun _ o =>
              (customer o =? customer_)
              && (delivery_date o =? d_delivery_date future_data)
              && bool_decide (from_date o = d_from_date future_data)
              && bool_decide (to_date o = d_to_date future_data))
           (orders st)
      then create_future e customer_ current_items n rest st
      else
        r ← create_order (order_of_draft future_data (uuid4 e n) (now e)) st;
        st' ← copy_items r.1 (d_delivery_date future_data) current_items r.2;
        create_future e customer_ current_items (S n) rest st'
  end.

(** The fields [save_changes] assigns when it detaches the order. *)
Definition detached (o : Order) : Order :=
  {| customer := customer o;
     delivery_date := delivery_date o;
     from_date := None;
     to_date := None;
     subscription_type := 0;
     halbe_channel := halbe_channel o;
     order_id := order_id o;
     is_future := is_future o;
     created_at := created_at o |}.

(** [for oi in order_obj.order_items: oi.delete_instance()] *)
Definition delete_items_of (order_pk : Z) (st : db F) : db F :=
  {| items := items st;
     orders := orders st;
     order_items := delete_rows (order_items_of st order_pk) (order_items st) |}.

(** [for future_order in query: future_order.delete_instance(recursive=True)] *)
Definition delete_orders (selected : list (Z * Order)) (st : db F) : db F :=
  foldl (fun st r => delete_instance_recursive r.1 st) st selected.

(** The fields of the edited order after "Update the current order
    object". *)
Definition updated_fields (original : Order) (f : form) (p : parsed) : Order :=
  {| customer := customer original;
     delivery_date := new_date p;
     from_date := p_from_date p;
     to_date := p_to_date p;
     subscription_type := sub_var f;
     halbe_channel := halbe_var f;
     order_id := order_id original;
     is_future := is_future original;
     created_at := created_at original |}.

(** The body of [with self.db.atomic()] in [save_changes] when an
    existing order is edited ([order_obj] is not [None]). *)
Definition commit_edit (e : env) (order_obj : OrderObj F) (f : form)
    (p : parsed) (st : db F) : result (unit * db F) :=
  let original := obj_fields order_obj in
  let original_delivery_date := delivery_date original in
  let original_subscription_type := subscription_type original in
  let original_from_date := from_date original in
  let original_to_date := to_date original in
  let pk := obj_id order_obj in
  temp ← temp_items e (order_items_data p);
  let new_production_date :=
    calculate_itemwise_production_dates_default (new_date p) temp in
  let st := delete_items_of pk st in
  st ← create_items e pk (new_date p) (order_items_data p) st;
  let saved :=
    if should_detach (update_type f) (new_date p) original_delivery_date
         (sub_var f) original_subscription_type
    then detached (updated_fields original f p)
    else updated_fields original f p in
  let st := save_order_row pk saved st in
  match update_type f with
  | this_and_future =>
      if 0 <? sub_var f then
        let future_orders_to_delete :=
          select
            (fun id o =>
               (customer o =? customer saved)
               && bool_decide (from_date o = original_from_date)
               && bool_decide (to_date o = original_to_date)
               && (subscription_type o =? original_subscription_type)
               && (original_delivery_date <? delivery_date o)
               && negb (id =? pk))
            (orders st) in
        let st := delete_orders future_orders_to_delete st in
        if (0 <? subscription_type saved)
           && bool_decide (is_Some (from_date saved))
           && bool_decide (is_Some (to_date saved))
        then
          new_future_orders ←
            expand_order {| obj_id := pk; obj_fields := saved;
                            obj_production_date := PdDict new_production_date |} st;
          let new_future_orders :=
            List.filter (fun fo => original_delivery_date <? d_delivery_date fo)
              new_future_orders in
          let current_items := order_items_of st pk in
          st ← create_future e (customer saved) current_items 0 new_future_orders st;
          Ok (tt, st)
        else Ok (tt, st)
      else Ok (tt, st)
  | only_this => Ok (tt, st)
  end.

(** [save_changes] for an existing order: validation, then the
    transaction; the [except] clause reports what the transaction
    raised. *)
Definition save_changes (e : env) (order : OrderObj F) (f : form) (st : db F)
    : outcome * db F :=
  match validate e f with
  | inl message => (Rejected message, st)
  | inr p =>
      match atomic (commit_edit e order f p) st with
      | (Ok _, st') => (Saved, st')
      | (Raise ex, st') => (Failed ex, st')
      end
  end.

(** The set of [order_item.item.id] over the line items of an order. *)
Fixpoint item_ids (st : db F) (l : list (Z * OrderItem F)) : result (gset Z) :=
  match l with
  | [] => Ok ∅
  | (_, oi) :: l' =>
      _ ← get_item st (oi_item oi);
      rest ← item_ids st l';
      Ok ({[ oi_item oi ]} ∪ rest)
  end.

(** "Filter for same weekday and identical items" *)
Fixpoint matching_orders (st : db F) (current_weekday : Z)
    (current_order_items : gset Z) (future_orders_query : list (Z * Order))
    : result (list (Z * Order)) :=
  match future_orders_query with
  | [] => Ok []
  | future_order :: rest =>
      if negb (weekday (delivery_date future_order.2) =? current_weekday)
      then matching_orders st current_weekday current_order_items rest
      else
        ids ← item_ids st (order_items_of st future_order.1);
        rest' ← matching_orders st current_weekday current_order_items rest;
        Ok (if bool_decide (ids = current_order_items)
            then future_order :: rest' else rest')
  end.

(** [delete_order] once the user has confirmed: the transaction, with
    the action it records for undo. *)
Definition delete_order (e : env) (order : OrderObj F) (s : scope)
    (st : db F) (l : log F) : result unit * db F * log F :=
  let body st :=
    match s with
    | only_this =>
        order_data ← serialize_order st (obj_id order) (obj_fields order);
        Ok (record_action ACTION_DELETE_ORDER (OrderData order_data) NoData l,
            delete_instance_recursive (obj_id order) st)
    | this_and_future =>
        let current_weekday := weekday (delivery_date (obj_fields order)) in
        current_order_items ← item_ids st (order_items_of st (obj_id order));
        let future_orders_query :=
          select (fun _ o => (customer o =? customer (obj_fields order))
                             && (today e <=? delivery_date o))
            (orders st) in
        matching ← matching_orders st current_weekday current_order_items
                     future_orders_query;
        deleted_orders_data ← collect_orders_data st matching;
        Ok (record_action ACTION_DELETE_ORDER (OrdersData deleted_orders_data) NoData l,
            delete_orders matching st)
    end in
  match atomic body st with
  | (Ok l', st') => (Ok tt, st', l')
  | (Raise ex, st') => (Raise ex, st', l)
  end.

End Editor.

Arguments env : clear implicits.
Arguments parsed : clear implicits.
Arguments should_detach : simpl never.

End WeeklyView.

Export WeeklyView.

(** ** main.py: reversing an action *)

Module Main.

(** What [undo_last_action] reports: nothing to undo, the action
    undone, or the exception its [except] clause shows. *)
Inductive undo_outcome :=
| NothingToUndo
| Undone
| UndoError (e : exn).

Section Undo.
Context {F : Type}.

(** The fields [Order.create] and the [setattr] loop take from the
    dictionary; [created_at] is not among its keys. *)
Definition order_of_data (d : order_data F) (t : datetime) : Order :=
  {| customer := s_customer_id d;
     delivery_date := s_delivery_date d;
     from_date := s_from_date d;
     to_date := s_to_date d;
     subscription_type := s_subscription_type d;
     halbe_channel := s_halbe_channel d;
     order_id := s_order_id d;
     is_future := s_is_future d;
     created_at := t |}.

(** "Recreate order items" *)
Fixpoint recreate_items (order_pk : Z) (delivery : date)
    (items_data : list (Z * Z * F)) (st : db F) : result (db F) :=
  match items_data with
  | [] => Ok st
  | (_, item_id, amount_) :: rest =>
      it ← get_item st item_id;
      recreate_items order_pk delivery rest
        (create_order_item (line_item order_pk item_id it amount_ delivery) st)
  end.

(** [order_data.pop('order_items', [])]: the dictionary of the log
    entry itself loses the key. *)
Definition pop_order_items (d : order_data F) : order_data F :=
  {| s_id := s_id d;
     s_order_id := s_order_id d;
     s_customer_id := s_customer_id d;
     s_delivery_date := s_delivery_date d;
     s_from_date := s_from_date d;
     s_to_date := s_to_date d;
     s_subscription_type := s_subscription_type d;
     s_halbe_channel := s_halbe_channel d;
     s_is_future := s_is_future d;
     s_order_items := None |}.

(** [recreate_order_from_data] on one serialized order.  The first
    component is the dictionary as the call leaves it. *)
Definition recreate_one (t : datetime) (d : order_data F) (st : db F)
    : order_data F * result (db F) :=
  let items_data := default [] (s_order_items d) in
  (pop_order_items d,
   match get_or_none (fun _ o => order_id o =? s_order_id d) (orders st) with
   | Some (pk, existing_order) =>
       let o := order_of_data d (created_at existing_order) in
       let st := save_order_row pk o st in
       let st := {| items := items st;
                    orders := orders st;
                    order_items :=
                      delete_where (fun _ oi => oi_order oi =? pk) (order_items st) |} in
       recreate_items pk (delivery_date o) items_data st
   | None =>
       r ← create_order (order_of_data d t) st;
       recreate_items r.1 (s_delivery_date d) items_data r.2
   end).

(** [for order in order_data['orders']: self.recreate_order_from_data(order)] *)
Fixpoint recreate_all (t : datetime) (l : list (order_data F)) (st : db F)
    : list (order_data F) * result (db F) :=
  match l with
  | [] => ([], Ok st)
  | d :: l' =>
      let '(d', r) := recreate_one t d st in
      match r with
      | Ok st' =>
          let '(l'', r') := recreate_all t l' st' in
          (d' :: l'', r')
      | Raise e => (d' :: l', Raise e)
      end
  end.

(** [recreate_order_from_data(order_data)].  A dictionary that is
    neither a serialized order nor a batch has none of the columns
    [Order.create] needs. *)
Definition recreate_order_from_data (t : datetime) (x : data F) (st : db F)
    : data F * result (db F) :=
  match x with
  | OrdersData l =>
      let '(l', r) := recreate_all t l st in (OrdersData l', r)
  | OrderData d =>
      let '(d', r) := recreate_one t d st in (OrderData d', r)
  | NoData => (NoData, Raise TypeError)
  | Created id n => (Created id n, Raise IntegrityError)
  end.

(** [action['new_data']['order_id']] when the dictionary has that key *)
Definition new_order_id (x : data F) : option uuid :=
  match x with
  | Created id _ => Some id
  | OrderData d => Some (s_order_id d)
  | OrdersData _ => None
  | NoData => None
  end.

(** The branch [ACTION_CREATE_ORDER] of [undo_last_action] *)
Definition undo_create_order (x : data F) (st : db F) : db F :=
  match new_order_id x with
  | None => st
  | Some id =>
      match select (fun _ o => order_id o =? id) (orders st) with
      | [] => st
      | (_, main_order) :: _ =>
          if bool_decide (is_Some (from_date main_order))
             && bool_decide (is_Some (to_date main_order))
             && (0 <? subscription_type main_order)
          then
            {| items := items st;
               orders :=
                 delete_where
                   (fun _ o =>
                      bool_decide (from_date o = from_date main_order)
                      && bool_decide (to_date o = to_date main_order)
                      && (customer o =? customer main_order))
                   (orders st);
               order_items := order_items st |}
          else
            {| items := items st;
               orders := delete_where (fun _ o => order_id o =? id) (orders st);
               order_items := order_items st |}
      end
  end.

(** [undo_last_action], for the two order actions.  An exception leaves
    the database and the pointer as they were; the dictionaries of the
    log entry keep what [pop] did to them. *)
Definition undo_last_action (t : datetime) (st : db F) (l : log F)
    : undo_outcome * db F * log F :=
  if bool_decide (undo_stack l = []) || (undo_pointer l <? 0)
  then (NothingToUndo, st, l)
  else
    match undo_stack l !! Z.to_nat (undo_pointer l) with
    | None => (UndoError IndexError, st, l)
    | Some a =>
        match a_type a with
        | ACTION_CREATE_ORDER =>
            (Undone, undo_create_order (new_data a) st,
             {| undo_stack := undo_stack l; undo_pointer := undo_pointer l - 1 |})
        | ACTION_DELETE_ORDER =>
            match old_data a with
            | NoData =>
                (Undone, st,
                 {| undo_stack := undo_stack l; undo_pointer := undo_pointer l - 1 |})
            | old =>
                let '(old', r) := recreate_order_from_data t old st in
                let stack :=
                  <[ Z.to_nat (undo_pointer l) :=
                       {| a_type := a_type a; old_data := old';
                          new_data := new_data a |} ]> (undo_stack l) in
                match r with
                | Ok st' =>
                    (Undone, st', {| undo_stack := stack;
                                     undo_pointer := undo_pointer l - 1 |})
                | Raise e =>
                    (UndoError e, st, {| undo_stack := stack;
                                         undo_pointer := undo_pointer l |})
                end
            end
        end
    end.

End Undo.

Section EditOrder.
Context {F : Type} `{PyFloat F}.

(** [validate_amount(amount_str, item_name)] of [save_all_changes]:
    [(False, message)] or [(True, amount)].  The caller passes the entry
    text after [strip()]. *)
Definition validate_amount (amount_str item_name : str) : str + F :=
  if bool_decide (amount_str ∈ SUBSCRIPTION_LABELS)
  then inl (msg_subscription_type amount_str item_name)
  else
    let amount_str := replace_comma amount_str in
    match float_of_str amount_str with
    | Some amount =>
        if float_le_zero amount then inl (msg_not_positive item_name)
        else inr amount
    | None => inl (msg_not_a_number item_name)
    end.

(** One order of the dialog "Edit Subscription Orders": the text of its
    delivery entry with what [strptime(text, "%d.%m.%Y")] makes of it
    ([None] for [ValueError]), the order it shows ([None] for a new
    order), and its item rows (item name, amount text). *)
Record order_row := {
  delivery_text : str;
  delivery_parsed : option date;
  existing_order : option (OrderObj F);
  row_items : list (str * str)
}.

Record series_form := {
  overall_from_entry : option date;
  overall_to_entry : option date;
  order_rows : list order_row
}.

(** The item loop of one order row: [validate_amount], then the item
    name. *)
Fixpoint row_items_data (e : env F) (item_rows : list (str * str))
    : str + list (str * F) :=
  match item_rows with
  | [] => inr []
  | (item_name, text) :: rest =>
      match validate_amount (strip text) item_name with
      | inl message => inl message
      | inr amount =>
          if bool_decide (is_Some (app_items e !! item_name))
          then
            match row_items_data e rest with
            | inl message => inl message
            | inr data => inr ((item_name, amount) :: data)
            end
          else inl (msg_unknown_item item_name)
      end
  end.

(** The loops of [OrderItem.create(order=..., item=..., amount=...)] in
    [save_all_changes]: the call gives no [production_date], a column
    models.py declares without [null=True] and without a default, so
    the first insert raises [IntegrityError]. *)
Definition create_items_without_dates (e : env F) (data : list (str * F))
    (st : db F) : result (db F) :=
  match data with
  | [] => Ok st
  | (item_name, _) :: _ =>
      _ ← lookup_item e item_name;
      Raise IntegrityError
  end.

(** [max(self.items[item_name].total_days for item_name, _ in order_items_data)];
    [max] of no value raises [ValueError]. *)
Fixpoint max_total_days (e : env F) (data : list (str * F)) : result Z :=
  match data with
  | [] => Raise ValueError
  | (item_name, _) :: rest =>
      r ← lookup_item e item_name;
      match rest with
      | [] => Ok (total_days r.2)
      | _ :: _ =>
          m ← max_total_days e rest;
          Ok (Z.max (total_days r.2) m)
      end
  end.

(** What the loop over the order rows carries from row to row:
    [subscription_type] ([None] until a row sets it),
    [subscription_type_changed], the number of calls of [uuid.uuid4()],
    and the database. *)
Record loop_state := {
  ls_subscription_type : option Z;
  ls_changed : bool;
  ls_uuids : nat;
  ls_db : db F
}.

(** How a piece of the transaction ends: it goes on, or it shows a
    message and leaves [save_all_changes] by [return]. *)
Inductive flow (A : Type) :=
| Continue (a : A)
| Return (message : str).
Arguments Continue {A} a.
Arguments Return {A} message.

Definition msg_row_date_format (delivery_date_str : str) : str :=
  lit "Ungültiges Datumsformat: " ++ delivery_date_str
  ++ lit ". Verwenden Sie dd.mm.yyyy.".

Definition msg_overall_date_format : str :=
  lit "Ungültiges Datumsformat. Verwenden Sie entweder dd.mm.yyyy oder yyyy-mm-dd.".

(** One turn of [for row in order_rows].  [reference] is
    [subscription_orders[0]] as it was before the loop. *)
Definition edit_row (e : env F) (reference : Order) (overall_from overall_to : date)
    (row : order_row) (s : loop_state) : result (flow loop_state) :=
  match delivery_parsed row with
  | None => Ok (Return (msg_row_date_format (delivery_text row)))
  | Some delivery =>
      match row_items_data e (row_items row) with
      | inl message => Ok (Return message)
      | inr data =>
          match existing_order row with
          | Some existing =>
              _ ← serialize_order (ls_db s) (obj_id existing) (obj_fields existing);
              let fields :=
                {| customer := customer (obj_fields existing);
                   delivery_date := delivery;
                   from_date := Some overall_from;
                   to_date := Some overall_to;
                   subscription_type := subscription_type (obj_fields existing);
                   halbe_channel := halbe_channel (obj_fields existing);
                   order_id := order_id (obj_fields existing);
                   is_future := is_future (obj_fields existing);
                   created_at := created_at (obj_fields existing) |} in
              let changed :=
                if bool_decide (Some (subscription_type reference)
                                = ls_subscription_type s)
                then ls_changed s else true in
              let st := save_order_row (obj_id existing) fields (ls_db s) in
              let st := delete_items_of (obj_id existing) st in
              st ← create_items_without_dates e data st;
              Ok (Continue
                    {| ls_subscription_type :=
                         match ls_subscription_type s with
                         | None => Some (subscription_type fields)
                         | Some t => Some t
                         end;
                       ls_changed := changed;
                       ls_uuids := ls_uuids s;
                       ls_db := st |})
          | None =>
              let subscription :=
                match ls_subscription_type s with
                | None => subscription_type reference
                | Some t => t
                end in
              _ ← max_total_days e data;
              r ← create_order
                    {| customer := customer reference;
                       delivery_date := delivery;
                       from_date := Some overall_from;
                       to_date := Some overall_to;
                       subscription_type := subscription;
                       halbe_channel := halbe_channel reference;
                       order_id := uuid4 e (ls_uuids s);
                       is_future := true;
                       created_at := now e |}
                    (ls_db s);
              st ← create_items_without_dates e data r.2;
              Ok (Continue
                    {| ls_subscription_type := Some subscription;
                       ls_changed := ls_changed s;
                       ls_uuids := S (ls_uuids s);
                       ls_db := st |})
          end
      end
  end.

(** [for row in order_rows]: a [return] ends the loop with the database
    as the rows before it left it. *)
Fixpoint edit_rows (e : env F) (reference : Order) (overall_from overall_to : date)
    (rows_ : list order_row) (s : loop_state) : result (flow loop_state * db F) :=
  match rows_ with
  | [] => Ok (Continue s, ls_db s)
  | row :: rest =>
      r ← edit_row e reference overall_from overall_to row s;
      match r with
      | Continue s' => edit_rows e reference overall_from overall_to rest s'
      | Return message => Ok (Return message, ls_db s)
      end
  end.

(** "Save data for undo": serialize each future order, then delete it. *)
Fixpoint delete_future_orders (l : list (Z * Order)) (st : db F) : result (db F) :=
  match l with
  | [] => Ok st
  | (pk, o) :: rest =>
      _ ← serialize_order st pk o;
      delete_future_orders rest (delete_instance_recursive pk st)
  end.

(** [query.order_by(Order.delivery_date).first()] *)
Fixpoint earliest (l : list (Z * Order)) : option (Z * Order) :=
  match l with
  | [] => None
  | r :: rest =>
      match earliest rest with
      | Some r' => if delivery_date r'.2 <? delivery_date r.2 then Some r' else Some r
      | None => Some r
      end
  end.

(** "If subscription type changed, we need to regenerate all future
    orders".  [base_order] is read from the database and has no
    [production_date] attribute, so the first turn of the loop of
    [generate_subscription_orders] raises [AttributeError]; the loop
    that would store new orders only runs over an empty list. *)
Definition regenerate (e : env F) (reference : Order) (overall_from overall_to : date)
    (rows_ : list order_row) (s : loop_state) : result (db F) :=
  if ls_changed s
     || negb (bool_decide (Some (subscription_type reference) = ls_subscription_type s))
  then
    let edited_order_ids : list Z :=
      omap (fun row : order_row =>
              match existing_order row with
              | Some existing => Some (obj_id existing)
              | None => None
              end)
           rows_ in
    let future_orders_to_delete :=
      select
        (fun id o =>
           bool_decide (from_date o = Some overall_from)
           && bool_decide (to_date o = Some overall_to)
           && (customer o =? customer reference)
           && (today e <? delivery_date o)
           && negb (bool_decide (id ∈ edited_order_ids)))
        (orders (ls_db s)) in
    st ← delete_future_orders future_orders_to_delete (ls_db s);
    match earliest
            (select
               (fun _ o =>
                  bool_decide (from_date o = Some overall_from)
                  && bool_decide (to_date o = Some overall_to)
                  && (customer o =? customer reference))
               (orders st))
    with
    | None => Ok st
    | Some (pk, base_order) =>
        match ls_subscription_type s with
        | None => Raise IntegrityError
        | Some subscription =>
            let fields :=
              {| customer := customer base_order;
                 delivery_date := delivery_date base_order;
                 from_date := from_date base_order;
                 to_date := to_date base_order;
                 subscription_type := subscription;
                 halbe_channel := halbe_channel base_order;
                 order_id := order_id base_order;
                 is_future := is_future base_order;
                 created_at := created_at base_order |} in
            let st := save_order_row pk fields st in
            match generate_subscription_orders
                    {| obj_id := pk; obj_fields := fields;
                       obj_production_date := PdDict [] |}
                    ([] : list (OrderItemObj F))
            with
            | Ok [] => Ok st
            | Ok (_ :: _) => Raise AttributeError
            | Raise ex => Raise ex
            end
        end
    end
  else Ok (ls_db s).

(** The body of [with db.atomic()] in [save_all_changes]. *)
Definition commit_all (e : env F) (subscription_orders : list (OrderObj F))
    (overall_from overall_to : date) (rows_ : list order_row) (st : db F)
    : result (flow unit * db F) :=
  match subscription_orders with
  | [] => Ok (Continue tt, st)
  | reference_order :: _ =>
      let reference := obj_fields reference_order in
      r ← edit_rows e reference overall_from overall_to rows_
            {| ls_subscription_type := None; ls_changed := false;
               ls_uuids := 0; ls_db := st |};
      match r.1 with
      | Return message => Ok (Return message, r.2)
      | Continue s =>
          st' ← regenerate e reference overall_from overall_to rows_ s;
          Ok (Continue tt, st')
      end
  end.

(** [save_all_changes]: the overall dates, then the transaction, in
    which every order row is validated when its turn comes.  Leaving
    the [with] block by [return] commits what the earlier rows wrote.
    The action recorded for undo after the block is left out. *)
Definition save_all_changes (e : env F) (subscription_orders : list (OrderObj F))
    (f : series_form) (st : db F) : outcome * db F :=
  match overall_from_entry f, overall_to_entry f with
  | Some overall_from, Some overall_to =>
      match atomic (commit_all e subscription_orders overall_from overall_to
                      (order_rows f)) st with
      | (Ok (Continue _), st') => (Saved, st')
      | (Ok (Return message), st') => (Rejected message, st')
      | (Raise ex, st') => (Failed ex, st')
      end
  | _, _ => (Rejected msg_overall_date_format, st)
  end.

End EditOrder.

Arguments order_row : clear implicits.
Arguments series_form : clear implicits.
Arguments loop_state : clear implicits.

End Main.

Export Main.

(** ** The specification's wording of the date rules *)

Module Spec.

(** "cadence_days(cadence) (7/14/21/28 for codes 1-4)" *)
Definition cadence_days (cadence : Z) : Z := 7 * cadence.




End Spec.

Export Spec.

(** ** Predicates of the statements *)

Module Invariants.



(** The row [recreate_order_from_data] writes for a deleted order. *)
Definition restored (o : Order) (t : datetime) : Order :=
  {| customer := customer o; delivery_date := delivery_date o;
     from_date := from_date o; to_date := to_date o;
     subscription_type := subscription_type o;
     halbe_channel := halbe_channel o; order_id := order_id o;
     is_future := is_future o; created_at := t |}.

Section Stores.
Context {F : Type}.
Implicit Types (st : db F) (oi : OrderItem F) (o : Order).

(** The order with key [k'] and its line items are in [st'] what they
    are in [st]. *)
Definition untouched (k' : Z) st st' : Prop :=
  orders st' !! k' = orders st !! k'
  /\ forall i oi, oi_order oi = k' ->
       (order_items st' !! i = Some oi <-> order_items st !! i = Some oi).


(** Every line item refers to an item of the item table. *)
Definition items_resolved st : Prop :=
  map_Forall (fun _ oi => is_Some (items st !! oi_item oi)) (order_items st).



(** The column [order_id] is unique. *)
Definition unique_order_ids st : Prop :=
  map_Forall
    (fun k1 o1 =>
       map_Forall (fun k2 o2 => order_id o1 = order_id o2 -> k1 = k2) (orders st))
    (orders st).

(** Every line item refers to an order of the order table. *)
Definition orders_resolved st : Prop :=
  map_Forall (fun _ oi => is_Some (orders st !! oi_order oi)) (order_items st).

(** The item/amount pairs of a list of line items. *)
Definition pairs (rows_ : list (Z * OrderItem F)) : list (Z * F) :=
  (fun r => (oi_item r.2, amount r.2)) <$> rows_.

End Stores.

End Invariants.

Export Invariants.

(** ** Example data *)

Module Examples.

(** Amounts of the examples are whole numbers; [float] reads a string
    of decimal digits and rejects every other string. *)
Fixpoint digits_value (acc : Z) (s : str) : option Z :=
  match s with
  | [] => Some acc
  | c :: s' =>
      if ((48 <=? c) && (c <=? 57))%N
      then digits_value (10 * acc + Z.of_N (c - 48)) s'
      else None
  end.

#[global] Instance example_float : PyFloat Z := {|
  float_of_str := fun s => match s with [] => None | _ => digits_value 0 s end;
  float_le_zero := fun x => x <=? 0;
  float_eqb := Z.eqb;
  float_add := Z.add
|}.

(** An item that germinates for 2 days and grows for 4. *)
Definition rucola : Item Z :=
  {| item_name := lit "Rucola"; seed_quantity := 12; soaking_days := 0;
     germination_days := 2; growth_days := 4; price := 3; substrate := None |}.

Definition basilikum : Item Z :=
  {| item_name := lit "Basilikum"; seed_quantity := 8; soaking_days := 0;
     germination_days := 3; growth_days := 7; price := 4; substrate := None |}.

Definition two_rucola : OrderItemObj Z := {| obj_item := rucola; obj_amount := 2 |}.

(** Monday 2025-01-06 is day 739257; the window ends 28 days later. *)
Definition monday_seed : OrderObj Z :=
  {| obj_id := 1;
     obj_fields :=
       {| customer := 1; delivery_date := 739257; from_date := Some 739257;
          to_date := Some 739285; subscription_type := 1; halbe_channel := false;
          order_id := 1001; is_future := false; created_at := 0 |};
     obj_production_date :=
       PdDict (calculate_itemwise_production_dates_default 739257 [two_rucola]) |}.

(** Saturday 2025-01-04 is day 739255: six days earlier is a Sunday. *)
Definition saturday_seed : OrderObj Z :=
  {| obj_id := 1;
     obj_fields :=
       {| customer := 1; delivery_date := 739255; from_date := Some 739255;
          to_date := Some 739269; subscription_type := 1; halbe_channel := false;
          order_id := 1001; is_future := false; created_at := 0 |};
     obj_production_date :=
       PdDict (calculate_itemwise_production_dates_default 739255 [two_rucola]) |}.

(** A subscription order whose window was never filled in. *)
Definition windowless_seed : OrderObj Z :=
  {| obj_id := 1;
     obj_fields :=
       {| customer := 1; delivery_date := 739257; from_date := None;
          to_date := Some 739285; subscription_type := 1; halbe_channel := false;
          order_id := 1001; is_future := false; created_at := 0 |};
     obj_production_date := PdDate 739251 |}.

(** The application of the examples: both items are in the cache. *)
Definition example_env : env Z :=
  {| app_items := {[ lit "Rucola" := (1, rucola); lit "Basilikum" := (2, basilikum) ]};
     now := 500;
     today := 739264;
     uuid4 := fun n => 2001 + Z.of_nat n |}.

(** A weekly order of customer 1 in the window 2025-01-06 .. 2025-02-03. *)
Definition weekly_order (delivery : date) (id : uuid) (future : bool) : Order :=
  {| customer := 1; delivery_date := delivery; from_date := Some 739257;
     to_date := Some 739285; subscription_type := 1; halbe_channel := false;
     order_id := id; is_future := future; created_at := 100 |}.

(** The weekly series of five orders, each with 2 units of Rucola. *)
Definition weekly_store : db Z :=
  {| items := {[ 1 := rucola; 2 := basilikum ]};
     orders := {[ 1 := weekly_order 739257 1001 false;
                  2 := weekly_order 739264 1002 true;
                  3 := weekly_order 739271 1003 true;
                  4 := weekly_order 739278 1004 true;
                  5 := weekly_order 739285 1005 true ]};
     order_items := {[ 1 := line_item 1 1 rucola 2 739257;
                       2 := line_item 2 1 rucola 2 739264;
                       3 := line_item 3 1 rucola 2 739271;
                       4 := line_item 4 1 rucola 2 739278;
                       5 := line_item 5 1 rucola 2 739285 ]} |}.

(** The second order of the series, as the editor receives it. *)
Definition second_order : OrderObj Z :=
  {| obj_id := 2;
     obj_fields := weekly_order 739264 1002 true;
     obj_production_date := PdDate 739258 |}.

(** The editor's entries for the second order: a delivery date, a
    cadence and a scope, everything else as it was. *)
Definition edit_form (delivery : date) (cadence : Z) (s : scope) : form :=
  {| delivery_date_entry := Some delivery;
     sub_var := cadence;
     from_date_entry := Some 739257;
     to_date_entry := Some 739285;
     halbe_var := false;
     item_rows := [(lit "Rucola", lit "2")];
     update_type := s |}.

(** The second weekly order is deleted alone, with an empty log, and
    the deletion is undone at time 500. *)
Definition second_order_deleted : result unit * db Z * log Z :=
  delete_order example_env second_order only_this weekly_store
    {| undo_stack := []; undo_pointer := -1 |}.

Definition second_order_restored : undo_outcome * db Z * log Z :=
  undo_last_action 500 second_order_deleted.1.2 second_order_deleted.2.

(** The first order of the series, as the series editor holds it. *)
Definition first_order : OrderObj Z :=
  {| obj_id := 1;
     obj_fields := weekly_order 739257 1001 false;
     obj_production_date := PdDate 739251 |}.

(** The series editor of main.py with two order rows: the first order
    with all its item rows removed, and the second order with the
    amount "abc". *)
Definition series_edit : series_form Z :=
  {| overall_from_entry := Some 739257;
     overall_to_entry := Some 739285;
     order_rows :=
       [ {| delivery_text := lit "06.01.2025"; delivery_parsed := Some 739257;
            existing_order := Some first_order; row_items := [] |};
         {| delivery_text := lit "13.01.2025"; delivery_parsed := Some 739264;
            existing_order := Some second_order;
            row_items := [(lit "Rucola", lit "abc")] |} ] |}.

(** Two orders whose line items are both sown on 2024-12-31: Rucola
    (6 days) for 2025-01-06 and Basilikum (10 days) for 2025-01-10.  The
    Rucola line item was stored first. *)
Definition plan_store : db Z :=
  {| items := {[ 1 := rucola; 2 := basilikum ]};
     orders := {[ 1 := weekly_order 739257 1001 false;
                  2 := weekly_order 739261 1002 false ]};
     order_items := {[ 1 := line_item 1 1 rucola 2 739257;
                       2 := line_item 2 2 basilikum 3 739261 ]} |}.

Definition rucola_row : plan_row Z :=
  {| r_production_date := 739251; r_name := lit "Rucola"; r_total_amount := 2;
     r_seed_quantity := 12; r_substrate := None |}.

Definition basilikum_row : plan_row Z :=
  {| r_production_date := 739251; r_name := lit "Basilikum"; r_total_amount := 3;
     r_seed_quantity := 8; r_substrate := None |}.

End Examples.

Export Examples.

(** ** weekly_view.py: the week on display *)

Module Weeks.

(** [get_monday_of_week]:
    [self.current_week - timedelta(days=self.current_week.weekday())] *)
Definition get_monday_of_week (current_week : date) : date :=
  current_week - weekday current_week.

(** [previous_week] and [next_week] move [self.current_week] by seven
    days. *)
Definition previous_week (current_week : date) : date := current_week - 7.

Definition next_week (current_week : date) : date := current_week + 7.

(** The Monday and the Sunday that [update_week_label] prints. *)
Definition week_label (current_week : date) : date * date :=
  let monday := current_week - weekday current_week in
  let sunday := monday + 6 in
  (monday, sunday).

(** The date in the label of column [i] of [days], as [update_day_labels]
    and the [refresh] methods compute it: [monday + timedelta(days=i)]. *)
Definition day_date (current_week : date) (i : Z) : date :=
  get_monday_of_week current_week + i.

(** "Group deliveries by day name": [refresh] of the delivery view puts
    an order into the column [days[delivery.delivery_date.weekday()]];
    the orders of a column keep the order of the query. *)
Definition deliveries_by_day (deliveries : list (Z * Order)) (i : Z)
    : list (Z * Order) :=
  List.filter (fun delivery => weekday (delivery_date delivery.2) =? i) deliveries.

End Weeks.

Export Weeks.

(** ** database.py: the delivery and the transfer schedule *)

Module Schedules.

(** models.py: a row of the customer table. *)
Record Customer := {
  c_name : str;
  c_created_at : datetime
}.

Section DeliverySchedule.
Context {F : Type}.

(** [Order JOIN Customer], with the [WHERE] clause on the delivery date
    that [get_delivery_schedule] adds when both bounds are given; by
    ascending order key. *)
Definition delivery_rows (customers : gmap Z Customer) (st : db F)
    (start_date end_date : option date) : list (Z * Order) :=
  select
    (fun _ o =>
       bool_decide (is_Some (customers !! customer o))
       && match start_date, end_date with
          | Some s, Some e => (s <=? delivery_date o) && (delivery_date o <=? e)
          | _, _ => true
          end)
    (orders st).

(** [ORDER BY Order.delivery_date] *)
Definition by_delivery_date (a b : Z * Order) : Prop :=
  delivery_date a.2 <= delivery_date b.2.

#[global] Instance by_delivery_date_dec : RelDecision by_delivery_date.
Proof. intros a b. unfold by_delivery_date. apply _. Defined.

(** [list(query.order_by(Order.delivery_date))]: the rows in an order
    that [ORDER BY] allows. *)
Definition get_delivery_schedule (customers : gmap Z Customer) (st : db F)
    (start_date end_date : option date) (results : list (Z * Order)) : Prop :=
  results ≡ₚ delivery_rows customers st start_date end_date
  /\ StronglySorted by_delivery_date results.

End DeliverySchedule.

Section TransferSchedule.
Context {F : Type} `{PyFloat F}.

(** A dictionary of the list [get_transfer_schedule] returns. *)
Record transfer_row := {
  t_date : date;
  t_item : str;
  t_amount : F
}.

(** A group of the query: [GROUP BY OrderItem.transfer_date, Item],
    where [Item] stands for every column of the item row, its key
    first, with [SUM(OrderItem.amount)]. *)
Record transfer_group := {
  g_date : date;
  g_item_pk : Z;
  g_item : Item F;
  g_total : F
}.

(** [OrderItem JOIN Item WHERE transfer_date >= start_date AND
    transfer_date <= end_date], by ascending line-item key.  A line
    item without transfer date has [NULL] there and passes no
    comparison, and neither does any row when a bound is [None]. *)
Definition transfers (st : db F) (start_date end_date : option date)
    : list (date * Z * Item F * F) :=
  match start_date, end_date with
  | Some s, Some e =>
      omap (fun r : Z * OrderItem F =>
              match transfer_date r.2, items st !! oi_item r.2 with
              | Some d, Some it =>
                  if (s <=? d) && (d <=? e)
                  then Some (d, oi_item r.2, it, amount r.2) else None
              | _, _ => None
              end)
           (rows (order_items st))
  | _, _ => []
  end.

(** One joined row added to its group. *)
Fixpoint add_transfer (r : date * Z * Item F * F) (gs : list transfer_group)
    : list transfer_group :=
  match gs with
  | [] =>
      [ {| g_date := r.1.1.1; g_item_pk := r.1.1.2; g_item := r.1.2;
           g_total := r.2 |} ]
  | g :: gs' =>
      if (g_date g =? r.1.1.1) && (g_item_pk g =? r.1.1.2)
      then {| g_date := g_date g; g_item_pk := g_item_pk g; g_item := g_item g;
              g_total := float_add (g_total g) r.2 |} :: gs'
      else g :: add_transfer r gs'
  end.

(** The groups of the query, each with its sum. *)
Definition transfer_groups (st : db F) (start_date end_date : option date)
    : list transfer_group :=
  foldl (fun gs r => add_transfer r gs) [] (transfers st start_date end_date).

(** [ORDER BY OrderItem.transfer_date, Item.name] *)
Definition date_then_item_name (a b : transfer_group) : Prop :=
  g_date a < g_date b
  \/ (g_date a = g_date b
      /\ str_le (item_name (g_item a)) (item_name (g_item b)) = true).

#[global] Instance date_then_item_name_dec : RelDecision date_then_item_name.
Proof. intros a b. unfold date_then_item_name. apply _. Defined.

(** The loop over the query: one dictionary for each row. *)
Definition transfer_row_of (g : transfer_group) : transfer_row :=
  {| t_date := g_date g; t_item := item_name (g_item g); t_amount := g_total g |}.

(** [get_transfer_schedule(start_date, end_date)] called with dates:
    the groups in an order that [ORDER BY] allows, each turned into a
    dictionary. *)
Definition get_transfer_schedule (st : db F) (start_date end_date : option date)
    (results : list transfer_row) : Prop :=
  exists gs,
    gs ≡ₚ transfer_groups st start_date end_date
    /\ StronglySorted date_then_item_name gs
    /\ results = map transfer_row_of gs.

End TransferSchedule.

Arguments transfer_row : clear implicits.
Arguments transfer_group : clear implicits.

End Schedules.

Export Schedules.

(** ** main.py: the tab that creates an order *)

Module OrderTab.

Definition msg_select_customer : str := lit "Please select a valid customer".

Definition msg_add_item : str := lit "Please add at least one item to the order".

Section Tab.
Context {F : Type}.

(** What the widgets of the tab hold when "save" is pressed:
    [self.order_items] is the list that [add_item] fills, each entry an
    item of the cache (its row id and row) with an amount; a date frame
    is [None] when [int] or [datetime] raise [ValueError] on its three
    entries. *)
Record order_form := {
  customer_combo : str;
  form_order_items : list (Z * Item F * F);
  delivery_date_frame : option date;
  from_date_frame : option date;
  to_date_frame : option date;
  form_sub_var : Z;
  form_halbe_var : bool
}.

(** [get_date_from_entry(date_frame)]: the date of the entries, and
    today's date when they make none. *)
Definition get_date_from_entry (e : env F) (date_frame : option date) : date :=
  match date_frame with
  | Some d => d
  | None => today e
  end.

(** [max(item['item'].total_days for item in self.order_items)], called
    on a list that is not empty. *)
Definition max_days (order_items : list (Z * Item F * F)) : Z :=
  match order_items with
  | [] => 0
  | x :: rest => foldl (fun m y => Z.max m (total_days y.1.2)) (total_days x.1.2) rest
  end.

(** The loop of [OrderItem.create] over [self.order_items] for the order
    [order_pk], delivered on [delivery]. *)
Definition create_form_items (order_pk : Z) (delivery : date)
    (order_items : list (Z * Item F * F)) (st : db F) : db F :=
  foldl (fun st x => create_order_item (line_item order_pk x.1.1 x.1.2 x.2 delivery) st)
        st order_items.

(** [for future_order_data in future_orders]: [Order.create] with a new
    [uuid.uuid4()], then the items.  [n] counts the calls of
    [uuid.uuid4()]. *)
Fixpoint create_future_orders (e : env F) (order_items : list (Z * Item F * F))
    (n : nat) (future_orders : list (draft F)) (st : db F) : result (db F) :=
  match future_orders with
  | [] => Ok st
  | future_order_data :: rest =>
      r ← create_order (order_of_draft future_order_data (uuid4 e n) (now e)) st;
      create_future_orders e order_items (S n) rest
        (create_form_items r.1 (d_delivery_date future_order_data) order_items r.2)
  end.

(** The order [save_order] creates first. *)
Definition first_order_of (e : env F) (customer_ : Z) (f : order_form) : Order :=
  {| customer := customer_;
     delivery_date := get_date_from_entry e (delivery_date_frame f);
     from_date :=
       if form_sub_var f =? 0 then None
       else Some (get_date_from_entry e (from_date_frame f));
     to_date :=
       if form_sub_var f =? 0 then None
       else Some (get_date_from_entry e (to_date_frame f));
     subscription_type := form_sub_var f;
     halbe_channel := form_halbe_var f;
     order_id := uuid4 e 0;
     is_future := false;
     created_at := now e |}.

(** The body of [with db.atomic()] in [save_order]: the order, its
    items, and for a subscription the future orders with their items.
    [production_date_] is the attribute [Order.create] leaves on the
    instance.  Returns [order_id] and [len(created_orders)]. *)
Definition store_order (e : env F) (customer_ : Z) (f : order_form)
    (production_date_ : date) (st : db F) : result (uuid * nat * db F) :=
  let o := first_order_of e customer_ f in
  r ← create_order o st;
  let st := create_form_items r.1 (delivery_date o) (form_order_items f) r.2 in
  if 0 <? form_sub_var f then
    future_orders ←
      expand_order {| obj_id := r.1; obj_fields := o;
                      obj_production_date := PdDate production_date_ |} st;
    st ← create_future_orders e (form_order_items f) 1 future_orders st;
    Ok (order_id o, S (List.length future_orders), st)
  else Ok (order_id o, 1%nat, st).

(** [clear_form]: the widgets after a successful save; the end of the
    window is reset to 2025-12-31. *)
Definition clear_form (e : env F) : order_form :=
  {| customer_combo := [];
     form_order_items := [];
     delivery_date_frame := Some (today e);
     from_date_frame := Some (today e);
     to_date_frame := Some 739616;
     form_sub_var := 0;
     form_halbe_var := false |}.

(** The transaction of a [try] block of [save_order] with what follows
    it: the action recorded for undo and [clear_form], or the message
    of the [except] clause. *)
Definition store_and_record (e : env F) (customer_ : Z) (f : order_form)
    (production_date_ : date) (st : db F) (l : log F)
    : outcome * order_form * db F * log F :=
  match store_order e customer_ f production_date_ st with
  | Ok (id, count, st') =>
      (Saved, clear_form e, st',
       record_action ACTION_CREATE_ORDER NoData (Created id count) l)
  | Raise ex => (Failed ex, f, st, l)
  end.

(** The first [try] block of [save_order]. *)
Definition save_order_first (customers : gmap str Z) (e : env F) (f : order_form)
    (st : db F) (l : log F) : outcome * order_form * db F * log F :=
  if bool_decide (customer_combo f = [])
     || negb (bool_decide (is_Some (customers !! customer_combo f)))
  then (Rejected msg_select_customer, f, st, l)
  else if bool_decide (form_order_items f = [])
  then (Rejected msg_add_item, f, st, l)
  else
    match customers !! customer_combo f with
    | None => (Failed KeyError, f, st, l)
    | Some customer_ =>
        let delivery := get_date_from_entry e (delivery_date_frame f) in
        let production_date_ := delivery - max_days (form_order_items f) in
        store_and_record e customer_ f production_date_ st l
    end.

(** The second [try] block of [save_order], which follows the first
    whatever that one did.  It asks about a production date on a
    Sunday; [use_sunday] is the answer of [askyesnocancel].  The result
    is [None] when the block returns without a message. *)
Definition save_order_second (customers : gmap str Z) (e : env F)
    (use_sunday : option bool) (f : order_form) (st : db F) (l : log F)
    : option outcome * order_form * db F * log F :=
  if bool_decide (customer_combo f = [])
     || negb (bool_decide (is_Some (customers !! customer_combo f)))
  then (Some (Rejected msg_select_customer), f, st, l)
  else if bool_decide (form_order_items f = [])
  then (Some (Rejected msg_add_item), f, st, l)
  else
    match customers !! customer_combo f with
    | None => (Some (Failed KeyError), f, st, l)
    | Some customer_ =>
        let delivery := get_date_from_entry e (delivery_date_frame f) in
        let production_date_ := delivery - max_days (form_order_items f) in
        let store production_date_ :=
          let '(out, f', st', l') :=
            store_and_record e customer_ f production_date_ st l in
          (Some out, f', st', l') in
        if weekday production_date_ =? 6 then
          match use_sunday with
          | None => (None, f, st, l)
          | Some true => store production_date_
          | Some false => store (production_date_ - 1)
          end
        else store production_date_
    end.

(** [save_order]: the two blocks one after the other.  [e1] and [e2]
    hold the clock and the values of [uuid.uuid4()] during the first
    and during the second block. *)
Definition save_order (customers : gmap str Z) (e1 e2 : env F)
    (use_sunday : option bool) (f : order_form) (st : db F) (l : log F)
    : outcome * option outcome * order_form * db F * log F :=
  let '(out1, f1, st1, l1) := save_order_first customers e1 f st l in
  let '(out2, f2, st2, l2) := save_order_second customers e2 use_sunday f1 st1 l1 in
  (out1, out2, f2, st2, l2).

End Tab.

Arguments order_form : clear implicits.

End OrderTab.

Export OrderTab.

(** ** weekly_view.py: creating an order from the weekly view *)

Module NewOrder.

Definition msg_valid_customer : str := lit "Bitte wählen Sie einen gültigen Kunden".

Definition msg_one_item : str :=
  lit "Bitte fügen Sie mindestens einen Artikel zur Bestellung hinzu".


Section Window.
Context {F : Type} `{PyFloat F}.

(** [save_order] of [open_new_order_window]: the checks, then the
    transaction of main.py's [save_order] without the undo record. *)
Definition save_order (customers : gmap str Z) (e : env F) (f : order_form F)
    (st : db F) : outcome * db F :=
  if bool_decide (customer_combo f = [])
     || negb (bool_decide (is_Some (customers !! customer_combo f)))
  then (Rejected msg_valid_customer, st)
  else if bool_decide (form_order_items f = [])
  then (Rejected msg_one_item, st)
  else
    match customers !! customer_combo f with
    | None => (Failed KeyError, st)
    | Some customer_ =>
        let delivery := get_date_from_entry e (delivery_date_frame f) in
        let production_date_ := delivery - max_days (form_order_items f) in
        match store_order e customer_ f production_date_ st with
        | Ok (_, _, st') => (Saved, st')
        | Raise ex => (Failed ex, st)
        end
    end.




End Window.

End NewOrder.

(** ** Predicates of the further properties *)

Module Conditions.

Section Logs.
Context {F : Type}.

(** The undo log as [__init__], [record_action] and [undo_last_action]
    leave it: the pointer is -1 or an index of the stack, and the stack
    holds at most [max_undo_steps] actions. *)
Definition log_ok (l : log F) : Prop :=
  -1 <= undo_pointer l < Z.of_nat (List.length (undo_stack l))
  /\ (List.length (undo_stack l) <= max_undo_steps)%nat.

(** [self.undo_stack = []] and [self.undo_pointer = -1] of [__init__] *)
Definition empty_log : log F := {| undo_stack := []; undo_pointer := -1 |}.

End Logs.

Section Stores.
Context {F : Type}.

(** [st'] has the item table of [st], no order key and no line item
    that [st] does not have. *)
Definition no_row_added (st st' : db F) : Prop :=
  items st' = items st
  /\ (forall k, is_Some (orders st' !! k) -> is_Some (orders st !! k))
  /\ (forall k oi, order_items st' !! k = Some oi -> order_items st !! k = Some oi).

End Stores.

Section Schedules.
Context {F : Type} `{PyFloat F}.

(** The column [Item.name] is unique. *)
Definition unique_item_names (st : db F) : Prop :=
  map_Forall
    (fun k1 i1 =>
       map_Forall (fun k2 i2 => item_name i1 = item_name i2 -> k1 = k2) (items st))
    (items st).

(** The amounts of the line items with transfer date [d] and item
    [pk], by ascending line-item key. *)
Definition amounts_for (st : db F) (d : date) (pk : Z) : list F :=
  omap (fun r : Z * OrderItem F =>
          if bool_decide (transfer_date r.2 = Some d) && (oi_item r.2 =? pk)
          then Some (amount r.2) else None)
       (rows (order_items st)).

(** [SUM] over the rows of a group, added up in that order; a group
    has at least one row. *)
Definition sum_amounts (l : list F) : option F :=
  match l with
  | [] => None
  | a :: l' => Some (foldl float_add a l')
  end.

(** The columns a transfer group is made by. *)
Definition group_key (g : transfer_group F) : date * Z := (g_date g, g_item_pk g).

Definition row_key (r : date * Z * Item F * F) : date * Z := (r.1.1.1, r.1.1.2).

(** The group of a key, if there is one. *)
Definition find_group (k : date * Z) (gs : list (transfer_group F))
    : option (transfer_group F) :=
  List.find (fun g => bool_decide (group_key g = k)) gs.

(** What one joined row does to the group of the key [k]. *)
Definition add_to_group (k : date * Z) (acc : option (transfer_group F))
    (r : date * Z * Item F * F) : option (transfer_group F) :=
  if bool_decide (row_key r = k)
  then Some match acc with
            | Some g => {| g_date := g_date g; g_item_pk := g_item_pk g;
                           g_item := g_item g;
                           g_total := float_add (g_total g) r.2 |}
            | None => {| g_date := r.1.1.1; g_item_pk := r.1.1.2;
                         g_item := r.1.2; g_total := r.2 |}
            end
  else acc.

(** The order of the dictionaries of the transfer schedule. *)
Definition row_date_then_name (a b : transfer_row F) : Prop :=
  t_date a < t_date b
  \/ (t_date a = t_date b /\ str_le (t_item a) (t_item b) = true).

End Schedules.

Section Editors.
Context {F : Type}.

(** The line items the editors write for the checked rows [data] of
    the order [pk] delivered on [delivery]: for each row the item of
    that name in the item cache, with the dates of [line_item]. *)
Definition form_line_items (e : env F) (pk : Z) (delivery : date)
    (data : list (str * F)) : list (OrderItem F) :=
  omap (fun d : str * F =>
          match app_items e !! d.1 with
          | Some r => Some (line_item pk r.1 r.2 d.2 delivery)
          | None => None
          end)
       data.










(** A row of the production plan that stands for the line item [oi] of
    the item [it]: it has the values the query groups by. *)
Definition plan_row_for (g : plan_row F) (oi : OrderItem F) (it : Item F) : Prop :=
  r_production_date g = production_date oi
  /\ r_name g = item_name it
  /\ r_seed_quantity g = seed_quantity it
  /\ r_substrate g = substrate it.

(** Two rows of the plan with the same values of the grouped columns. *)
Definition same_columns (g g' : plan_row F) : Prop :=
  r_production_date g = r_production_date g'
  /\ r_name g = r_name g'
  /\ r_seed_quantity g = r_seed_quantity g'
  /\ r_substrate g = r_substrate g'.





End Editors.

End Conditions.

Export Conditions.

(** ** Example data of the further properties *)

Module Scenarios.

(** The customer cache [self.customers]: one customer, with row id 2. *)
Definition cafe_customers : gmap str Z := {[ lit "Cafe" := 2 ]}.



(** The tab "new order" filled in for a single order of 9 units of
    Basilikum for the customer Cafe, delivered on 2025-01-19. *)
Definition basilikum_form : order_form Z :=
  {| customer_combo := lit "Cafe";
     form_order_items := [(2, basilikum, 9)];
     delivery_date_frame := Some 739270;
     from_date_frame := Some 739264;
     to_date_frame := Some 739616;
     form_sub_var := 0;
     form_halbe_var := false |}.

(** Four steps of one session on the store of the production example,
    which has the orders 1001 and 1002 in the rows 1 and 2: the order of
    the form above is saved, its creation is undone, the order 1001 is
    deleted in the weekly view ("only this order"), and that deletion
    is undone. *)
Definition order_created
    : outcome * option outcome * order_form Z * db Z * log Z :=
  save_order cafe_customers example_env example_env None basilikum_form
    plan_store empty_log.

Definition creation_undone : undo_outcome * db Z * log Z :=
  undo_last_action 500 order_created.1.2 order_created.2.

Definition first_order_deleted : result unit * db Z * log Z :=
  delete_order example_env first_order only_this
    creation_undone.1.2 creation_undone.2.

Definition first_order_restored : undo_outcome * db Z * log Z :=
  undo_last_action 600 first_order_deleted.1.2 first_order_deleted.2.

End Scenarios.

Export Scenarios.

(** * Properties *)

(** ** Date rules and subscription expansion *)

Module DatabaseProofs.

Section Expansion.
Context {F : Type}.
Implicit Types (order : OrderObj F) (items : list (OrderItemObj F)).


Lemma frequencies_positive code delta :
  frequencies code = Some delta -> 1 <= code <= 4 /\ delta = cadence_days code.
Proof.
  unfold frequencies, cadence_days. intros Hf.
  repeat case_match; simplify_eq; lia.
Qed.






End Expansion.

Section DateRuleProperties.
Context {F : Type}.
Implicit Types (order : OrderObj F) (items : list (OrderItemObj F)).




(** C10. An order without [from_date] or without [to_date] expands to
    nothing, whatever its cadence code. *)
Theorem missing_window_expands_to_nothing order items :
  from_date (obj_fields order) = None \/ to_date (obj_fields order) = None ->
  generate_subscription_orders order items = Ok [].
Proof.
  intros Hw. unfold generate_subscription_orders.
  destruct (subscription_type (obj_fields order) =? 0); [reflexivity|].
  destruct Hw as [-> | ->]; [reflexivity|].
  destruct (from_date (obj_fields order)); reflexivity.
Qed.

(** C4, as the code has it.  The production date of an item is
    [D - (g + w)], moved one day back to [D - (g + w) - 1], a Saturday,
    when it is a Sunday and the caller passed [allow_sunday=False]; with
    the flag left at its default, [True], a Sunday stays.  The line
    items the dialogs store carry [D - (g + w)] and the transfer date
    [production_date + g]. *)
Theorem production_and_transfer_dates (D : date) (order_item : OrderItemObj F)
    (allow_sunday : bool) (order_pk item_pk : Z) (a : F) :
  let it := obj_item order_item in
  let g := germination_days it in
  let w := growth_days it in
  production_date_of D allow_sunday order_item
  = (if negb allow_sunday && (weekday (D - (g + w)) =? 6)
     then D - (g + w) - 1 else D - (g + w))
  /\ (weekday (D - (g + w)) = 6 -> weekday (D - (g + w) - 1) = 5)
  /\ calculate_itemwise_production_dates D [order_item] allow_sunday
     = [(order_item, production_date_of D allow_sunday order_item)]
  /\ calculate_itemwise_production_dates_default D [order_item]
     = [(order_item, D - (g + w))]
  /\ production_date (line_item order_pk item_pk it a D) = D - (g + w)
  /\ transfer_date (line_item order_pk item_pk it a D)
     = Some (production_date (line_item order_pk item_pk it a D) + g).
Proof.
  intros it g w. repeat split.
  unfold weekday. intros Hs.
  replace (D - (g + w) - 1 + 6) with ((D - (g + w) + 6) + (-1) * 1) by lia.
  pose proof (Z.mod_pos_bound (D - (g + w) + 6) 7 ltac:(lia)) as Hb.
  pose proof (Z.div_mod (D - (g + w) + 6) 7 ltac:(lia)) as Hdm.
  symmetry. apply (Z.mod_unique_pos _ 7 ((D - (g + w) + 6) / 7)); lia.
Qed.

(** A seed whose first computed production date is a Sunday makes the
    generator pass [allow_sunday=False]. *)
Lemma sunday_sample_disallows_sunday (pd : production_date_attr F) (d : date) :
  sample_date pd = Some d -> weekday d = 6 -> allow_sunday_of pd = false.
Proof.
  intros Hs Hw. unfold allow_sunday_of. rewrite Hs, Hw. reflexivity.
Qed.

End DateRuleProperties.


Lemma missing_window_expands_to_nothing_witness :
  generate_subscription_orders windowless_seed [two_rucola] = Ok [].
Proof.
  apply missing_window_expands_to_nothing. left. reflexivity.
Defined.

(** C4, counterexample to the default of the flag: for a delivery on
    Saturday 2025-01-04 and an item of 6 days, the call that leaves the
    flag at its default returns Sunday 2024-12-29, not the Saturday
    before. *)
Lemma default_call_keeps_sunday :
  calculate_itemwise_production_dates_default 739255 [two_rucola]
  = [(two_rucola, 739249)]
  /\ 739249 = 739255 - total_days rucola
  /\ weekday 739249 = 6.
Proof. repeat split. Qed.

(** C3, on the code.  The seed of Saturday 2025-01-04 has its production
    date computed with the default flag, so it falls on Sunday
    2024-12-29; the generator then computes the future instances with
    [allow_sunday=False], and both are produced on a Saturday. *)
Theorem sunday_seed_instances_move_to_saturday :
  sample_date (obj_production_date saturday_seed) = Some 739249
  /\ weekday 739249 = 6
  /\ allow_sunday_of (obj_production_date saturday_seed) = false
  /\ (drafts ← generate_subscription_orders saturday_seed [two_rucola];
      Ok (map (fun d => (d_delivery_date d, map snd (d_production_date d))) drafts))
     = Ok [(739262, [739255]); (739269, [739262])]
  /\ weekday 739255 = 5
  /\ weekday 739262 = 5.
Proof. repeat split. Qed.

End DatabaseProofs.

(** ** Validation of the order editor *)

Module ValidationProofs.

Lemma is_prefix_app (p s t : str) :
  is_prefix p s = true -> is_prefix p (s ++ t) = true.
Proof.
  revert s. induction p as [|a p IH]; intros [|b s]; cbn; try done.
  intros [-> Hp]%andb_prop. cbn. auto.
Qed.

Lemma occurs_app_l (needle s t : str) :
  occurs needle s = true -> occurs needle (s ++ t) = true.
Proof.
  induction s as [|c s IH]; cbn.
  - rewrite orb_false_r. destruct needle; [|done]. by destruct t.
  - intros [Hp | Ho]%orb_prop.
    + change (c :: s ++ t) with ((c :: s) ++ t).
      rewrite is_prefix_app by exact Hp. reflexivity.
    + rewrite IH by exact Ho. apply orb_true_r.
Qed.

Lemma occurs_app_r (needle s t : str) :
  occurs needle t = true -> occurs needle (s ++ t) = true.
Proof.
  intros Ht. induction s as [|c s IH]; [exact Ht|].
  cbn. rewrite IH. apply orb_true_r.
Qed.

Section Amounts.
Context {F : Type} `{PyFloat F}.

(** The message for a subscription label names the invalid amount and
    the subscription type, and differs from the parse message. *)
Lemma msg_subscription_type_mentions (s item_name : str) :
  occurs (lit "Ungültige Menge") (msg_subscription_type s item_name) = true
  /\ occurs (lit "Abonnementtyp") (msg_subscription_type s item_name) = true
  /\ msg_subscription_type s item_name <> msg_not_a_number item_name.
Proof.
  unfold msg_subscription_type. split; [|split].
  - apply occurs_app_l. reflexivity.
  - apply occurs_app_r, occurs_app_r, occurs_app_l. reflexivity.
  - intros Heq. apply (f_equal (fun l => l !! 15%nat)) in Heq.
    vm_compute in Heq. discriminate.
Qed.

Lemma gather_items_fails (e : env F) (item_rows : list (str * str)) row message :
  In row item_rows ->
  gather_row e row = inl message ->
  exists message', gather_items e item_rows = inl message'.
Proof.
  intros Hin Hrow. induction item_rows as [|r rest IH]; [destruct Hin|].
  cbn. destruct Hin as [-> | Hin].
  - rewrite Hrow. eauto.
  - destruct (gather_row e r); [eauto|].
    destruct (IH Hin) as [m' ->]. eauto.
Qed.

Lemma validate_fails (e : env F) (f : form) row message :
  In row (item_rows f) ->
  gather_row e row = inl message ->
  exists message', validate e f = inl message'.
Proof.
  intros Hin Hrow. unfold validate.
  destruct (gather_items_fails e _ _ _ Hin Hrow) as [m' Hm'].
  repeat case_match; simplify_eq; eauto.
Qed.

Lemma strip_label (s : str) : s ∈ SUBSCRIPTION_LABELS -> strip s = s.
Proof.
  unfold SUBSCRIPTION_LABELS. intros Hs.
  repeat (apply elem_of_cons in Hs as [-> | Hs]; [reflexivity|]).
  by apply elem_of_nil in Hs.
Qed.

(** The text of an amount entry is checked after [strip()].  A
    subscription label is rejected with the message that names the
    invalid amount and the subscription type; any other text that
    [float] cannot read is rejected with the parse message; a number
    that is [<= 0] is rejected; [validate_amount] of main.py decides the
    same way.  In the editor of the weekly view a rejected row, like
    every failed validation, ends [save_changes] with the database as
    it was. *)
Theorem amount_rejections (e : env F) (order : OrderObj F) (f : form)
    (st : db F) (item_name amount_text : str) :
  let s := strip amount_text in
  let row := (item_name, amount_text) in
  (amount_text ∈ SUBSCRIPTION_LABELS -> s = amount_text)
  /\ (s ∈ SUBSCRIPTION_LABELS ->
        gather_row e row = inl (msg_subscription_type s item_name)
        /\ validate_amount s item_name = inl (msg_subscription_type s item_name)
        /\ occurs (lit "Ungültige Menge") (msg_subscription_type s item_name) = true
        /\ occurs (lit "Abonnementtyp") (msg_subscription_type s item_name) = true
        /\ msg_subscription_type s item_name <> msg_not_a_number item_name)
  /\ (s ∉ SUBSCRIPTION_LABELS ->
        float_of_str (replace_comma s) = None ->
        gather_row e row = inl (msg_not_a_number item_name)
        /\ validate_amount s item_name = inl (msg_not_a_number item_name))
  /\ (forall x,
        s ∉ SUBSCRIPTION_LABELS ->
        float_of_str (replace_comma s) = Some x ->
        float_le_zero x = true ->
        gather_row e row = inl (msg_not_positive item_name)
        /\ validate_amount s item_name = inl (msg_not_positive item_name))
  /\ (forall message,
        In row (item_rows f) ->
        gather_row e row = inl message ->
        exists message', save_changes e order f st = (Rejected message', st))
  /\ (forall message,
        validate e f = inl message ->
        save_changes e order f st = (Rejected message, st)).
Proof.
  intros s row. split; [apply strip_label|].
  split.
  { intros Hs. pose proof (msg_subscription_type_mentions s item_name) as (? & ? & ?).
    unfold gather_row, validate_amount. cbn [fst snd row]. fold s.
    rewrite !bool_decide_eq_true_2 by exact Hs. done. }
  split.
  { intros Hs Hf. unfold gather_row, validate_amount. cbn [fst snd row]. fold s.
    rewrite !bool_decide_eq_false_2 by exact Hs. rewrite Hf. done. }
  split.
  { intros x Hs Hf Hx. unfold gather_row, validate_amount. cbn [fst snd row]. fold s.
    rewrite !bool_decide_eq_false_2 by exact Hs. rewrite Hf, Hx. done. }
  split.
  { intros message Hin Hrow.
    destruct (validate_fails e f row message Hin Hrow) as [m' Hm'].
    exists m'. unfold save_changes. rewrite Hm'. reflexivity. }
  intros message Hv. unfold save_changes. rewrite Hv. reflexivity.
Qed.

End Amounts.

(** The scenario of the specification: the amount entry holds
    "Wöchentlich". *)
Lemma amount_rejections_witness :
  gather_row example_env (lit "Rucola", lit "Wöchentlich")
  = inl (msg_subscription_type (lit "Wöchentlich") (lit "Rucola"))
  /\ save_changes example_env second_order
       {| delivery_date_entry := Some 739264; sub_var := 1;
          from_date_entry := Some 739257; to_date_entry := Some 739285;
          halbe_var := false;
          item_rows := [(lit "Rucola", lit "Wöchentlich")];
          update_type := only_this |}
       weekly_store
     = (Rejected (msg_subscription_type (lit "Wöchentlich") (lit "Rucola")),
        weekly_store).
Proof.
  pose proof (amount_rejections example_env second_order
                {| delivery_date_entry := Some 739264; sub_var := 1;
                   from_date_entry := Some 739257; to_date_entry := Some 739285;
                   halbe_var := false;
                   item_rows := [(lit "Rucola", lit "Wöchentlich")];
                   update_type := only_this |}
                weekly_store (lit "Rucola") (lit "Wöchentlich"))
    as (_ & Hlabel & _ & _ & _ & Hsave).
  split.
  - apply Hlabel. refine (bool_decide_unpack _ _). vm_compute. exact I.
  - apply Hsave. vm_compute. reflexivity.
Defined.

(** C8, on the code.  In the series editor of main.py the rows are
    validated inside the transaction, each when its turn comes.  The
    amount "abc" of the second order is rejected with the parse
    message, and [save_all_changes] returns; the transaction commits
    what the first row wrote: the line item of the first order is gone
    from the database. *)
Theorem rejected_amount_after_a_saved_row :
  validate_amount (strip (lit "abc")) (lit "Rucola")
  = inl (msg_not_a_number (lit "Rucola"))
  /\ order_items weekly_store !! 1 = Some (line_item 1 1 rucola 2 739257)
  /\ save_all_changes example_env [first_order; second_order] series_edit weekly_store
     = (Rejected (msg_not_a_number (lit "Rucola")),
        {| items := items weekly_store;
           orders := orders weekly_store;
           order_items := delete 1 (order_items weekly_store) |}).
Proof.
  split; [reflexivity|]. split; [reflexivity|].
  vm_compute. reflexivity.
Qed.

End ValidationProofs.

(** ** Tables *)

Module StoreProofs.

Section Tables.
Context {A : Type}.
Implicit Types (t : gmap Z A) (p : Z -> A -> bool).

#[local] Instance key_le_transitive : Transitive (@key_le A).
Proof. intros a b c. unfold key_le. lia. Qed.

#[local] Instance key_le_total : Total (@key_le A).
Proof. intros a b. unfold key_le. lia. Qed.

Lemma elem_of_rows t k x : (k, x) ∈ rows t <-> t !! k = Some x.
Proof.
  unfold rows. rewrite merge_sort_Permutation. apply elem_of_map_to_list.
Qed.

Lemma rows_sorted t : StronglySorted key_le (rows t).
Proof. apply StronglySorted_merge_sort; apply _. Qed.

Lemma rows_NoDup t : NoDup (rows t).
Proof. unfold rows. rewrite merge_sort_Permutation. apply NoDup_map_to_list. Qed.

Lemma elem_of_select p t k x :
  (k, x) ∈ select p t <-> t !! k = Some x /\ p k x = true.
Proof.
  unfold select. rewrite list_elem_of_In, filter_In, <- list_elem_of_In.
  rewrite elem_of_rows. reflexivity.
Qed.

Lemma filter_sorted (f : Z * A -> bool) (l : list (Z * A)) :
  StronglySorted key_le l -> StronglySorted key_le (List.filter f l).
Proof.
  induction 1 as [|x l Hl IH Hx]; cbn; [constructor|].
  destruct (f x); [|exact IH].
  constructor; [exact IH|].
  apply Forall_forall. intros y Hy.
  apply list_elem_of_In, filter_In in Hy as [Hy _].
  rewrite Forall_forall in Hx. apply Hx, list_elem_of_In, Hy.
Qed.

Lemma filter_NoDup (f : Z * A -> bool) (l : list (Z * A)) :
  NoDup l -> NoDup (List.filter f l).
Proof.
  induction 1 as [|x l Hx Hl IH]; cbn; [constructor|].
  destruct (f x); [|exact IH].
  constructor; [|exact IH].
  intros Hin. apply Hx.
  apply list_elem_of_In, filter_In in Hin as [Hin _]. apply list_elem_of_In, Hin.
Qed.

(** Two queries that return the same rows return the same list. *)
Lemma select_ext p q t t' :
  (forall k x, (t !! k = Some x /\ p k x = true)
               <-> (t' !! k = Some x /\ q k x = true)) ->
  select p t = select q t'.
Proof.
  intros Hext.
  apply (StronglySorted_unique_strong key_le).
  - intros [k x] [k' x'] H1 H2 Hle Hge.
    apply elem_of_select in H1 as [H1 H1p], H2.
    unfold key_le in *. cbn in *. assert (k = k') as -> by lia.
    apply Hext in H2 as [H2 _]. congruence.
  - apply filter_sorted, rows_sorted.
  - apply filter_sorted, rows_sorted.
  - apply NoDup_Permutation.
    + apply filter_NoDup, rows_NoDup.
    + apply filter_NoDup, rows_NoDup.
    + intros [k x]. rewrite !elem_of_select. apply Hext.
Qed.

Lemma exists_where_true p t :
  exists_where p t = true <-> exists k x, t !! k = Some x /\ p k x = true.
Proof.
  unfold exists_where. split.
  - destruct (select p t) as [|[k x] l] eqn:E; [done|]. intros _.
    exists k, x. apply elem_of_select. rewrite E. left.
  - intros (k & x & Hk). apply elem_of_select in Hk.
    destruct (select p t); [by apply elem_of_nil in Hk | done].
Qed.

Lemma get_or_none_None p t :
  (forall k x, t !! k = Some x -> p k x = false) -> get_or_none p t = None.
Proof.
  intros Hnone. unfold get_or_none.
  destruct (select p t) as [|[k x] l] eqn:E; [done|].
  assert ((k, x) ∈ select p t) as Hin by (rewrite E; left).
  apply elem_of_select in Hin as [Hk Hp]. rewrite (Hnone _ _ Hk) in Hp. done.
Qed.

Lemma max_key_bound (l : list Z) k : k ∈ l -> k <= foldr Z.max 0 l.
Proof.
  induction l as [|a l IH]; [by intros ?%elem_of_nil|].
  intros [-> | Hin]%elem_of_cons; cbn; [lia|]. specialize (IH Hin). lia.
Qed.

Lemma next_id_above t k x : t !! k = Some x -> k < next_id t.
Proof.
  intros Hk. unfold next_id.
  assert (k ∈ map fst (map_to_list t)) as Hin.
  { apply list_elem_of_In, in_map_iff. exists (k, x). split; [done|].
    apply list_elem_of_In, elem_of_map_to_list, Hk. }
  apply max_key_bound in Hin. lia.
Qed.

Lemma next_id_fresh t : t !! next_id t = None.
Proof.
  destruct (t !! next_id t) eqn:E; [|done].
  apply next_id_above in E. lia.
Qed.

Lemma lookup_delete_rows (sel : list (Z * A)) t k :
  delete_rows sel t !! k = if decide (k ∈ sel.*1) then None else t !! k.
Proof.
  unfold delete_rows. induction sel as [|[k' x] sel IH]; cbn.
  - case_decide as Hin; [by apply elem_of_nil in Hin | done].
  - destruct (decide (k' = k)) as [->|Hne].
    + rewrite lookup_delete_eq. rewrite decide_True; [done | left].
    + rewrite lookup_delete_ne by done. rewrite IH.
      destruct (decide (k ∈ sel.*1)) as [Hin|Hnin].
      * rewrite decide_True; [done | by right].
      * rewrite decide_False; [done|].
        intros [?|?]%elem_of_cons; done.
Qed.

Lemma lookup_delete_where p t k :
  delete_where p t !! k
  = match t !! k with
    | Some x => if p k x then None else Some x
    | None => None
    end.
Proof.
  unfold delete_where. destruct (t !! k) as [x|] eqn:E.
  - destruct (p k x) eqn:Ep.
    + apply map_lookup_filter_None. right. intros x' Hx'. cbn. congruence.
    + apply map_lookup_filter_Some. done.
  - apply map_lookup_filter_None. by left.
Qed.

(** A row inserted under [next_id] is the last row of the table. *)
Lemma rows_insert_next t x :
  rows (<[next_id t := x]> t) = rows t ++ [(next_id t, x)].
Proof.
  apply (StronglySorted_unique_strong key_le).
  - intros [k v] [k' v'] H1 H2 Hle Hge. unfold key_le in *. cbn in *.
    assert (k = k') as -> by lia. f_equal.
    apply elem_of_rows in H1.
    apply elem_of_app in H2 as [H2 | H2%list_elem_of_singleton].
    + apply elem_of_rows in H2.
      destruct (decide (next_id t = k')) as [<-|Hne];
        [by rewrite next_id_fresh in H2|].
      rewrite lookup_insert_ne in H1 by done. congruence.
    + simplify_eq. rewrite lookup_insert_eq in H1. congruence.
  - apply rows_sorted.
  - apply StronglySorted_app. split; [|split].
    + intros [k v] [k' v'] Hk ->%list_elem_of_singleton.
      apply elem_of_rows, next_id_above in Hk. unfold key_le. cbn. lia.
    + apply rows_sorted.
    + repeat constructor.
  - unfold rows at 1. rewrite merge_sort_Permutation.
    rewrite map_to_list_insert by apply next_id_fresh.
    rewrite Permutation_cons_append. unfold rows.
    by rewrite merge_sort_Permutation.
Qed.

Lemma select_insert_next p t x :
  select p (<[next_id t := x]> t)
  = select p t ++ (if p (next_id t) x then [(next_id t, x)] else []).
Proof.
  unfold select. rewrite rows_insert_next, List.filter_app. cbn.
  by destruct (p (next_id t) x).
Qed.

End Tables.

Section Frame.
Context {F : Type}.
Implicit Types (st : db F) (oi : OrderItem F) (o : Order).

Lemma untouched_refl k' st : untouched k' st st.
Proof. split; [done | tauto]. Qed.

Lemma untouched_trans k' st1 st2 st3 :
  untouched k' st1 st2 -> untouched k' st2 st3 -> untouched k' st1 st3.
Proof.
  intros [Ho1 Hi1] [Ho2 Hi2]. split; [congruence|].
  intros i oi Hk. rewrite Hi2, Hi1 by done. tauto.
Qed.




Lemma untouched_order_items_of k' st st' :
  untouched k' st st' -> order_items_of st' k' = order_items_of st k'.
Proof.
  intros [_ Hi]. unfold order_items_of. apply select_ext.
  intros i oi. split; intros [Hl Hp]; (split; [|exact Hp]);
    apply Hi; try done; by apply Z.eqb_eq.
Qed.

Lemma untouched_create_order_item k' oi st :
  oi_order oi <> k' -> untouched k' st (create_order_item oi st).
Proof.
  intros Hne. split; [done|]. intros i oi' Hk. cbn.
  destruct (decide (next_id (order_items st) = i)) as [<-|Hi].
  - rewrite lookup_insert_eq, next_id_fresh. split; [congruence | done].
  - rewrite lookup_insert_ne by done. tauto.
Qed.

Lemma untouched_delete_items_of k' pk st :
  pk <> k' -> untouched k' st (delete_items_of pk st).
Proof.
  intros Hne. split; [done|]. intros i oi Hk. cbn.
  rewrite lookup_delete_rows. case_decide as Hin; [|tauto].
  split; [done|]. intros Hl. exfalso.
  apply list_elem_of_fmap in Hin as ([i' oi'] & -> & Hin).
  apply elem_of_select in Hin as [Hl' Hp]. cbn in *.
  apply Z.eqb_eq in Hp. congruence.
Qed.

Lemma untouched_save_order_row k' pk o st :
  pk <> k' -> untouched k' st (save_order_row pk o st).
Proof.
  intros Hne. split; [|tauto]. cbn. by rewrite lookup_alter_ne.
Qed.

Lemma untouched_delete_instance_recursive k' pk st :
  pk <> k' -> untouched k' st (delete_instance_recursive pk st).
Proof.
  intros Hne. split; cbn; [by rewrite lookup_delete_ne|].
  intros i oi Hk. rewrite lookup_delete_where.
  destruct (order_items st !! i) as [oi'|] eqn:E; [|done].
  destruct (Z.eqb_spec (oi_order oi') pk) as [Hpk|Hpk]; [|done].
  split; [done|]. intros [= ->]. congruence.
Qed.

Lemma untouched_create_order k' o st pk st' :
  is_Some (orders st !! k') ->
  create_order o st = Ok (pk, st') ->
  untouched k' st st' /\ pk <> k'.
Proof.
  intros [o' Hk'] Hc. unfold create_order in Hc.
  destruct (exists_where _ _); [done|]. simplify_eq.
  assert (next_id (orders st) <> k') as Hne.
  { intros <-. by rewrite next_id_fresh in Hk'. }
  split; [|done]. split; [|tauto]. cbn. by rewrite lookup_insert_ne.
Qed.




End Frame.

End StoreProofs.

(** ** Scoped edits *)

Module EditProofs.

Import StoreProofs.

Section Edits.
Context {F : Type}.
Implicit Types (st : db F) (e : env F) (o : Order).

Lemma create_items_frame e pk delivery data st st' :
  create_items e pk delivery data st = Ok st' ->
  orders st' = orders st
  /\ items st' = items st
  /\ forall k', pk <> k' -> untouched k' st st'.
Proof.
  revert st. induction data as [|[item_name a] data IH]; intros st Hc; cbn in Hc.
  - simplify_eq. repeat split; tauto.
  - destruct (lookup_item e item_name) as [r|] eqn:Er; [|done]. cbn in Hc.
    apply IH in Hc as (Ho & Hi & Hu). cbn in *.
    split; [done|]. split; [done|]. intros k' Hne.
    eapply untouched_trans; [|apply Hu, Hne].
    apply untouched_create_order_item. cbn. done.
Qed.

Lemma copy_items_frame pk delivery (current_items : list (Z * OrderItem F)) st st' :
  copy_items pk delivery current_items st = Ok st' ->
  orders st' = orders st
  /\ items st' = items st
  /\ forall k', pk <> k' -> untouched k' st st'.
Proof.
  revert st. induction current_items as [|[i oi] l IH]; intros st Hc; cbn in Hc.
  - simplify_eq. repeat split; tauto.
  - destruct (get_item st (oi_item oi)) as [it|] eqn:Eit; [|done]. cbn in Hc.
    apply IH in Hc as (Ho & Hi & Hu). cbn in *.
    split; [done|]. split; [done|]. intros k' Hne.
    eapply untouched_trans; [|apply Hu, Hne].
    apply untouched_create_order_item. cbn. done.
Qed.

Lemma delete_orders_frame k' (selected : list (Z * Order)) st :
  k' ∉ selected.*1 -> untouched k' st (delete_orders selected st).
Proof.
  unfold delete_orders. revert st.
  induction selected as [|[k o] l IH]; intros st Hn; cbn.
  - apply untouched_refl.
  - cbn in Hn. apply not_elem_of_cons in Hn as [Hne Hn].
    eapply untouched_trans; [|apply IH; exact Hn].
    apply untouched_delete_instance_recursive. congruence.
Qed.


Lemma create_future_frame e c current_items n drafts st st' k' :
  create_future e c current_items n drafts st = Ok st' ->
  is_Some (orders st !! k') ->
  untouched k' st st'.
Proof.
  revert n st. induction drafts as [|d drafts IH]; intros n st Hc Hk; cbn in Hc.
  - simplify_eq. apply untouched_refl.
  - destruct (exists_where _ _); [by eapply IH|].
    destruct (create_order _ st) as [[pk st1]|] eqn:Ec; [|done]. cbn in Hc.
    destruct (copy_items pk _ current_items st1) as [st2|] eqn:Ecp; [|done].
    cbn in Hc.
    destruct (untouched_create_order k' _ _ _ _ Hk Ec) as [Hu1 Hne].
    apply copy_items_frame in Ecp as (_ & _ & Hu2). specialize (Hu2 k' Hne).
    pose proof (untouched_trans _ _ _ _ Hu1 Hu2) as Hu12.
    eapply untouched_trans; [exact Hu12|].
    eapply IH; [exact Hc|]. destruct Hu12 as [-> _]. exact Hk.
Qed.





End Edits.


(** The same edit, run: orders 3, 4 and 5 are gone, and one biweekly
    order, 14 days after the edited one, takes the free row 3. *)
Lemma biweekly_from_the_second_order :
  save_changes example_env second_order
    (edit_form 739264 2 this_and_future) weekly_store
  = (Saved,
     {| items := items weekly_store;
        orders :=
          {[ 1 := weekly_order 739257 1001 false;
             2 := {| customer := 1; delivery_date := 739264;
                     from_date := Some 739257; to_date := Some 739285;
                     subscription_type := 2; halbe_channel := false;
                     order_id := 1002; is_future := true; created_at := 100 |};
             3 := {| customer := 1; delivery_date := 739278;
                     from_date := Some 739257; to_date := Some 739285;
                     subscription_type := 2; halbe_channel := false;
                     order_id := 2001; is_future := true; created_at := 500 |} ]};
        order_items :=
          {[ 1 := line_item 1 1 rucola 2 739257;
             6 := line_item 2 1 rucola 2 739264;
             7 := line_item 3 1 rucola 2 739278 ]} |}).
Proof. vm_compute. reflexivity. Qed.

Section Detach.
Context {F : Type} `{PyFloat F}.
Implicit Types (st : db F) (e : env F).

Lemma gather_row_known e row item_name (a : F) :
  gather_row e row = inr (item_name, a) -> is_Some (app_items e !! item_name).
Proof.
  unfold gather_row. intros Hg.
  repeat case_match; simplify_eq.
  match goal with
  | Hb : bool_decide (is_Some _) = true |- _ =>
      exact (proj1 (bool_decide_eq_true _) Hb)
  end.
Qed.

Lemma gather_items_known e item_rows (data : list (str * F)) :
  gather_items e item_rows = inr data ->
  Forall (fun d => is_Some (app_items e !! d.1)) data.
Proof.
  revert data. induction item_rows as [|row rest IH]; intros data Hg; cbn in Hg.
  - simplify_eq. constructor.
  - destruct (gather_row e row) as [|[item_name a]] eqn:Er; [done|].
    destruct (gather_items e rest) as [|data']; [done|]. simplify_eq.
    constructor; [by eapply gather_row_known | by apply IH].
Qed.

Lemma validate_known e f (p : parsed F) :
  validate e f = inr p ->
  Forall (fun d => is_Some (app_items e !! d.1)) (order_items_data p).
Proof.
  unfold validate. intros Hv.
  repeat case_match; simplify_eq; cbn; by eapply gather_items_known.
Qed.




End Detach.



End EditProofs.

(** ** Scoped deletes *)

Module DeleteProofs.

Import StoreProofs.

Section Deletes.
Context {F : Type}.
Implicit Types (st : db F) (e : env F) (o : Order).

Lemma order_items_of_resolved st pk r :
  items_resolved st -> r ∈ order_items_of st pk -> is_Some (items st !! oi_item r.2).
Proof.
  intros Hres Hin. destruct r as [i oi].
  apply elem_of_select in Hin as [Hl _]. by apply (Hres i).
Qed.




Lemma serialize_items_ok st (l : list (Z * OrderItem F)) :
  (forall r, r ∈ l -> is_Some (items st !! oi_item r.2)) ->
  serialize_items st l = Ok ((fun r => (r.1, oi_item r.2, amount r.2)) <$> l).
Proof.
  induction l as [|[i oi] l IH]; intros Hres; cbn; [done|].
  destruct (Hres (i, oi)) as [it Hit]; [left|]. cbn in Hit.
  unfold get_item. rewrite Hit. cbn.
  rewrite IH by (intros r Hr; apply Hres; by right). done.
Qed.

Lemma serialize_order_ok st pk o :
  items_resolved st ->
  exists d,
    serialize_order st pk o = Ok d
    /\ s_order_items d
       = Some ((fun r => (r.1, oi_item r.2, amount r.2)) <$> order_items_of st pk)
    /\ forall t, order_of_data d t
                 = {| customer := customer o; delivery_date := delivery_date o;
                      from_date := from_date o; to_date := to_date o;
                      subscription_type := subscription_type o;
                      halbe_channel := halbe_channel o; order_id := order_id o;
                      is_future := is_future o; created_at := t |}.
Proof.
  intros Hres. unfold serialize_order.
  rewrite serialize_items_ok
    by (intros r Hr; by eapply order_items_of_resolved).
  cbn. eexists. split; [reflexivity|]. split; reflexivity.
Qed.




End Deletes.


End DeleteProofs.

(** ** Undo *)

Module UndoProofs.

Import StoreProofs DeleteProofs.

Section Undo.
Context {F : Type}.
Implicit Types (st : db F) (e : env F) (o : Order) (l : log F).

Lemma select_nil {A} (p : Z -> A -> bool) (t : gmap Z A) :
  (forall k x, t !! k = Some x -> p k x = false) -> select p t = [].
Proof.
  intros Hnone. destruct (select p t) as [|[k x] rest] eqn:E; [done|].
  assert ((k, x) ∈ select p t) as Hin by (rewrite E; left).
  apply elem_of_select in Hin as [Hk Hp]. rewrite (Hnone _ _ Hk) in Hp. done.
Qed.

Lemma exists_where_false {A} (p : Z -> A -> bool) (t : gmap Z A) :
  (forall k x, t !! k = Some x -> p k x = false) -> exists_where p t = false.
Proof. intros Hnone. unfold exists_where. by rewrite select_nil. Qed.

(** The newest action is at the pointer. *)
Lemma record_action_top (ty : action_type) (old new : data F) l :
  let l' := record_action ty old new l in
  0 <= undo_pointer l'
  /\ undo_stack l' <> []
  /\ undo_stack l' !! Z.to_nat (undo_pointer l')
     = Some {| a_type := ty; old_data := old; new_data := new |}.
Proof.
  unfold record_action.
  set (stack0 := if _ <? _ then _ else _).
  set (a := {| a_type := ty; old_data := old; new_data := new |}).
  assert ((stack0 ++ [a]) !! List.length stack0 = Some a) as Hlast
    by (apply list_lookup_middle; reflexivity).
  assert (List.length (stack0 ++ [a]) = S (List.length stack0)) as Hlen
    by (rewrite length_app; cbn; lia).
  cbn [undo_pointer undo_stack].
  destruct (Nat.ltb_spec max_undo_steps (List.length (stack0 ++ [a]))) as [Hbig|Hsmall].
  - unfold max_undo_steps in Hbig.
    assert (List.length (drop 1 (stack0 ++ [a])) = List.length stack0) as Hd
      by (rewrite length_drop; lia).
    rewrite Hd. split; [lia|]. split.
    + intros E. rewrite E in Hd. cbn in Hd. lia.
    + rewrite lookup_drop.
      replace (1 + Z.to_nat (Z.of_nat (List.length stack0) - 1))%nat
        with (List.length stack0) by lia.
      exact Hlast.
  - rewrite Hlen. split; [lia|]. split.
    + by destruct stack0.
    + replace (Z.to_nat (Z.of_nat (S (List.length stack0)) - 1))
        with (List.length stack0) by lia.
      exact Hlast.
Qed.

Lemma order_items_of_create_order_item st oi pk :
  order_items_of (create_order_item oi st) pk
  = order_items_of st pk
    ++ (if oi_order oi =? pk then [(next_id (order_items st), oi)] else []).
Proof. unfold order_items_of. cbn. apply select_insert_next. Qed.

(** "Recreate order items" appends one line item per entry of the
    snapshot, in the snapshot's order. *)
Lemma recreate_items_spec pk delivery (data : list (Z * Z * F)) st :
  (forall x, x ∈ data -> is_Some (items st !! x.1.2)) ->
  exists st',
    recreate_items pk delivery data st = Ok st'
    /\ items st' = items st
    /\ orders st' = orders st
    /\ pairs (order_items_of st' pk)
       = pairs (order_items_of st pk) ++ ((fun x => (x.1.2, x.2)) <$> data)
    /\ forall k', pk <> k' -> untouched k' st st'.
Proof.
  revert st. induction data as [|[[i item_id] a] data IH]; intros st Hres; cbn.
  - exists st. rewrite app_nil_r. repeat split; tauto.
  - destruct (Hres (i, item_id, a)) as [it Hit]; [left|]. cbn in Hit.
    unfold get_item. rewrite Hit. cbn.
    set (st1 := create_order_item _ st).
    destruct (IH st1) as (st' & Hrun & Hi & Ho & Hp & Hu).
    { intros x Hx. apply Hres. by right. }
    exists st'. split; [exact Hrun|]. split; [by rewrite Hi|].
    split; [by rewrite Ho|]. split.
    + rewrite Hp. unfold st1. rewrite order_items_of_create_order_item. cbn.
      rewrite Z.eqb_refl. unfold pairs. rewrite fmap_app. cbn.
      by rewrite <- app_assoc.
    + intros k' Hne. eapply untouched_trans; [|by apply Hu].
      apply untouched_create_order_item. done.
Qed.

Lemma undo_create_order_spec st id n :
  unique_order_ids st ->
  let st' := undo_create_order (Created id n : data F) st in
  (forall k o, orders st' !! k = Some o ->
     orders st !! k = Some o /\ order_id o <> id)
  /\ (forall k main,
        orders st !! k = Some main ->
        order_id main = id ->
        is_Some (from_date main) -> is_Some (to_date main) ->
        0 < subscription_type main ->
        forall k' o,
          orders st' !! k' = Some o ->
          ~ (from_date o = from_date main /\ to_date o = to_date main
             /\ customer o = customer main)).
Proof.
  intros Huniq. unfold undo_create_order. cbn [new_order_id].
  destruct (select _ (orders st)) as [|[k0 main0] rest] eqn:Esel.
  - split.
    + intros k o Hk. split; [done|]. intros Hid.
      assert ((k, o) ∈ select (fun _ o => order_id o =? id) (orders st)) as Hin
        by (apply elem_of_select; split; [done | by apply Z.eqb_eq]).
      rewrite Esel in Hin. by apply elem_of_nil in Hin.
    + intros k main Hk Hid _ _ _.
      assert ((k, main) ∈ select (fun _ o => order_id o =? id) (orders st)) as Hin
        by (apply elem_of_select; split; [done | by apply Z.eqb_eq]).
      rewrite Esel in Hin. by apply elem_of_nil in Hin.
  - assert (orders st !! k0 = Some main0 /\ order_id main0 = id) as [Hk0 Hid0].
    { assert ((k0, main0) ∈ select (fun _ o => order_id o =? id) (orders st)) as Hin
        by (rewrite Esel; left).
      apply elem_of_select in Hin as [? ?%Z.eqb_eq]. done. }
    assert (forall k o, orders st !! k = Some o -> order_id o = id ->
                        k = k0 /\ o = main0) as Honly.
    { intros k o Hk Hid.
      assert (k = k0) as -> by (apply (Huniq _ _ Hk _ _ Hk0); congruence).
      split; congruence. }
    destruct (bool_decide (is_Some (from_date main0))
              && bool_decide (is_Some (to_date main0))
              && (0 <? subscription_type main0)) eqn:Esub; cbn.
    + assert (forall k o,
                 delete_where
                   (fun _ o => bool_decide (from_date o = from_date main0)
                               && bool_decide (to_date o = to_date main0)
                               && (customer o =? customer main0))
                   (orders st) !! k = Some o ->
                 orders st !! k = Some o
                 /\ ~ (from_date o = from_date main0 /\ to_date o = to_date main0
                       /\ customer o = customer main0)) as Hdel.
      { intros k o. rewrite lookup_delete_where.
        destruct (orders st !! k) as [o'|]; [|done].
        destruct (bool_decide _ && bool_decide _ && (_ =? _)) eqn:Ep; [done|].
        intros [= ->]. split; [done|].
        intros (Hf & Ht & Hc).
        rewrite !bool_decide_eq_true_2 in Ep by done.
        apply Z.eqb_eq in Hc. rewrite Hc in Ep. done. }
      split.
      * intros k o Hk. apply Hdel in Hk as [Hk Hnot]. split; [done|].
        intros Hid. destruct (Honly _ _ Hk Hid) as [_ ->]. by apply Hnot.
      * intros k main Hk Hid _ _ _ k' o Hk'.
        destruct (Honly _ _ Hk Hid) as [_ ->]. by apply Hdel in Hk' as [_ ?].
    + split.
      * intros k o. rewrite lookup_delete_where.
        destruct (orders st !! k) as [o'|]; [|done].
        destruct (Z.eqb_spec (order_id o') id); [done|]. by intros [= ->].
      * intros k main Hk Hid [? Hf] [? Ht] Hs.
        destruct (Honly _ _ Hk Hid) as [_ ->].
        rewrite !bool_decide_eq_true_2 in Esub by eauto.
        apply Z.ltb_lt in Hs. rewrite Hs in Esub. done.
Qed.

Lemma undo_delete_restores e t st l k o pd :
  orders st !! k = Some o ->
  items_resolved st ->
  orders_resolved st ->
  unique_order_ids st ->
  exists st1 l1 st2 l2 k',
    delete_order e {| obj_id := k; obj_fields := o; obj_production_date := pd |}
      only_this st l
    = (Ok tt, st1, l1)
    /\ orders st1 !! k = None
    /\ undo_last_action t st1 l1 = (Undone, st2, l2)
    /\ orders st2 !! k' = Some (restored o t)
    /\ pairs (order_items_of st2 k') = pairs (order_items_of st k)
    /\ (forall k'' o'',
          orders st !! k'' = Some o'' ->
          k'' <> k ->
          orders st2 !! k'' = Some o''
          /\ order_items_of st2 k'' = order_items_of st k'').
Proof.
  intros Hk Hires Hores Huniq.
  destruct (serialize_order_ok st k o Hires) as (d & Hser & Hitems & Hfields).
  assert (s_order_id d = order_id o) as Hid
    by exact (f_equal order_id (Hfields 0)).
  assert (s_delivery_date d = delivery_date o) as Hdel
    by exact (f_equal delivery_date (Hfields 0)).
  unfold delete_order, atomic. cbn [obj_id obj_fields]. rewrite Hser. cbn.
  set (st1 := delete_instance_recursive k st).
  set (l1 := record_action ACTION_DELETE_ORDER (OrderData d) NoData l).
  destruct (record_action_top ACTION_DELETE_ORDER (OrderData d) NoData l)
    as (Hptr & Hstack & Htop).
  fold l1 in Hptr, Hstack, Htop.
  assert (forall k2 x, orders st1 !! k2 = Some x ->
                       (order_id x =? s_order_id d) = false) as Hnone.
  { intros k2 x Hx. cbn in Hx.
    destruct (decide (k = k2)) as [->|Hne]; [by rewrite lookup_delete_eq in Hx|].
    rewrite lookup_delete_ne in Hx by done.
    apply Z.eqb_neq. intros Hsame. apply Hne.
    apply (Huniq _ _ Hk _ _ Hx). congruence. }
  set (pk := next_id (orders st1)).
  set (st1' := {| items := items st1;
                  orders := <[pk := order_of_data d t]> (orders st1);
                  order_items := order_items st1 |}).
  assert (create_order (order_of_data d t) st1 = Ok (pk, st1')) as Hcreate.
  { unfold create_order. by rewrite exists_where_false. }
  set (data := (fun r : Z * OrderItem F => (r.1, oi_item r.2, amount r.2))
                 <$> order_items_of st k) in Hitems.
  destruct (recreate_items_spec pk (s_delivery_date d) data st1')
    as (st2 & Hrun & Hi2 & Ho2 & Hp2 & Hu2).
  { intros x Hx. apply list_elem_of_fmap in Hx as (r & -> & Hr). cbn.
    by eapply order_items_of_resolved. }
  assert (recreate_one t d st1 = (pop_order_items d, Ok st2)) as Hrec.
  { unfold recreate_one. rewrite get_or_none_None by exact Hnone.
    rewrite Hcreate, Hitems. cbn. by rewrite Hrun. }
  assert (order_items_of st1' pk = []) as Hempty.
  { apply select_nil. intros i oi Hl. cbn in Hl.
    rewrite lookup_delete_where in Hl.
    destruct (order_items st !! i) as [oi'|] eqn:Eoi; [|done].
    destruct (Z.eqb_spec (oi_order oi') k) as [|Hnk]; [done|]. simplify_eq.
    destruct (Hores _ _ Eoi) as [o1 Ho1].
    assert (orders st1 !! oi_order oi = Some o1) as Hin1
      by (cbn; by rewrite lookup_delete_ne).
    apply next_id_above in Hin1. apply Z.eqb_neq. fold pk in Hin1. lia. }
  exists st1, l1, st2.
  eexists. exists pk.
  split; [reflexivity|].
  split; [cbn; apply lookup_delete_eq|].
  split.
  { unfold undo_last_action.
    rewrite bool_decide_eq_false_2 by exact Hstack.
    destruct (Z.ltb_spec (undo_pointer l1) 0) as [|_]; [lia|].
    cbn [orb]. rewrite Htop. cbn [a_type old_data new_data recreate_order_from_data].
    rewrite Hrec. reflexivity. }
  split.
  { rewrite Ho2. cbn. rewrite lookup_insert_eq. by rewrite Hfields. }
  split.
  { rewrite Hp2, Hempty. cbn. unfold data, pairs.
    rewrite <- list_fmap_compose. reflexivity. }
  intros k'' o'' Hk'' Hne.
  assert (untouched k'' st st2) as Hu.
  { eapply untouched_trans;
      [apply (untouched_delete_instance_recursive k'' k); done|].
    fold st1.
    assert (is_Some (orders st1 !! k'')) as Hin1
      by (cbn; rewrite lookup_delete_ne by done; eauto).
    destruct (untouched_create_order k'' _ _ _ _ Hin1 Hcreate) as [Hu1 Hpk].
    eapply untouched_trans; [exact Hu1|]. by apply Hu2. }
  split; [destruct Hu as [-> _]; exact Hk'' | by apply untouched_order_items_of].
Qed.

(** The part of C7 that the code keeps.  Undoing a recorded creation
    removes every order with the recorded identifier, and for a
    subscription seed every order of its customer and window.  On a
    store in which every line item belongs to an order of the order
    table, undoing the deletion of an order brings it back, possibly
    under another row id, with the fields of the snapshot (identifier,
    customer, delivery date, window, cadence, channel, [is_future]) and
    the same item/amount pairs in the same order; its creation time is
    the time of the undo.  The other orders are as they were before the
    deletion. *)
Theorem undo_round_trip e t st l :
  (forall id n,
      unique_order_ids st ->
      let l1 := record_action ACTION_CREATE_ORDER NoData (Created id n) l in
      exists st' l',
        undo_last_action t st l1 = (Undone, st', l')
        /\ undo_pointer l' = undo_pointer l1 - 1
        /\ (forall k o, orders st' !! k = Some o ->
              orders st !! k = Some o /\ order_id o <> id)
        /\ (forall k main,
              orders st !! k = Some main ->
              order_id main = id ->
              is_Some (from_date main) -> is_Some (to_date main) ->
              0 < subscription_type main ->
              forall k' o,
                orders st' !! k' = Some o ->
                ~ (from_date o = from_date main /\ to_date o = to_date main
                   /\ customer o = customer main)))
  /\ (forall k o pd,
        orders st !! k = Some o ->
        items_resolved st ->
        orders_resolved st ->
        unique_order_ids st ->
        exists st1 l1 st2 l2 k',
          delete_order e {| obj_id := k; obj_fields := o; obj_production_date := pd |}
            only_this st l
          = (Ok tt, st1, l1)
          /\ orders st1 !! k = None
          /\ undo_last_action t st1 l1 = (Undone, st2, l2)
          /\ orders st2 !! k' = Some (restored o t)
          /\ pairs (order_items_of st2 k') = pairs (order_items_of st k)
          /\ (forall k'' o'',
                orders st !! k'' = Some o'' ->
                k'' <> k ->
                orders st2 !! k'' = Some o''
                /\ order_items_of st2 k'' = order_items_of st k'')).
Proof.
  split.
  - intros id n Huniq l1.
    destruct (record_action_top ACTION_CREATE_ORDER NoData (Created id n) l)
      as (Hptr & Hstack & Htop).
    fold l1 in Hptr, Hstack, Htop.
    destruct (undo_create_order_spec st id n Huniq) as [Hgone Hseries].
    eexists _, _. split.
    { unfold undo_last_action.
      rewrite bool_decide_eq_false_2 by exact Hstack.
      destruct (Z.ltb_spec (undo_pointer l1) 0) as [|_]; [lia|].
      cbn [orb]. rewrite Htop. reflexivity. }
    split; [reflexivity|]. split; [exact Hgone | exact Hseries].
  - intros k o pd. apply undo_delete_restores.
Qed.

End Undo.

(** The second weekly order, deleted and restored by undo. *)
Lemma undo_round_trip_witness :
  exists st2 k',
    second_order_restored.1.2 = st2
    /\ orders st2 !! k' = Some (restored (weekly_order 739264 1002 true) 500)
    /\ pairs (order_items_of st2 k') = [(1, 2)].
Proof.
  destruct (undo_round_trip example_env 500 weekly_store
              {| undo_stack := []; undo_pointer := -1 |}) as [_ Hdelete].
  destruct (Hdelete 2 (weekly_order 739264 1002 true) (PdDate 739258))
    as (st1 & l1 & st2 & l2 & k' & Hdel & _ & Hundo & Hrow & Hpairs & _).
  - reflexivity.
  - refine (bool_decide_unpack _ _). vm_compute. exact I.
  - refine (bool_decide_unpack _ _). vm_compute. exact I.
  - refine (bool_decide_unpack _ _). vm_compute. exact I.
  - exists st2, k'. split; [|split; [exact Hrow | exact Hpairs]].
    unfold second_order_restored, second_order_deleted, second_order.
    rewrite Hdel. cbn [fst snd]. rewrite Hundo. reflexivity.
Defined.

(** The creation time is not part of the snapshot: the order was
    created at time 100; deleted and restored by an undo at time 500, it
    is back under row 6 with creation time 500. *)
Lemma restored_order_has_a_new_creation_time :
  second_order_restored.1.1 = Undone
  /\ orders weekly_store !! 2 = Some (weekly_order 739264 1002 true)
  /\ created_at (weekly_order 739264 1002 true) = 100
  /\ orders second_order_restored.1.2 !! 2 = None
  /\ orders second_order_restored.1.2 !! 6
     = Some {| customer := 1; delivery_date := 739264; from_date := Some 739257;
               to_date := Some 739285; subscription_type := 1;
               halbe_channel := false; order_id := 1002; is_future := true;
               created_at := 500 |}.
Proof. repeat split. Qed.

(** C7, on the code.  Undoing a creation deletes the order rows alone
    ([Order.delete().where(...)]), so the line items of the created
    order stay behind, and the next order row the database hands out
    has the number of the deleted one.  In the session of
    [first_order_restored] the order 2001 with 9 units of Basilikum is
    saved in row 3 and its creation is undone; the order 1001, which
    has 2 units of Rucola, is then deleted and the deletion undone.
    The order 1001 comes back in row 3, where the line item of the
    order 2001 still is: it now has 9 units of Basilikum and 2 units of
    Rucola, not the item/amount pairs it was deleted with. *)
Theorem undo_of_a_deletion_picks_up_foreign_line_items :
  order_created.1.1.1.1 = Saved
  /\ orders order_created.1.2 !! 3
     = Some {| customer := 2; delivery_date := 739270; from_date := None;
               to_date := None; subscription_type := 0;
               halbe_channel := false; order_id := 2001; is_future := false;
               created_at := 500 |}
  /\ pairs (order_items_of order_created.1.2 3) = [(2, 9)]
  /\ creation_undone.1.1 = Undone
  /\ orders creation_undone.1.2 = orders plan_store
  /\ order_items creation_undone.1.2 !! 3
     = Some (line_item 3 2 basilikum 9 739270)
  /\ orders creation_undone.1.2 !! 1 = Some (weekly_order 739257 1001 false)
  /\ pairs (order_items_of creation_undone.1.2 1) = [(1, 2)]
  /\ first_order_deleted.1.1 = Ok tt
  /\ orders first_order_deleted.1.2 !! 1 = None
  /\ first_order_restored.1.1 = Undone
  /\ orders first_order_restored.1.2
     = {[ 2 := weekly_order 739261 1002 false;
          3 := restored (weekly_order 739257 1001 false) 600 ]}
  /\ pairs (order_items_of first_order_restored.1.2 3) = [(2, 9); (1, 2)].
Proof.
  assert (orders creation_undone.1.2 = orders plan_store) as Horders
    by (vm_compute; reflexivity).
  assert (orders first_order_restored.1.2
          = {[ 2 := weekly_order 739261 1002 false;
               3 := restored (weekly_order 739257 1001 false) 600 ]}) as Hrestored
    by (vm_compute; reflexivity).
  repeat split; try exact Horders; try exact Hrestored; vm_compute; reflexivity.
Qed.

End UndoProofs.

(** ** The production view *)

Module QueryProofs.

Import StoreProofs.

Section Plan.
Context {F : Type} `{PyFloat F}.

(** The rows the query groups: the line items produced inside the
    window whose order and item exist. *)
Lemma elem_of_joined (st : db F) (s e : date) (oi : OrderItem F) (it : Item F) :
  (oi, it) ∈ joined st (Some s) (Some e)
  <-> (exists i, order_items st !! i = Some oi)
      /\ is_Some (orders st !! oi_order oi)
      /\ items st !! oi_item oi = Some it
      /\ s <= production_date oi <= e.
Proof.
  unfold joined. rewrite list_elem_of_omap. split.
  - intros ([i oi'] & Hin & Hrow). apply elem_of_rows in Hin. cbn in Hrow.
    destruct (orders st !! oi_order oi') eqn:Eo; [|done].
    destruct (items st !! oi_item oi') eqn:Ei; [|done].
    destruct ((s <=? production_date oi') && (production_date oi' <=? e)) eqn:Ew;
      [|done].
    simplify_eq. apply andb_prop in Ew as [?%Z.leb_le ?%Z.leb_le].
    rewrite Eo. eauto 10.
  - intros ([i Hi] & [o Ho] & Hit & Hs & He).
    exists (i, oi). split; [by apply elem_of_rows|]. cbn.
    rewrite Ho, Hit.
    destruct (Z.leb_spec s (production_date oi)); [|lia].
    destruct (Z.leb_spec (production_date oi) e); [|lia]. done.
Qed.

(** Whatever order the engine picks, the result consists of the groups
    and its production dates ascend. *)
Lemma production_plan_by_date (st : db F) (s e : option date)
    (results : list (plan_row F)) :
  get_production_plan st s e results ->
  results ≡ₚ plan_groups st s e
  /\ StronglySorted Z.le (r_production_date <$> results).
Proof.
  intros [Hperm Hsorted]. split; [exact Hperm|]. clear Hperm.
  induction Hsorted as [|a rest Hs IH Ha]; [constructor|].
  cbn. constructor; [exact IH|].
  apply Forall_fmap. exact Ha.
Qed.

End Plan.


End QueryProofs.

(** ** Further properties of the date rules *)

Module DateRuleProofs.

Import DatabaseProofs.

Section Dates.
Context {F : Type}.
Implicit Types (order : OrderObj F) (items : list (OrderItemObj F)).

Lemma weekday_range (d : date) : 0 <= weekday d <= 6.
Proof. unfold weekday. pose proof (Z.mod_pos_bound (d + 6) 7). lia. Qed.

Lemma weekday_before_sunday (d : date) : weekday d = 6 -> weekday (d - 1) = 5.
Proof.
  unfold weekday. intros Hd.
  replace (d - 1 + 6) with ((d + 6) - 1) by lia.
  pose proof (Z.div_mod (d + 6) 7 ltac:(lia)) as Hdm.
  replace (d + 6 - 1) with (5 + (d + 6) / 7 * 7) by lia.
  rewrite Z.mod_add by lia. reflexivity.
Qed.

Lemma production_dates_keys (D : date) items (b : bool) :
  map fst (calculate_itemwise_production_dates D items b) = items.
Proof.
  unfold calculate_itemwise_production_dates. rewrite map_map. cbn. apply map_id.
Qed.

(** X1. With [allow_sunday=False] no date in the dictionary of
    [calculate_itemwise_production_dates] is a Sunday: each item is sown
    [total_days] before the delivery, or one day earlier when that day
    is a Sunday.  With [allow_sunday=True] each item is sown exactly
    [total_days] before the delivery.  The dictionary has one entry for
    each item, in the order of the items. *)
Theorem disallowed_sunday_is_never_produced (D : date) items :
  map fst (calculate_itemwise_production_dates D items false) = items
  /\ Forall (fun p => weekday p.2 <> 6
                      /\ D - total_days (obj_item p.1) - 1 <= p.2
                         <= D - total_days (obj_item p.1))
       (calculate_itemwise_production_dates D items false)
  /\ Forall (fun p => p.2 = D - total_days (obj_item p.1))
       (calculate_itemwise_production_dates D items true).
Proof.
  unfold calculate_itemwise_production_dates. repeat split.
  - rewrite map_map. cbn. apply map_id.
  - apply List.Forall_forall. intros p Hp. apply in_map_iff in Hp.
    destruct Hp as (oi & <- & _). cbn. unfold production_date_of. cbn.
    destruct (weekday (D - total_days (obj_item oi)) =? 6) eqn:Hw.
    + apply Z.eqb_eq in Hw. rewrite (weekday_before_sunday _ Hw). lia.
    + apply Z.eqb_neq in Hw. lia.
  - apply List.Forall_forall. intros p Hp. apply in_map_iff in Hp.
    destruct Hp as (oi & <- & _). reflexivity.
Qed.






Lemma expansion_loop_Forall (P : draft F -> Prop) order items delta to_d fuel :
  (forall current, P (new_order order items current)) ->
  forall current,
    Forall P (expansion_loop fuel order items delta to_d current).
Proof.
  intros HP. induction fuel as [|fuel IH]; intros current; cbn; [constructor|].
  destruct (current <=? to_d); [|constructor].
  constructor; [apply HP | apply IH].
Qed.

Lemma expansion_loop_bounds order items delta to_d fuel :
  0 < delta ->
  forall current,
    Forall (fun d => current <= d_delivery_date d <= to_d)
      (expansion_loop fuel order items delta to_d current).
Proof.
  intros Hdelta. induction fuel as [|fuel IH]; intros current; cbn; [constructor|].
  destruct (current <=? to_d) eqn:Hle; [|constructor].
  apply Z.leb_le in Hle. constructor; [cbn; lia|].
  eapply Forall_impl; [apply IH|]. cbn. intros d Hd. lia.
Qed.

(** X3. Every dictionary [generate_subscription_orders] returns takes
    customer, window, subscription type and channel from the seed order
    and has [is_future] set; its delivery date lies after the seed's
    delivery date and not after [to_date]; its production dictionary has
    one entry for each line item of the seed.  When the seed's
    [production_date] attribute is one date, as [save_order] sets it,
    each of these entries is [total_days] before that delivery date,
    Sundays included. *)
Theorem drafts_inherit_the_seed order items (drafts : list (draft F)) :
  generate_subscription_orders order items = Ok drafts ->
  let o := obj_fields order in
  Forall
    (fun d =>
       d_customer d = customer o
       /\ d_subscription_type d = subscription_type o
       /\ d_from_date d = from_date o
       /\ d_to_date d = to_date o
       /\ d_halbe_channel d = halbe_channel o
       /\ d_is_future d = true
       /\ delivery_date o < d_delivery_date d
       /\ (forall t, to_date o = Some t -> d_delivery_date d <= t)
       /\ map fst (d_production_date d) = items
       /\ (forall x, obj_production_date order = PdDate x ->
             Forall (fun p => p.2 = d_delivery_date d - total_days (obj_item p.1))
               (d_production_date d)))
    drafts.
Proof.
  intros Hgen o. unfold generate_subscription_orders in Hgen. fold o in Hgen.
  destruct (subscription_type o =? 0); [injection Hgen as <-; constructor|].
  destruct (from_date o) as [f|] eqn:Ef; [|injection Hgen as <-; constructor].
  destruct (to_date o) as [t|] eqn:Et; [|injection Hgen as <-; constructor].
  destruct (frequencies (subscription_type o)) as [delta|] eqn:Efreq; [|discriminate].
  injection Hgen as <-.
  assert (0 < delta) as Hdelta.
  { apply frequencies_positive in Efreq. unfold cadence_days in Efreq. lia. }
  unfold expansion.
  pose proof (expansion_loop_bounds order items delta t
                (Z.to_nat (t - (delivery_date o + delta) + 1)) Hdelta
                (delivery_date o + delta)) as Hbounds.
  assert (Forall
            (fun d =>
               d_customer d = customer o
               /\ d_subscription_type d = subscription_type o
               /\ d_from_date d = Some f
               /\ d_to_date d = Some t
               /\ d_halbe_channel d = halbe_channel o
               /\ d_is_future d = true
               /\ map fst (d_production_date d) = items
               /\ (forall x, obj_production_date order = PdDate x ->
                     Forall (fun p => p.2 = d_delivery_date d
                                            - total_days (obj_item p.1))
                       (d_production_date d)))
            (expansion_loop (Z.to_nat (t - (delivery_date o + delta) + 1))
               order items delta t (delivery_date o + delta))) as Hfields.
  { apply expansion_loop_Forall.
    intros current. unfold new_order. cbn. fold o. rewrite Ef, Et.
    repeat split; try reflexivity.
    - apply production_dates_keys.
    - intros x Hx. rewrite Hx. cbn.
      apply List.Forall_forall. intros p Hp.
      unfold calculate_itemwise_production_dates in Hp. apply in_map_iff in Hp.
      destruct Hp as (oi & <- & _). reflexivity. }
  rewrite Forall_forall in Hbounds, Hfields. apply Forall_forall. intros d Hd.
  destruct (Hbounds d Hd) as [Hlo Hhi].
  destruct (Hfields d Hd) as (Hc & Hs & Hf & Ht & Hh & Hfut & Hkeys & Hpd).
  repeat split; try assumption; try lia.
  intros t' Ht'. injection Ht' as <-. exact Hhi.
Qed.

End Dates.

(** The seed of the examples expands to four deliveries that carry its
    fields. *)
Lemma drafts_inherit_the_seed_witness :
  exists drafts,
    generate_subscription_orders monday_seed [two_rucola] = Ok drafts
    /\ Forall (fun d => d_customer d = 1 /\ d_is_future d = true
                        /\ 739257 < d_delivery_date d <= 739285)
         drafts.
Proof.
  eexists. split; [reflexivity|].
  eapply Forall_impl;
    [exact (drafts_inherit_the_seed monday_seed [two_rucola] _ eq_refl)|].
  cbn. intros d (Hc & _ & _ & _ & _ & Hfut & Hlo & Hhi & _).
  repeat split; try assumption. apply Hhi. reflexivity.
Defined.

End DateRuleProofs.

(** ** The undo log *)

Module LogProofs.

Section Logs.
Context {F : Type}.
Implicit Types (l : log F) (st : db F).

Lemma empty_log_ok : log_ok (@empty_log F).
Proof. unfold log_ok, empty_log, max_undo_steps. cbn. lia. Qed.

(** X4. [record_action] on a well-formed log: the actions above the
    pointer, which are the undone ones, are discarded, the new action
    is appended, and when that makes more than [max_undo_steps] actions
    the oldest one is dropped.  The log stays well formed, with at most
    20 actions, and the pointer is the index of the new action. *)
Theorem record_action_bounds_the_log (ty : action_type) (old new : data F) l :
  log_ok l ->
  let a := {| a_type := ty; old_data := old; new_data := new |} in
  let kept := take (Z.to_nat (undo_pointer l + 1)) (undo_stack l) in
  let l' := record_action ty old new l in
  log_ok l'
  /\ undo_stack l'
     = (if (max_undo_steps <? List.length (kept ++ [a]))%nat
        then drop 1 (kept ++ [a]) else kept ++ [a])
  /\ List.length (undo_stack l')
     = Nat.min max_undo_steps (Z.to_nat (undo_pointer l + 2))
  /\ undo_pointer l' = Z.of_nat (List.length (undo_stack l')) - 1
  /\ last (undo_stack l') = Some a.
Proof.
  intros [Hp Hlen] a kept l'.
  assert (undo_stack l'
          = (if (max_undo_steps <? List.length (kept ++ [a]))%nat
             then drop 1 (kept ++ [a]) else kept ++ [a])) as Hstack.
  { subst l' kept a. unfold record_action. cbn [undo_stack].
    destruct (undo_pointer l <? Z.of_nat (List.length (undo_stack l)) - 1) eqn:Hlt;
      [reflexivity|].
    apply Z.ltb_ge in Hlt.
    rewrite (take_ge (undo_stack l)) by lia. reflexivity. }
  assert (List.length kept = Z.to_nat (undo_pointer l + 1)) as Hkept.
  { subst kept. rewrite length_take. lia. }
  assert (List.length (kept ++ [a]) = Z.to_nat (undo_pointer l + 2)) as Happ.
  { rewrite length_app, Hkept. cbn. lia. }
  assert (undo_pointer l' = Z.of_nat (List.length (undo_stack l')) - 1) as Hptr.
  { reflexivity. }
  unfold log_ok. unfold max_undo_steps in *.
  destruct (20 <? List.length (kept ++ [a]))%nat eqn:Hover.
  - apply Nat.ltb_lt in Hover.
    assert (List.length (undo_stack l') = 20%nat) as Hl'.
    { rewrite Hstack, length_drop. lia. }
    split; [lia|]. split; [exact Hstack|]. split; [lia|]. split; [exact Hptr|].
    rewrite Hstack. destruct kept as [|x kept']; [cbn in Hover; lia|].
    cbn. rewrite drop_0. apply last_snoc.
  - apply Nat.ltb_ge in Hover.
    assert (List.length (undo_stack l') = Z.to_nat (undo_pointer l + 2)) as Hl'.
    { rewrite Hstack. exact Happ. }
    split; [lia|]. split; [exact Hstack|]. split; [lia|]. split; [exact Hptr|].
    rewrite Hstack. apply last_snoc.
Qed.

Lemma recreate_items_raises pk delivery (data : list (Z * Z * F)) st e :
  recreate_items pk delivery data st = Raise e -> e = DoesNotExist.
Proof.
  revert st. induction data as [|[[i item_id] a] data IH]; intros st; cbn;
    [discriminate|].
  unfold get_item. destruct (items st !! item_id); cbn.
  - apply IH.
  - congruence.
Qed.

Lemma recreate_one_raises t (d : order_data F) st e :
  (recreate_one t d st).2 = Raise e -> e = DoesNotExist \/ e = IntegrityError.
Proof.
  unfold recreate_one. cbn.
  destruct (get_or_none _ _) as [[pk existing]|].
  - intros Hr. left. eapply recreate_items_raises, Hr.
  - unfold create_order. destruct (exists_where _ _); cbn.
    + intros Hr. right. congruence.
    + intros Hr. left. eapply recreate_items_raises, Hr.
Qed.

Lemma recreate_all_raises t (ds : list (order_data F)) st e :
  (recreate_all t ds st).2 = Raise e -> e = DoesNotExist \/ e = IntegrityError.
Proof.
  revert st. induction ds as [|d ds IH]; intros st; [discriminate|].
  cbn -[recreate_one].
  destruct (recreate_one t d st) as [d' [st1|ex]] eqn:Hone.
  - destruct (recreate_all t ds st1) as [ds' r] eqn:Hall. cbn.
    intros Hr. apply (IH st1). rewrite Hall. exact Hr.
  - cbn. intros Hr. apply (recreate_one_raises t d st). rewrite Hone. exact Hr.
Qed.

Lemma recreate_order_from_data_raises t (x : data F) st e :
  (recreate_order_from_data t x st).2 = Raise e -> e <> IndexError.
Proof.
  destruct x as [|d|ds|id n]; cbn -[recreate_one recreate_all].
  - congruence.
  - destruct (recreate_one t d st) as [d' r] eqn:Hone. cbn. intros Hr.
    destruct (recreate_one_raises t d st e) as [-> | ->]; [|discriminate..].
    rewrite Hone. exact Hr.
  - destruct (recreate_all t ds st) as [ds' r] eqn:Hall. cbn. intros Hr.
    destruct (recreate_all_raises t ds st e) as [-> | ->]; [|discriminate..].
    rewrite Hall. exact Hr.
  - congruence.
Qed.

(** X5. [undo_last_action] on a well-formed log leaves it well formed
    and never indexes the stack out of range.  There is nothing to undo
    exactly when the pointer is -1.  An undone action moves the pointer
    down by one; when the undo fails with an exception, the database
    and the pointer stay as they were.  The stack keeps its length. *)
Theorem undo_keeps_the_log_well_formed (t : datetime) st l :
  log_ok l ->
  let out := (undo_last_action t st l).1.1 in
  let st' := (undo_last_action t st l).1.2 in
  let l' := (undo_last_action t st l).2 in
  log_ok l'
  /\ List.length (undo_stack l') = List.length (undo_stack l)
  /\ out <> UndoError IndexError
  /\ (out = NothingToUndo <-> undo_pointer l = -1)
  /\ (out = Undone -> undo_pointer l' = undo_pointer l - 1)
  /\ (out <> Undone -> st' = st /\ undo_pointer l' = undo_pointer l).
Proof.
  intros [Hp Hlen]. unfold undo_last_action.
  destruct (bool_decide (undo_stack l = []) || (undo_pointer l <? 0)) eqn:Hnone.
  { cbn. assert (undo_pointer l = -1) as Hm.
    { apply orb_true_iff in Hnone as [He | Hn].
      - apply bool_decide_eq_true in He. rewrite He in Hp. cbn in Hp. lia.
      - apply Z.ltb_lt in Hn. lia. }
    unfold log_ok. repeat split; try lia; try discriminate; try tauto. }
  apply orb_false_iff in Hnone as [_ Hn]. apply Z.ltb_ge in Hn.
  destruct (lookup_lt_is_Some_2 (undo_stack l) (Z.to_nat (undo_pointer l)))
    as [a Ha]; [lia|].
  rewrite Ha.
  assert (forall out' st2 (l2 : log F),
            List.length (undo_stack l2) = List.length (undo_stack l) ->
            out' <> UndoError IndexError ->
            out' <> NothingToUndo ->
            (out' = Undone -> undo_pointer l2 = undo_pointer l - 1) ->
            (out' <> Undone -> st2 = st /\ undo_pointer l2 = undo_pointer l) ->
            log_ok (out', st2, l2).2
            /\ List.length (undo_stack (out', st2, l2).2) = List.length (undo_stack l)
            /\ (out', st2, l2).1.1 <> UndoError IndexError
            /\ ((out', st2, l2).1.1 = NothingToUndo <-> undo_pointer l = -1)
            /\ ((out', st2, l2).1.1 = Undone ->
                undo_pointer (out', st2, l2).2 = undo_pointer l - 1)
            /\ ((out', st2, l2).1.1 <> Undone ->
                (out', st2, l2).1.2 = st
                /\ undo_pointer (out', st2, l2).2 = undo_pointer l)) as Hshape.
  { intros out' st2 l2 Hl2 Hidx Hnot Hdone Hfail. cbn.
    split; [|split; [exact Hl2|split; [exact Hidx|split; [|split; assumption]]]].
    - unfold log_ok. rewrite Hl2. split; [|exact Hlen].
      destruct out' as [| |ex].
      + contradiction.
      + rewrite (Hdone eq_refl). lia.
      + destruct (Hfail ltac:(discriminate)) as [_ ->]. lia.
    - split; [intros Hc; contradiction | lia]. }
  destruct (a_type a).
  - apply Hshape; cbn; try reflexivity; try discriminate.
    intros Hc. exfalso. apply Hc. reflexivity.
  - destruct (old_data a) as [|d|ds|id n] eqn:Hold.
    + apply Hshape; cbn; try reflexivity; try discriminate.
      intros Hc. exfalso. apply Hc. reflexivity.
    + pose proof (recreate_order_from_data_raises t (OrderData d) st) as Hraise.
      destruct (recreate_order_from_data t (OrderData d) st) as [old' [st2|ex]];
        apply Hshape; cbn; rewrite ?length_insert;
        try reflexivity; try discriminate; try (intros _; split; reflexivity).
      * intros Hc. exfalso. apply Hc. reflexivity.
      * intros Hex. injection Hex as ->. eapply Hraise; reflexivity.
    + pose proof (recreate_order_from_data_raises t (OrdersData ds) st) as Hraise.
      destruct (recreate_order_from_data t (OrdersData ds) st) as [old' [st2|ex]];
        apply Hshape; cbn; rewrite ?length_insert;
        try reflexivity; try discriminate; try (intros _; split; reflexivity).
      * intros Hc. exfalso. apply Hc. reflexivity.
      * intros Hex. injection Hex as ->. eapply Hraise; reflexivity.
    + pose proof (recreate_order_from_data_raises t (Created id n) st) as Hraise.
      destruct (recreate_order_from_data t (Created id n) st) as [old' [st2|ex]];
        apply Hshape; cbn; rewrite ?length_insert;
        try reflexivity; try discriminate; try (intros _; split; reflexivity).
      * intros Hc. exfalso. apply Hc. reflexivity.
      * intros Hex. injection Hex as ->. eapply Hraise; reflexivity.
Qed.

End Logs.

(** The first action recorded on the empty log. *)
Lemma record_action_bounds_the_log_witness :
  log_ok (record_action ACTION_CREATE_ORDER NoData (Created 2001 1) (@empty_log Z))
  /\ List.length
       (undo_stack (record_action ACTION_CREATE_ORDER NoData (Created 2001 1)
                      (@empty_log Z)))
     = 1%nat.
Proof.
  destruct (record_action_bounds_the_log ACTION_CREATE_ORDER NoData
              (Created 2001 1) (@empty_log Z)) as (Hok & _ & Hlen & _).
  - unfold log_ok, max_undo_steps. cbn. lia.
  - split; [exact Hok | exact Hlen].
Defined.

(** Undoing the only action of a log. *)
Lemma undo_keeps_the_log_well_formed_witness :
  log_ok (undo_last_action 500 weekly_store
            {| undo_stack :=
                 [ {| a_type := ACTION_CREATE_ORDER; old_data := NoData;
                      new_data := Created 1005 1 |} ];
               undo_pointer := 0 |}).2
  /\ undo_pointer
       (undo_last_action 500 weekly_store
          {| undo_stack :=
               [ {| a_type := ACTION_CREATE_ORDER; old_data := NoData;
                    new_data := Created 1005 1 |} ];
             undo_pointer := 0 |}).2
     = -1.
Proof.
  destruct (undo_keeps_the_log_well_formed 500 weekly_store
              {| undo_stack :=
                   [ {| a_type := ACTION_CREATE_ORDER; old_data := NoData;
                        new_data := Created 1005 1 |} ];
                 undo_pointer := 0 |})
    as (Hok & _ & _ & _ & Hdone & _).
  - unfold log_ok, max_undo_steps. cbn. lia.
  - split; [exact Hok|]. rewrite Hdone; reflexivity.
Defined.

End LogProofs.

(** ** The series editor of main.py *)

Module SeriesEditorProofs.

Import StoreProofs.

#[local] Arguments Continue {A} a.
#[local] Arguments Return {A} message.

Section Editor.
Context {F : Type} `{PyFloat F}.
Implicit Types (st : db F) (e : env F).

(** X6. The two editors check the item rows of an order alike:
    [gather_items] of weekly_view.py and the item loop of
    [save_all_changes], which calls [validate_amount], accept the same
    rows with the same amounts and reject the others with the same
    message. *)
Theorem both_editors_check_item_rows_alike e (item_rows : list (str * str)) :
  row_items_data e item_rows = gather_items e item_rows.
Proof.
  induction item_rows as [|[item_name text] rest IH]; [reflexivity|].
  cbn [row_items_data gather_items]. rewrite IH.
  unfold gather_row, validate_amount. cbn [fst snd].
  destruct (bool_decide (strip text ∈ SUBSCRIPTION_LABELS)); [reflexivity|].
  destruct (float_of_str (replace_comma (strip text))) as [x|]; [|reflexivity].
  destruct (float_le_zero x); [reflexivity|].
  destruct (bool_decide (is_Some (app_items e !! item_name))); reflexivity.
Qed.

Lemma no_row_added_refl st : no_row_added st st.
Proof. repeat split; auto. Qed.

Lemma no_row_added_trans st1 st2 st3 :
  no_row_added st1 st2 -> no_row_added st2 st3 -> no_row_added st1 st3.
Proof.
  intros (Hi1 & Ho1 & Hl1) (Hi2 & Ho2 & Hl2). repeat split.
  - congruence.
  - auto.
  - auto.
Qed.

Lemma no_row_added_save_order_row pk o st :
  no_row_added st (save_order_row pk o st).
Proof.
  repeat split; cbn; auto.
  intros k Hk. by apply lookup_alter_is_Some in Hk.
Qed.

Lemma no_row_added_delete_items_of pk st :
  no_row_added st (delete_items_of pk st).
Proof.
  repeat split; cbn; auto.
  intros k oi. rewrite lookup_delete_rows. destruct (decide _); [discriminate | auto].
Qed.

Lemma no_row_added_delete_instance_recursive pk st :
  no_row_added st (delete_instance_recursive pk st).
Proof.
  repeat split; cbn.
  - intros k [x Hx]. apply lookup_delete_Some in Hx as [_ Hx]. eauto.
  - intros k oi. rewrite lookup_delete_where.
    destruct (order_items st !! k) as [x|]; [|discriminate].
    destruct (oi_order x =? pk); [discriminate | auto].
Qed.

Lemma no_row_added_delete_future_orders (sel : list (Z * Order)) st st' :
  delete_future_orders sel st = Ok st' -> no_row_added st st'.
Proof.
  revert st. induction sel as [|[pk o] sel IH]; intros st; cbn.
  - intros [= <-]. apply no_row_added_refl.
  - destruct (serialize_order st pk o); cbn; [|discriminate].
    intros Hrest. eapply no_row_added_trans; [|apply IH, Hrest].
    apply no_row_added_delete_instance_recursive.
Qed.

Lemma create_items_without_dates_ok e data st st' :
  create_items_without_dates e data st = Ok st' -> data = [] /\ st' = st.
Proof.
  destruct data as [|[item_name a] data]; cbn.
  - intros [= <-]. auto.
  - destruct (lookup_item e item_name); discriminate.
Qed.

Lemma row_items_data_nil e (item_rows : list (str * str)) :
  row_items_data e item_rows = inr [] -> item_rows = [].
Proof.
  destruct item_rows as [|[item_name text] rest]; [reflexivity|].
  cbn [row_items_data].
  destruct (validate_amount (strip text) item_name); [discriminate|].
  destruct (bool_decide _); [|discriminate].
  destruct (row_items_data e rest); discriminate.
Qed.

Lemma edit_row_continues e reference overall_from overall_to row s s' :
  edit_row e reference overall_from overall_to row s = Ok (Continue s') ->
  is_Some (existing_order row)
  /\ row_items row = []
  /\ no_row_added (ls_db s) (ls_db s').
Proof.
  unfold edit_row.
  destruct (delivery_parsed row) as [delivery|]; [|discriminate].
  destruct (row_items_data e (row_items row)) as [message|data] eqn:Hdata;
    [discriminate|].
  destruct (existing_order row) as [existing|].
  - destruct (serialize_order _ _ _); cbn; [|discriminate].
    destruct (create_items_without_dates _ _ _) as [st1|] eqn:Hcreate; cbn;
      [|discriminate].
    intros [= <-]. cbn.
    apply create_items_without_dates_ok in Hcreate as [-> ->].
    split; [eauto|]. split; [eapply row_items_data_nil, Hdata|].
    eapply no_row_added_trans; [apply no_row_added_save_order_row|].
    apply no_row_added_delete_items_of.
  - destruct (max_total_days e data) as [m|] eqn:Hmax; cbn; [|discriminate].
    destruct (create_order _ _) as [r|]; cbn; [|discriminate].
    destruct (create_items_without_dates _ _ _) as [st1|] eqn:Hcreate; cbn;
      [|discriminate].
    apply create_items_without_dates_ok in Hcreate as [-> _]. discriminate.
Qed.

Lemma edit_rows_effect e reference overall_from overall_to rows_ s r st' :
  edit_rows e reference overall_from overall_to rows_ s = Ok (r, st') ->
  no_row_added (ls_db s) st'
  /\ forall s', r = Continue s' ->
       st' = ls_db s'
       /\ Forall (fun row => is_Some (existing_order row) /\ row_items row = [])
            rows_.
Proof.
  revert s. induction rows_ as [|row rest IH]; intros s; cbn.
  - intros [= <- <-]. split; [apply no_row_added_refl|].
    intros s' [= <-]. split; [reflexivity | constructor].
  - destruct (edit_row e reference overall_from overall_to row s) as [[s1|m]|]
      eqn:Hrow; cbn; [| |discriminate].
    + intros Hrest. apply edit_row_continues in Hrow as (Hex & Hnil & Hdb).
      destruct (IH _ Hrest) as [Hdb' Hcont]. split.
      * eapply no_row_added_trans; eassumption.
      * intros s' Hs'. destruct (Hcont s' Hs') as [-> Hall].
        split; [reflexivity|]. constructor; [split; assumption | exact Hall].
    + intros [= <- <-]. split; [apply no_row_added_refl | discriminate].
Qed.

Lemma regenerate_effect e reference overall_from overall_to rows_ s st' :
  regenerate e reference overall_from overall_to rows_ s = Ok st' ->
  no_row_added (ls_db s) st'.
Proof.
  unfold regenerate.
  destruct (ls_changed s || _); [|intros [= <-]; apply no_row_added_refl].
  destruct (delete_future_orders _ _) as [st1|] eqn:Hdel; cbn; [|discriminate].
  apply no_row_added_delete_future_orders in Hdel.
  destruct (earliest _) as [[pk base_order]|].
  2:{ intros [= <-]. exact Hdel. }
  destruct (ls_subscription_type s) as [subscription|]; [|discriminate].
  destruct (generate_subscription_orders _ _) as [[|d ds]|]; try discriminate.
  intros [= <-]. eapply no_row_added_trans; [exact Hdel|].
  apply no_row_added_save_order_row.
Qed.

(** X7. [save_all_changes] never adds a row: whatever the dialog
    holds, the database it leaves has the same item table, no order and
    no line item that was not there before.  Its calls of
    [OrderItem.create] give no [production_date], so a row with item
    rows ends in an exception and the transaction is rolled back; the
    save succeeds only when every order row shows an existing order and
    has no item rows (or when the dialog was opened without orders). *)
Theorem series_editor_adds_no_row e (subscription_orders : list (OrderObj F))
    (f : series_form F) st :
  no_row_added st (save_all_changes e subscription_orders f st).2
  /\ ((save_all_changes e subscription_orders f st).1 = Saved ->
      subscription_orders = []
      \/ Forall (fun row => is_Some (existing_order row) /\ row_items row = [])
           (order_rows f)).
Proof.
  unfold save_all_changes.
  destruct (overall_from_entry f) as [overall_from|];
    [|split; [apply no_row_added_refl | discriminate]].
  destruct (overall_to_entry f) as [overall_to|];
    [|split; [apply no_row_added_refl | discriminate]].
  unfold atomic, commit_all.
  destruct subscription_orders as [|reference_order rest].
  { cbn. split; [apply no_row_added_refl | auto]. }
  destruct (edit_rows e (obj_fields reference_order) overall_from overall_to
              (order_rows f) _) as [[r st1]|ex] eqn:Hrows; cbn;
    [|split; [apply no_row_added_refl | discriminate]].
  apply edit_rows_effect in Hrows as [Hdb Hcont]. cbn in Hdb.
  destruct r as [s|message]; cbn.
  - destruct (regenerate _ _ _ _ _ s) as [st2|ex] eqn:Hreg; cbn;
      [|split; [apply no_row_added_refl | discriminate]].
    destruct (Hcont s eq_refl) as [-> Hall].
    apply regenerate_effect in Hreg. split.
    + eapply no_row_added_trans; eassumption.
    + intros _. right. exact Hall.
  - split; [exact Hdb | discriminate].
Qed.

End Editor.

End SeriesEditorProofs.

(** ** The week on display *)

Module WeekProofs.

Lemma weekday_offset (m k : Z) :
  weekday m = 0 -> 0 <= k <= 6 -> weekday (m + k) = k.
Proof.
  unfold weekday. intros Hm Hk.
  pose proof (Z.div_mod (m + 6) 7 ltac:(lia)) as Hdm. rewrite Hm in Hdm.
  replace (m + k + 6) with (k + (m + 6) / 7 * 7) by lia.
  rewrite Z.mod_add by lia. apply Z.mod_small. lia.
Qed.

Lemma monday_is_a_monday (d : date) : weekday (get_monday_of_week d) = 0.
Proof.
  unfold get_monday_of_week, weekday.
  pose proof (Z.div_mod (d + 6) 7 ltac:(lia)) as Hdm.
  replace (d - (d + 6) mod 7 + 6) with (0 + (d + 6) / 7 * 7) by lia.
  rewrite Z.mod_add by lia. reflexivity.
Qed.

Lemma monday_bounds (d : date) :
  get_monday_of_week d <= d <= get_monday_of_week d + 6.
Proof.
  unfold get_monday_of_week, weekday.
  pose proof (Z.mod_pos_bound (d + 6) 7 ltac:(lia)). lia.
Qed.

Lemma monday_of_offset (m k : Z) :
  weekday m = 0 -> 0 <= k <= 6 -> get_monday_of_week (m + k) = m.
Proof.
  intros Hm Hk. unfold get_monday_of_week. rewrite (weekday_offset m k Hm Hk). lia.
Qed.

Lemma weekday_shift (d : date) : weekday (d + 7) = weekday d.
Proof.
  unfold weekday. replace (d + 7 + 6) with (d + 6 + 1 * 7) by lia.
  apply Z.mod_add. lia.
Qed.

(** X8. [get_monday_of_week] returns the Monday of the week of
    [current_week]: a Monday, at most six days before that date, and the
    same for every day from that Monday to the Sunday after it.
    [next_week] and [previous_week] undo each other and move that
    Monday by seven days.  The week label runs from that Monday to a
    Sunday. *)
Theorem monday_of_the_week (current_week : date) :
  let monday := get_monday_of_week current_week in
  weekday monday = 0
  /\ monday <= current_week <= monday + 6
  /\ (forall i, 0 <= i <= 6 -> get_monday_of_week (monday + i) = monday)
  /\ get_monday_of_week (next_week current_week) = monday + 7
  /\ get_monday_of_week (previous_week current_week) = monday - 7
  /\ previous_week (next_week current_week) = current_week
  /\ next_week (previous_week current_week) = current_week
  /\ week_label current_week = (monday, monday + 6)
  /\ weekday (week_label current_week).2 = 6.
Proof.
  cbn. pose proof (monday_is_a_monday current_week) as Hm.
  split; [exact Hm|]. split; [apply monday_bounds|].
  split; [intros i Hi; apply monday_of_offset; assumption|].
  split.
  { unfold get_monday_of_week, next_week. rewrite weekday_shift. lia. }
  split.
  { unfold get_monday_of_week, previous_week.
    rewrite <- (weekday_shift (current_week - 7)).
    replace (current_week - 7 + 7) with current_week by lia. lia. }
  split; [unfold previous_week, next_week; lia|].
  split; [unfold previous_week, next_week; lia|].
  split; [reflexivity|].
  unfold week_label. cbn. apply (weekday_offset _ 6 Hm). lia.
Qed.

(** X9. The delivery view shows an order of the displayed week in
    exactly one column, and the date in the label of that column is the
    order's delivery date. *)
Theorem a_delivery_is_shown_under_its_date (current_week : date)
    (deliveries : list (Z * Order)) (delivery : Z * Order) :
  In delivery deliveries ->
  get_monday_of_week current_week <= delivery_date delivery.2
    <= get_monday_of_week current_week + 6 ->
  exists i,
    0 <= i <= 6
    /\ In delivery (deliveries_by_day deliveries i)
    /\ day_date current_week i = delivery_date delivery.2
    /\ forall j, In delivery (deliveries_by_day deliveries j) -> j = i.
Proof.
  intros Hin Hweek.
  set (monday := get_monday_of_week current_week) in *.
  pose proof (monday_is_a_monday current_week) as Hm. fold monday in Hm.
  assert (weekday (delivery_date delivery.2) = delivery_date delivery.2 - monday)
    as Hday.
  { replace (delivery_date delivery.2)
      with (monday + (delivery_date delivery.2 - monday)) at 1 by lia.
    apply weekday_offset; [exact Hm | lia]. }
  exists (delivery_date delivery.2 - monday).
  split; [lia|]. split.
  { unfold deliveries_by_day. apply filter_In. split; [exact Hin|].
    apply Z.eqb_eq. exact Hday. }
  split.
  { unfold day_date. fold monday. lia. }
  intros j Hj. unfold deliveries_by_day in Hj. apply filter_In in Hj as [_ Hj].
  apply Z.eqb_eq in Hj. lia.
Qed.

(** The second order of the examples in the week of 2025-01-15. *)
Lemma a_delivery_is_shown_under_its_date_witness :
  exists i,
    0 <= i <= 6
    /\ In (2, weekly_order 739264 1002 true)
         (deliveries_by_day [(2, weekly_order 739264 1002 true)] i)
    /\ day_date 739266 i = 739264
    /\ forall j,
         In (2, weekly_order 739264 1002 true)
           (deliveries_by_day [(2, weekly_order 739264 1002 true)] j) ->
         j = i.
Proof.
  apply (a_delivery_is_shown_under_its_date 739266
           [(2, weekly_order 739264 1002 true)] (2, weekly_order 739264 1002 true)).
  - left. reflexivity.
  - vm_compute. split; discriminate.
Defined.

End WeekProofs.

(** ** The delivery and the transfer schedule *)

Module ScheduleProofs.

Import StoreProofs.

Lemma str_le_refl (a : str) : str_le a a = true.
Proof.
  induction a as [|x a IH]; [reflexivity|]. cbn.
  rewrite N.eqb_refl, IH. apply orb_true_r.
Qed.

Lemma str_le_total (a b : str) : str_le a b = true \/ str_le b a = true.
Proof.
  revert b. induction a as [|x a IH]; intros [|y b]; cbn; auto.
  destruct (N.ltb_spec x y) as [Hxy|Hxy]; [auto|].
  destruct (N.ltb_spec y x) as [Hyx|Hyx]; [auto|].
  assert (x = y) as -> by lia. rewrite N.eqb_refl. cbn. apply IH.
Qed.

Lemma str_le_trans (a b c : str) :
  str_le a b = true -> str_le b c = true -> str_le a c = true.
Proof.
  revert b c. induction a as [|x a IH]; intros [|y b] [|z c]; cbn; try done.
  intros Hab Hbc.
  apply orb_true_iff in Hab as [Hab|Hab]; apply orb_true_iff in Hbc as [Hbc|Hbc].
  - apply N.ltb_lt in Hab, Hbc. apply orb_true_iff. left. apply N.ltb_lt. lia.
  - apply andb_true_iff in Hbc as [->%N.eqb_eq _]. rewrite Hab. reflexivity.
  - apply andb_true_iff in Hab as [->%N.eqb_eq _]. rewrite Hbc. reflexivity.
  - apply andb_true_iff in Hab as [->%N.eqb_eq Hab].
    apply andb_true_iff in Hbc as [->%N.eqb_eq Hbc].
    rewrite N.eqb_refl, (IH _ _ Hab Hbc). apply orb_true_r.
Qed.

Lemma str_le_antisym (a b : str) :
  str_le a b = true -> str_le b a = true -> a = b.
Proof.
  revert b. induction a as [|x a IH]; intros [|y b]; cbn; try done.
  intros Hab Hba.
  apply orb_true_iff in Hab as [Hab|Hab]; apply orb_true_iff in Hba as [Hba|Hba].
  - apply N.ltb_lt in Hab, Hba. lia.
  - apply N.ltb_lt in Hab. apply andb_true_iff in Hba as [Hba%N.eqb_eq _]. lia.
  - apply N.ltb_lt in Hba. apply andb_true_iff in Hab as [Hab%N.eqb_eq _]. lia.
  - apply andb_true_iff in Hab as [->%N.eqb_eq Hab].
    apply andb_true_iff in Hba as [_ Hba]. f_equal. apply IH; assumption.
Qed.

Section Delivery.
Context {F : Type}.
Implicit Types (st : db F) (customers : gmap Z Customer).

#[local] Instance by_delivery_date_transitive : Transitive by_delivery_date.
Proof. intros a b c. unfold by_delivery_date. lia. Qed.

#[local] Instance by_delivery_date_total : Total by_delivery_date.
Proof. intros a b. unfold by_delivery_date. lia. Qed.

Lemma delivery_schedule_exists customers st s e :
  get_delivery_schedule customers st s e
    (merge_sort by_delivery_date (delivery_rows customers st s e)).
Proof.
  split; [apply merge_sort_Permutation|].
  apply StronglySorted_merge_sort; apply _.
Qed.

Lemma delivery_rows_NoDup customers st s e :
  NoDup (delivery_rows customers st s e).
Proof. unfold delivery_rows, select. apply filter_NoDup, rows_NoDup. Qed.

Lemma sorted_delivery_dates (results : list (Z * Order)) :
  StronglySorted by_delivery_date results ->
  StronglySorted Z.le ((fun r => delivery_date r.2) <$> results).
Proof.
  induction 1 as [|r rest Hsorted IH Hall]; cbn; constructor; [exact IH|].
  apply Forall_fmap. exact Hall.
Qed.

(** X10. [get_delivery_schedule(start_date, end_date)] with both dates
    given returns a list: each order that has a customer row and is
    delivered from [start_date] to [end_date], once, and no other
    order, by ascending delivery date. *)
Theorem delivery_schedule_of_a_range customers st (s e : date) :
  (exists results, get_delivery_schedule customers st (Some s) (Some e) results)
  /\ forall results,
       get_delivery_schedule customers st (Some s) (Some e) results ->
       (forall k o,
           (k, o) ∈ results
           <-> orders st !! k = Some o
               /\ is_Some (customers !! customer o)
               /\ s <= delivery_date o <= e)
       /\ NoDup results
       /\ StronglySorted Z.le ((fun r => delivery_date r.2) <$> results).
Proof.
  split; [eexists; apply delivery_schedule_exists|].
  intros results [Hperm Hsorted]. split; [|split].
  - intros k o. rewrite Hperm. unfold delivery_rows. rewrite elem_of_select.
    rewrite andb_true_iff, bool_decide_eq_true, andb_true_iff.
    rewrite !Z.leb_le. tauto.
  - rewrite Hperm. apply delivery_rows_NoDup.
  - apply sorted_delivery_dates, Hsorted.
Qed.

End Delivery.

Section Transfer.
Context {F : Type} `{PyFloat F}.
Implicit Types (st : db F) (gs : list (transfer_group F))
  (r : date * Z * Item F * F) (k : date * Z).

#[local] Instance date_then_item_name_transitive :
  Transitive (@date_then_item_name F).
Proof.
  intros a b c [Hab|[Hab Hn1]] [Hbc|[Hbc Hn2]]; unfold date_then_item_name.
  - left. lia.
  - left. lia.
  - left. lia.
  - right. split; [lia|]. eapply str_le_trans; eassumption.
Qed.

#[local] Instance date_then_item_name_total : Total (@date_then_item_name F).
Proof.
  intros a b. unfold date_then_item_name.
  destruct (Z.lt_trichotomy (g_date a) (g_date b)) as [Hlt|[Heq|Hgt]]; [auto| |auto].
  destruct (str_le_total (item_name (g_item a)) (item_name (g_item b))); auto.
Qed.

Lemma transfer_schedule_exists st s e :
  get_transfer_schedule st s e
    (map transfer_row_of
       (merge_sort (@date_then_item_name F) (transfer_groups st s e))).
Proof.
  exists (merge_sort (@date_then_item_name F) (transfer_groups st s e)).
  split; [apply merge_sort_Permutation|]. split; [|reflexivity].
  apply StronglySorted_merge_sort; apply _.
Qed.

Lemma add_transfer_keys r gs :
  group_key <$> add_transfer r gs
  = (group_key <$> gs)
    ++ (if decide (row_key r ∈ group_key <$> gs) then [] else [row_key r]).
Proof.
  induction gs as [|g gs IH]; cbn.
  - rewrite decide_False by apply not_elem_of_nil. reflexivity.
  - destruct ((g_date g =? r.1.1.1) && (g_item_pk g =? r.1.1.2)) eqn:Hk.
    + apply andb_true_iff in Hk as [Hd%Z.eqb_eq Hi%Z.eqb_eq]. cbn.
      rewrite decide_True; [by rewrite app_nil_r|].
      unfold group_key, row_key. rewrite Hd, Hi. apply list_elem_of_here.
    + cbn. rewrite IH. f_equal.
      assert (row_key r <> group_key g) as Hne.
      { unfold group_key, row_key. intros Heq. injection Heq as Hd Hi.
        rewrite <- Hd, <- Hi, !Z.eqb_refl in Hk. discriminate. }
      destruct (decide (row_key r ∈ group_key <$> gs)) as [Hin|Hout].
      * rewrite decide_True; [reflexivity|]. by apply list_elem_of_further.
      * rewrite decide_False; [reflexivity|].
        intros Hc. apply elem_of_cons in Hc as [Hc|Hc]; contradiction.
Qed.

Lemma add_transfer_NoDup r gs :
  NoDup (group_key <$> gs) -> NoDup (group_key <$> add_transfer r gs).
Proof.
  intros Hnd. rewrite add_transfer_keys.
  destruct (decide _) as [Hin|Hout]; [by rewrite app_nil_r|].
  apply NoDup_app. split; [exact Hnd|]. split; [|apply NoDup_singleton].
  intros x Hx Hx'. apply list_elem_of_singleton in Hx' as ->. contradiction.
Qed.

Lemma find_group_add k r gs :
  find_group k (add_transfer r gs) = add_to_group k (find_group k gs) r.
Proof.
  unfold find_group, add_to_group.
  induction gs as [|g gs IH]; cbn.
  - unfold group_key, row_key. cbn. destruct (bool_decide _); reflexivity.
  - destruct ((g_date g =? r.1.1.1) && (g_item_pk g =? r.1.1.2)) eqn:Hk.
    + apply andb_true_iff in Hk as [Hd%Z.eqb_eq Hi%Z.eqb_eq]. cbn.
      assert (group_key g = row_key r) as Hgr.
      { unfold group_key, row_key. by rewrite Hd, Hi. }
      unfold group_key at 1. cbn [g_date g_item_pk]. fold (group_key g).
      rewrite <- Hgr. destruct (bool_decide (group_key g = k)); reflexivity.
    + cbn. destruct (bool_decide (group_key g = k)) eqn:Hgk.
      * apply bool_decide_eq_true in Hgk.
        rewrite bool_decide_eq_false_2; [reflexivity|].
        unfold group_key, row_key in *. intros Heq. subst k.
        injection Heq as Hd Hi. rewrite Hd, Hi, !Z.eqb_refl in Hk. discriminate.
      * exact IH.
Qed.

Lemma find_group_fold k (l : list (date * Z * Item F * F)) gs :
  find_group k (foldl (fun gs r => add_transfer r gs) gs l)
  = foldl (add_to_group k) (find_group k gs) l.
Proof.
  revert gs. induction l as [|r l IH]; intros gs; cbn [foldl]; [reflexivity|].
  rewrite IH, find_group_add. reflexivity.
Qed.

Lemma fold_NoDup (l : list (date * Z * Item F * F)) gs :
  NoDup (group_key <$> gs) ->
  NoDup (group_key <$> foldl (fun gs r => add_transfer r gs) gs l).
Proof.
  revert gs. induction l as [|r l IH]; intros gs Hnd; cbn [foldl]; [exact Hnd|].
  apply IH, add_transfer_NoDup, Hnd.
Qed.

Lemma find_group_Some k gs g :
  find_group k gs = Some g -> g ∈ gs /\ group_key g = k.
Proof.
  unfold find_group. intros Hf. apply find_some in Hf as [Hin Hk].
  split; [by apply list_elem_of_In | by apply bool_decide_eq_true in Hk].
Qed.

Lemma find_group_elem gs g :
  NoDup (group_key <$> gs) -> g ∈ gs -> find_group (group_key g) gs = Some g.
Proof.
  unfold find_group. induction gs as [|g' gs IH]; intros Hnd Hin.
  - by apply elem_of_nil in Hin.
  - cbn in *. apply NoDup_cons in Hnd as [Hout Hnd].
    apply elem_of_cons in Hin as [->|Hin].
    + by rewrite bool_decide_eq_true_2.
    + rewrite bool_decide_eq_false_2; [by apply IH|].
      intros Heq. apply Hout. rewrite Heq. by apply list_elem_of_fmap_2.
Qed.

Lemma fold_group_grows k (l : list (date * Z * Item F * F)) g :
  foldl (add_to_group k) (Some g) l
  = Some {| g_date := g_date g; g_item_pk := g_item_pk g; g_item := g_item g;
            g_total :=
              foldl float_add (g_total g)
                (snd <$> List.filter (fun r => bool_decide (row_key r = k)) l) |}.
Proof.
  revert g. induction l as [|r l IH]; intros g; cbn.
  - by destruct g.
  - unfold add_to_group at 2. destruct (bool_decide (row_key r = k)); cbn.
    + rewrite IH. reflexivity.
    + apply IH.
Qed.

Lemma fold_group_starts k (l : list (date * Z * Item F * F)) :
  foldl (add_to_group k) None l
  = match List.filter (fun r => bool_decide (row_key r = k)) l with
    | [] => None
    | r :: rest =>
        Some {| g_date := r.1.1.1; g_item_pk := r.1.1.2; g_item := r.1.2;
                g_total := foldl float_add r.2 (snd <$> rest) |}
    end.
Proof.
  induction l as [|r l IH]; cbn; [reflexivity|].
  unfold add_to_group at 2. destruct (bool_decide (row_key r = k)); cbn.
  - apply fold_group_grows.
  - exact IH.
Qed.

Lemma filter_transfers st (s e d : date) (pk : Z) :
  List.filter (fun r => bool_decide (row_key r = (d, pk)))
    (transfers st (Some s) (Some e))
  = match items st !! pk with
    | Some it =>
        if (s <=? d) && (d <=? e)
        then (fun a => (d, pk, it, a)) <$> amounts_for st d pk
        else []
    | None => []
    end.
Proof.
  unfold transfers, amounts_for.
  set (f := fun r : Z * OrderItem F =>
              match transfer_date r.2, items st !! oi_item r.2 with
              | Some d, Some it =>
                  if (s <=? d) && (d <=? e)
                  then Some (d, oi_item r.2, it, amount r.2) else None
              | _, _ => None
              end).
  set (g := fun r : Z * OrderItem F =>
              if bool_decide (transfer_date r.2 = Some d) && (oi_item r.2 =? pk)
              then Some (amount r.2) else None).
  induction (rows (order_items st)) as [|[i oi] l IH].
  - cbn. destruct (items st !! pk); [destruct (_ && _)|]; reflexivity.
  - cbn [omap list_omap].
    destruct (decide (transfer_date oi = Some d /\ oi_item oi = pk)) as [[Hd Hpk]|Hne].
    + assert (g (i, oi) = Some (amount oi)) as ->.
      { subst g. cbn. rewrite bool_decide_eq_true_2 by exact Hd.
        rewrite Hpk, Z.eqb_refl. reflexivity. }
      assert (f (i, oi)
              = match items st !! pk with
                | Some it =>
                    if (s <=? d) && (d <=? e)
                    then Some (d, pk, it, amount oi) else None
                | None => None
                end) as ->.
      { subst f. cbn. rewrite Hd, Hpk. reflexivity. }
      destruct (items st !! pk) as [it|]; [|exact IH].
      destruct ((s <=? d) && (d <=? e)); [|exact IH].
      cbn [List.filter]. rewrite bool_decide_eq_true_2 by reflexivity.
      rewrite IH. reflexivity.
    + assert (g (i, oi) = None) as ->.
      { subst g. cbn.
        destruct (bool_decide (transfer_date oi = Some d)) eqn:Hd; [|reflexivity].
        apply bool_decide_eq_true in Hd.
        destruct (oi_item oi =? pk) eqn:Hpk; [|reflexivity].
        apply Z.eqb_eq in Hpk. tauto. }
      destruct (f (i, oi)) as [y|] eqn:Hf; [|exact IH].
      cbn [List.filter]. rewrite bool_decide_eq_false_2; [exact IH|].
      intros Hkey. apply Hne. subst f. cbn in Hf.
      destruct (transfer_date oi) as [d'|]; [|discriminate].
      destruct (items st !! oi_item oi); [|discriminate].
      destruct ((s <=? d') && (d' <=? e)); [|discriminate].
      injection Hf as <-. unfold row_key in Hkey. cbn in Hkey.
      injection Hkey as -> ->. split; reflexivity.
Qed.

Lemma transfer_groups_NoDup st s e : NoDup (group_key <$> transfer_groups st s e).
Proof. unfold transfer_groups. apply fold_NoDup. cbn. apply NoDup_nil_2. Qed.

Lemma find_transfer_group st (s e d : date) (pk : Z) :
  find_group (d, pk) (transfer_groups st (Some s) (Some e))
  = match items st !! pk, sum_amounts (amounts_for st d pk) with
    | Some it, Some total =>
        if (s <=? d) && (d <=? e)
        then Some {| g_date := d; g_item_pk := pk; g_item := it; g_total := total |}
        else None
    | _, _ => None
    end.
Proof.
  unfold transfer_groups. rewrite find_group_fold.
  change (find_group (d, pk) []) with (@None (transfer_group F)).
  rewrite fold_group_starts, filter_transfers.
  destruct (items st !! pk) as [it|]; [|reflexivity].
  destruct ((s <=? d) && (d <=? e)).
  - destruct (amounts_for st d pk) as [|a rest]; cbn; [reflexivity|].
    rewrite <- list_fmap_compose. cbn. rewrite list_fmap_id. reflexivity.
  - destruct (sum_amounts _); reflexivity.
Qed.

Lemma elem_of_transfer_groups st (s e : date) (g : transfer_group F) :
  g ∈ transfer_groups st (Some s) (Some e)
  <-> s <= g_date g <= e
      /\ items st !! g_item_pk g = Some (g_item g)
      /\ sum_amounts (amounts_for st (g_date g) (g_item_pk g)) = Some (g_total g).
Proof.
  split.
  - intros Hin.
    apply find_group_elem in Hin; [|apply transfer_groups_NoDup].
    unfold group_key in Hin. rewrite find_transfer_group in Hin.
    destruct (items st !! g_item_pk g) as [it|]; [|discriminate].
    destruct (sum_amounts _) as [total|]; [|discriminate].
    destruct ((s <=? g_date g) && (g_date g <=? e)) eqn:Hrange; [|discriminate].
    apply andb_true_iff in Hrange as [?%Z.leb_le ?%Z.leb_le].
    injection Hin as Hg. rewrite <- Hg. cbn. auto.
  - intros (Hrange & Hit & Hsum).
    pose proof (find_transfer_group st s e (g_date g) (g_item_pk g)) as Hfind.
    rewrite Hit, Hsum in Hfind.
    destruct (Z.leb_spec s (g_date g)); [|lia].
    destruct (Z.leb_spec (g_date g) e); [|lia]. cbn in Hfind.
    apply find_group_Some in Hfind as [Hin _]. by destruct g.
Qed.

Lemma same_key_same_group gs (g1 g2 : transfer_group F) :
  NoDup (group_key <$> gs) ->
  g1 ∈ gs -> g2 ∈ gs -> group_key g1 = group_key g2 -> g1 = g2.
Proof.
  intros Hnd H1 H2 Hk.
  apply (find_group_elem gs g1 Hnd) in H1.
  apply (find_group_elem gs g2 Hnd) in H2.
  rewrite Hk in H1. congruence.
Qed.

Lemma transfer_groups_unbounded st s e :
  s = None \/ e = None -> transfer_groups st s e = [].
Proof.
  unfold transfer_groups, transfers.
  intros [-> | ->]; [reflexivity|]. destruct s; reflexivity.
Qed.

Lemma transfer_groups_resolved st s e (g : transfer_group F) :
  g ∈ transfer_groups st s e -> items st !! g_item_pk g = Some (g_item g).
Proof.
  destruct s as [s|]; [destruct e as [e|]|].
  - intros Hg. apply elem_of_transfer_groups in Hg. tauto.
  - rewrite transfer_groups_unbounded by auto. intros Hg. by apply elem_of_nil in Hg.
  - rewrite transfer_groups_unbounded by auto. intros Hg. by apply elem_of_nil in Hg.
Qed.

Lemma same_date_and_name st s e (g1 g2 : transfer_group F) :
  unique_item_names st ->
  g1 ∈ transfer_groups st s e ->
  g2 ∈ transfer_groups st s e ->
  g_date g1 = g_date g2 ->
  item_name (g_item g1) = item_name (g_item g2) ->
  g1 = g2.
Proof.
  intros Hunique H1 H2 Hd Hn.
  apply (same_key_same_group (transfer_groups st s e));
    [apply transfer_groups_NoDup | assumption | assumption |].
  unfold group_key. f_equal; [exact Hd|].
  pose proof (transfer_groups_resolved st s e g1 H1) as Hi1.
  pose proof (transfer_groups_resolved st s e g2 H2) as Hi2.
  exact (map_Forall_lookup_1 _ _ _ _
           (map_Forall_lookup_1 _ _ _ _ Hunique Hi1) Hi2 Hn).
Qed.

Lemma sorted_transfer_rows gs :
  StronglySorted date_then_item_name gs ->
  StronglySorted row_date_then_name (transfer_row_of <$> gs).
Proof.
  induction 1 as [|g rest Hsorted IH Hall]; cbn; constructor; [exact IH|].
  apply Forall_fmap. exact Hall.
Qed.

(** X11. Item names being unique, as models.py declares them,
    [get_transfer_schedule] has one possible result: its [ORDER BY]
    names the transfer date and the item name, and no two groups share
    both.  The dictionaries come by ascending transfer date and, within
    a date, by ascending item name, and no two of them have the same
    date and item. *)
Theorem transfer_schedule_is_determined st (s e : option date) :
  unique_item_names st ->
  (exists results, get_transfer_schedule st s e results)
  /\ (forall results1 results2,
        get_transfer_schedule st s e results1 ->
        get_transfer_schedule st s e results2 ->
        results1 = results2)
  /\ (forall results,
        get_transfer_schedule st s e results ->
        StronglySorted row_date_then_name results
        /\ NoDup ((fun row => (t_date row, t_item row)) <$> results)).
Proof.
  intros Hunique. split; [eexists; apply transfer_schedule_exists|]. split.
  - intros results1 results2 (gs1 & Hp1 & Hs1 & ->) (gs2 & Hp2 & Hs2 & ->).
    f_equal. apply (StronglySorted_unique_strong date_then_item_name);
      [|assumption|assumption|by rewrite Hp1, Hp2].
    intros g1 g2 Hg1 Hg2 H12 H21. rewrite Hp1 in Hg1. rewrite Hp2 in Hg2.
    apply (same_date_and_name st s e); try assumption.
    + destruct H12 as [?|[? _]], H21 as [?|[? _]]; lia.
    + destruct H12 as [?|[? Hn12]], H21 as [?|[? Hn21]]; try lia.
      apply str_le_antisym; assumption.
  - intros results (gs & Hp & Hs & ->). split; [apply sorted_transfer_rows, Hs|].
    rewrite <- list_fmap_compose.
    apply NoDup_fmap_2_strong.
    + intros g1 g2 Hg1 Hg2 Heq. cbn in Heq. injection Heq as Hd Hn.
      rewrite Hp in Hg1, Hg2. apply (same_date_and_name st s e); assumption.
    + rewrite Hp. eapply NoDup_fmap_1, transfer_groups_NoDup.
Qed.

(** X12. The transfer schedule for [start_date .. end_date] has one
    dictionary for each transfer date in that range and item row for
    which there is a line item, and its amount is the sum of the amounts
    of these line items, added up by ascending line-item key.  A line
    item without transfer date, with a transfer date outside the range
    or without item row is not counted; whether its order still exists
    is not asked. *)
Theorem transfer_schedule_sums_by_day_and_item st (s e : date) :
  (exists results, get_transfer_schedule st (Some s) (Some e) results)
  /\ forall results,
       get_transfer_schedule st (Some s) (Some e) results ->
       exists gs,
         results = transfer_row_of <$> gs
         /\ NoDup (group_key <$> gs)
         /\ forall g,
              g ∈ gs
              <-> s <= g_date g <= e
                  /\ items st !! g_item_pk g = Some (g_item g)
                  /\ sum_amounts (amounts_for st (g_date g) (g_item_pk g))
                     = Some (g_total g).
Proof.
  split; [eexists; apply transfer_schedule_exists|].
  intros results (gs & Hp & _ & ->). exists gs. split; [reflexivity|]. split.
  - rewrite Hp. apply transfer_groups_NoDup.
  - intros g. rewrite Hp. apply elem_of_transfer_groups.
Qed.

End Transfer.

Section Bounds.
Context {F : Type} `{PyFloat F}.
Implicit Types (st : db F) (customers : gmap Z Customer).

Lemma plan_groups_unbounded st s e :
  s = None \/ e = None -> plan_groups st s e = [].
Proof.
  unfold plan_groups, joined.
  intros [-> | ->]; [reflexivity|]. destruct s; reflexivity.
Qed.

(** X13. The three schedule queries differ when a bound is missing
    (both default to [None]): [get_delivery_schedule] then leaves out
    its [WHERE] clause and returns every order that has a customer row,
    while [get_production_plan] and [get_transfer_schedule] compare with
    [NULL] and return the empty list. *)
Theorem schedules_without_both_bounds customers st (s e : option date) :
  s = None \/ e = None ->
  (exists results, get_delivery_schedule customers st s e results)
  /\ (forall results,
        get_delivery_schedule customers st s e results ->
        forall k o,
          (k, o) ∈ results
          <-> orders st !! k = Some o /\ is_Some (customers !! customer o))
  /\ (forall results, get_production_plan st s e results <-> results = [])
  /\ (forall results, get_transfer_schedule st s e results <-> results = []).
Proof.
  intros Hmissing. split; [eexists; apply delivery_schedule_exists|]. split; [|split].
  - intros results [Hperm _] k o. rewrite Hperm. unfold delivery_rows.
    rewrite elem_of_select, andb_true_iff, bool_decide_eq_true.
    destruct Hmissing as [-> | ->]; [|destruct s]; tauto.
  - intros results. unfold get_production_plan.
    rewrite plan_groups_unbounded by exact Hmissing. split.
    + intros [Hperm _]. by apply Permutation_nil_r.
    + intros ->. split; [reflexivity | constructor].
  - intros results. unfold get_transfer_schedule.
    setoid_rewrite (transfer_groups_unbounded st s e Hmissing). split.
    + intros (gs & Hperm & _ & ->). apply Permutation_nil_r in Hperm as ->.
      reflexivity.
    + intros ->. exists []. split; [reflexivity|]. split; [constructor | reflexivity].
Qed.

End Bounds.

(** The store of the production example: two items with different
    names, two line items to be transferred on 2025-01-02 and
    2025-01-03. *)
Lemma transfer_schedule_is_determined_witness :
  (exists results,
     get_transfer_schedule plan_store (Some 739250) (Some 739260) results)
  /\ forall results,
       get_transfer_schedule plan_store (Some 739250) (Some 739260) results ->
       StronglySorted row_date_then_name results.
Proof.
  destruct (transfer_schedule_is_determined plan_store (Some 739250) (Some 739260))
    as (Hex & _ & Hsorted).
  - refine (bool_decide_unpack _ _). vm_compute. exact I.
  - split; [exact Hex|]. intros results Hr. apply (Hsorted results Hr).
Defined.

(** A call without dates on the store of the production example. *)
Lemma schedules_without_both_bounds_witness :
  get_production_plan plan_store None None []
  /\ get_transfer_schedule plan_store None None [].
Proof.
  destruct (schedules_without_both_bounds (∅ : gmap Z Customer) plan_store None None)
    as (_ & _ & Hplan & Htransfer).
  - left. reflexivity.
  - split; [apply Hplan | apply Htransfer]; reflexivity.
Defined.

End ScheduleProofs.

(** ** The edited order *)

Module EditedOrderProofs.

Import StoreProofs EditProofs UndoProofs.

Section Edits.
Context {F : Type} `{PyFloat F}.
Implicit Types (st : db F) (e : env F).

Lemma order_items_of_delete_items_of pk st :
  order_items_of (delete_items_of pk st) pk = [].
Proof.
  unfold order_items_of at 1. apply select_nil. intros k x Hl.
  cbn in Hl. rewrite lookup_delete_rows in Hl.
  destruct (decide (k ∈ (order_items_of st pk).*1)) as [Hin|Hout]; [discriminate|].
  destruct (oi_order x =? pk) eqn:Hpk; [|reflexivity].
  exfalso. apply Hout. apply list_elem_of_fmap. exists (k, x). split; [reflexivity|].
  unfold order_items_of. apply elem_of_select. auto.
Qed.

Lemma create_items_rows e pk delivery (data : list (str * F)) st st' :
  create_items e pk delivery data st = Ok st' ->
  (order_items_of st' pk).*2
  = (order_items_of st pk).*2 ++ form_line_items e pk delivery data.
Proof.
  revert st. induction data as [|[item_name a] data IH]; intros st; cbn.
  - intros [= <-]. by rewrite app_nil_r.
  - unfold lookup_item. destruct (app_items e !! item_name) as [r|]; cbn;
      [|discriminate].
    intros Hrest. rewrite (IH _ Hrest), order_items_of_create_order_item.
    cbn. rewrite Z.eqb_refl, fmap_app. cbn. by rewrite <- app_assoc.
Qed.

Lemma gather_items_length e (item_rows : list (str * str)) (data : list (str * F)) :
  gather_items e item_rows = inr data -> List.length data = List.length item_rows.
Proof.
  revert data. induction item_rows as [|row rest IH]; intros data; cbn [gather_items].
  - intros [= <-]. reflexivity.
  - destruct (gather_row e row); [discriminate|].
    destruct (gather_items e rest) as [|data']; [discriminate|].
    intros [= <-]. cbn. f_equal. by apply IH.
Qed.

Lemma form_line_items_length e pk delivery (data : list (str * F)) :
  Forall (fun d => is_Some (app_items e !! d.1)) data ->
  List.length (form_line_items e pk delivery data) = List.length data.
Proof.
  induction 1 as [|d data [r Hr] _ IH]; [reflexivity|].
  cbn. rewrite Hr. cbn. f_equal. exact IH.
Qed.

Lemma validate_items e f (p : parsed F) :
  validate e f = inr p -> gather_items e (item_rows f) = inr (order_items_data p).
Proof.
  unfold validate. destruct (delivery_date_entry f); [|discriminate].
  destruct (if 0 <? sub_var f then _ else _) as [|[from_d to_d]]; [discriminate|].
  destruct (gather_items e (item_rows f)); [discriminate|].
  intros [= <-]. reflexivity.
Qed.

(** X14. When [save_changes] reports success for an existing order,
    the order's line items are the item rows of the dialog and nothing
    else: one line item for each row, in the order of the rows, with
    the row's item and amount and with the production and the transfer
    date counted back from the new delivery date; the order row carries
    that delivery date.  This holds for both scopes. *)
Theorem saved_order_holds_the_form_rows e (order : OrderObj F) f st
    (p : parsed F) st' :
  validate e f = inr p ->
  is_Some (orders st !! obj_id order) ->
  save_changes e order f st = (Saved, st') ->
  let pk := obj_id order in
  (order_items_of st' pk).*2
  = form_line_items e pk (new_date p) (order_items_data p)
  /\ List.length (order_items_of st' pk) = List.length (item_rows f)
  /\ exists saved,
       orders st' !! pk = Some saved
       /\ delivery_date saved = new_date p
       /\ customer saved = customer (obj_fields order)
       /\ order_id saved = order_id (obj_fields order).
Proof.
  intros Hv Hexists Hsave pk.
  assert (forall st1,
            untouched pk st1 st' ->
            (order_items_of st1 pk).*2
            = form_line_items e pk (new_date p) (order_items_data p) ->
            (exists saved,
                orders st1 !! pk = Some saved
                /\ delivery_date saved = new_date p
                /\ customer saved = customer (obj_fields order)
                /\ order_id saved = order_id (obj_fields order)) ->
            (order_items_of st' pk).*2
            = form_line_items e pk (new_date p) (order_items_data p)
            /\ List.length (order_items_of st' pk) = List.length (item_rows f)
            /\ exists saved,
                 orders st' !! pk = Some saved
                 /\ delivery_date saved = new_date p
                 /\ customer saved = customer (obj_fields order)
                 /\ order_id saved = order_id (obj_fields order)) as Hdone.
  { intros st1 Hu Hrows Hsaved.
    rewrite (untouched_order_items_of pk st1 st' Hu).
    split; [exact Hrows|]. split.
    - rewrite <- (length_fmap snd), Hrows.
      rewrite form_line_items_length by (eapply validate_known, Hv).
      eapply gather_items_length, validate_items, Hv.
    - destruct Hu as [-> _]. exact Hsaved. }
  unfold save_changes in Hsave. rewrite Hv in Hsave. unfold atomic in Hsave.
  destruct (commit_edit e order f p st) as [[[] st'']|] eqn:Hc; [|discriminate].
  injection Hsave as <-.
  unfold commit_edit in Hc. fold pk in Hc.
  destruct (temp_items e (order_items_data p)) as [temp|]; [|done]. cbn in Hc.
  destruct (create_items e pk (new_date p) (order_items_data p)
              (delete_items_of pk st)) as [st2|] eqn:Eci; [|done].
  cbn in Hc.
  pose proof (create_items_rows _ _ _ _ _ _ Eci) as Hrows2.
  rewrite order_items_of_delete_items_of in Hrows2. cbn in Hrows2.
  apply create_items_frame in Eci as (Ho2 & _ & _).
  set (saved := if should_detach _ _ _ _ _ then _ else _) in Hc.
  set (st3 := save_order_row pk saved st2) in Hc.
  assert ((order_items_of st3 pk).*2
          = form_line_items e pk (new_date p) (order_items_data p)) as Hrows3.
  { exact Hrows2. }
  assert (orders st3 !! pk = Some saved) as Hsaved3.
  { subst st3. cbn. rewrite lookup_alter_eq, Ho2. cbn.
    destruct Hexists as [o Ho]. fold pk in Ho. rewrite Ho. reflexivity. }
  assert (delivery_date saved = new_date p
          /\ customer saved = customer (obj_fields order)
          /\ order_id saved = order_id (obj_fields order)) as Hfields.
  { subst saved. destruct (should_detach _ _ _ _ _); cbn; auto. }
  destruct (update_type f).
  { injection Hc as <-. apply (Hdone st3); [apply untouched_refl | exact Hrows3|].
    exists saved. tauto. }
  destruct (0 <? sub_var f).
  2:{ injection Hc as <-. apply (Hdone st3); [apply untouched_refl | exact Hrows3|].
      exists saved. tauto. }
  set (sel := select _ _) in Hc.
  set (st4 := delete_orders sel st3) in Hc.
  assert (untouched pk st3 st4) as Hu4.
  { apply delete_orders_frame. intros Hin.
    apply list_elem_of_fmap in Hin as ([k o] & Hk & Hin). cbn in Hk. subst k.
    apply elem_of_select in Hin as [_ Hp].
    apply andb_prop in Hp as [_ Hp]. rewrite Z.eqb_refl in Hp. discriminate. }
  destruct (_ && _).
  2:{ injection Hc as <-. apply (Hdone st3); [exact Hu4 | exact Hrows3|].
      exists saved. tauto. }
  destruct (expand_order _ st4) as [drafts|]; [|done]. cbn in Hc.
  destruct (create_future _ _ _ _ _ st4) as [st5|] eqn:Ecf; [|done].
  cbn in Hc. injection Hc as <-.
  apply (Hdone st3); [|exact Hrows3|exists saved; tauto].
  eapply untouched_trans; [exact Hu4|].
  eapply create_future_frame; [exact Ecf|].
  destruct Hu4 as [-> _]. rewrite Hsaved3. eauto.
Qed.

(** X18. [save_changes] with the scope "only this order" leaves every
    other order as it was, with its line items, whatever the dialog
    holds and however the save ends; it adds no order and changes no
    item. *)
Theorem only_this_touches_no_other_order e (order : OrderObj F) f st :
  update_type f = only_this ->
  let st' := (save_changes e order f st).2 in
  items st' = items st
  /\ (forall k, k <> obj_id order ->
        orders st' !! k = orders st !! k
        /\ order_items_of st' k = order_items_of st k)
  /\ (is_Some (orders st' !! obj_id order) <-> is_Some (orders st !! obj_id order)).
Proof.
  intros Hscope. unfold save_changes.
  destruct (validate e f) as [message|p]; [cbn; auto|].
  unfold atomic, commit_edit.
  destruct (temp_items e (order_items_data p)) as [temp|]; [|cbn; auto].
  cbn [mbind result_bind].
  destruct (create_items e (obj_id order) (new_date p) (order_items_data p)
              (delete_items_of (obj_id order) st)) as [st2|] eqn:Eci; [|cbn; auto].
  cbn [mbind result_bind]. rewrite Hscope. cbn [snd].
  apply create_items_frame in Eci as (Ho2 & Hi2 & Hu2).
  split; [exact Hi2|]. split.
  - intros k Hne.
    assert (untouched k st
              (save_order_row (obj_id order)
                 (if should_detach only_this (new_date p)
                       (delivery_date (obj_fields order)) (sub_var f)
                       (subscription_type (obj_fields order))
                  then detached (updated_fields (obj_fields order) f p)
                  else updated_fields (obj_fields order) f p) st2)) as Hu.
    { eapply untouched_trans;
        [apply (untouched_delete_items_of k (obj_id order)); done|].
      eapply untouched_trans; [apply Hu2; done|].
      apply untouched_save_order_row. done. }
    split; [apply Hu | apply untouched_order_items_of, Hu].
  - cbn [orders save_order_row]. rewrite lookup_alter_is_Some, Ho2. reflexivity.
Qed.

End Edits.

(** The second order of the weekly series, changed to two-weekly from
    that order on. *)
Lemma saved_order_holds_the_form_rows_witness :
  (order_items_of
     (save_changes example_env second_order
        (edit_form 739264 2 this_and_future) weekly_store).2 2).*2
  = [line_item 2 1 rucola 2 739264].
Proof.
  edestruct (saved_order_holds_the_form_rows example_env second_order
               (edit_form 739264 2 this_and_future) weekly_store)
    as (Hrows & _).
  - vm_compute. reflexivity.
  - eexists. vm_compute. reflexivity.
  - vm_compute. reflexivity.
  - cbn [snd]. etransitivity; [|exact Hrows]. vm_compute. reflexivity.
Defined.

(** The second order of the weekly series, moved by one day. *)
Lemma only_this_touches_no_other_order_witness :
  orders (save_changes example_env second_order
            (edit_form 739265 1 only_this) weekly_store).2 !! 3
  = Some (weekly_order 739271 1003 true)
  /\ order_items_of
       (save_changes example_env second_order
          (edit_form 739265 1 only_this) weekly_store).2 3
     = order_items_of weekly_store 3.
Proof.
  destruct (only_this_touches_no_other_order example_env second_order
              (edit_form 739265 1 only_this) weekly_store) as (_ & Hothers & _).
  - reflexivity.
  - destruct (Hothers 3) as [Ho Hl]; [discriminate|].
    split; [rewrite Ho; reflexivity | exact Hl].
Defined.

End EditedOrderProofs.

(** ** Creating an order *)

Module CreationProofs.

Import StoreProofs UndoProofs DatabaseProofs.

Section Tables.
Context {A : Type}.
Implicit Types (t : gmap Z A).




End Tables.

Section Creation.
Context {F : Type} `{PyFloat F}.
Implicit Types (st : db F) (e : env F) (chosen : list (Z * Item F * F)).



















End Creation.





End CreationProofs.

(** ** Creating an order in the editor of the weekly view *)

Module NewOrderProofs.

Import StoreProofs UndoProofs DatabaseProofs EditProofs CreationProofs.
Import NewOrder.

Section Editor.
Context {F : Type} `{PyFloat F}.
Implicit Types (st : db F) (e : env F) (data : list (str * F)).







End Editor.


End NewOrderProofs.

(** ** The orders a "this and future" edit regenerates *)

Module RegenerationProofs.

Import StoreProofs UndoProofs DatabaseProofs EditProofs CreationProofs.

Section Edits.
Context {F : Type} `{PyFloat F}.
Implicit Types (st : db F) (e : env F).




End Edits.


End RegenerationProofs.

(** ** The Sunday question of the order tab *)

Module SundayPromptProofs.

Section Prompt.
Context {F : Type} `{PyFloat F}.
Implicit Types (st : db F) (e : env F) (l : log F).

Lemma expansion_loop_of_fields fuel (order order' : OrderObj F) objs delta to_d d :
  obj_fields order = obj_fields order' ->
  allow_sunday_of (obj_production_date order)
  = allow_sunday_of (obj_production_date order') ->
  expansion_loop fuel order objs delta to_d d
  = expansion_loop fuel order' objs delta to_d d.
Proof.
  intros Hfields Hallow. revert d.
  induction fuel as [|fuel IH]; intros d; [reflexivity|].
  cbn [expansion_loop]. rewrite IH.
  unfold new_order. rewrite Hfields, Hallow. reflexivity.
Qed.

Lemma generate_subscription_orders_of_fields (order order' : OrderObj F) objs :
  obj_fields order = obj_fields order' ->
  allow_sunday_of (obj_production_date order)
  = allow_sunday_of (obj_production_date order') ->
  generate_subscription_orders order objs
  = generate_subscription_orders order' objs.
Proof.
  intros Hfields Hallow. unfold generate_subscription_orders, expansion.
  rewrite Hfields.
  destruct (subscription_type (obj_fields order') =? 0); [reflexivity|].
  destruct (from_date (obj_fields order')); [|reflexivity].
  destruct (to_date (obj_fields order')); [|reflexivity].
  destruct (frequencies _); [|reflexivity].
  f_equal. apply expansion_loop_of_fields; assumption.
Qed.

Lemma store_order_of_a_date e customer_ (f : order_form F) (d d' : date) st :
  store_order e customer_ f d st = store_order e customer_ f d' st.
Proof.
  unfold store_order.
  destruct (create_order _ st) as [r|]; [|reflexivity]. cbn.
  destruct (0 <? form_sub_var f); [|reflexivity].
  unfold expand_order. cbn [obj_id].
  set (order := {| obj_id := r.1; obj_production_date := PdDate d |}).
  set (order' := {| obj_id := r.1; obj_production_date := PdDate d' |}).
  assert (forall objs, generate_subscription_orders order objs
                       = generate_subscription_orders order' objs) as Hgen
    by (intros objs; apply generate_subscription_orders_of_fields; reflexivity).
  destruct (load_items _ _) as [objs|ex]; rewrite Hgen; reflexivity.
Qed.

(** X20. In the second block of [save_order] the answers "Ja" and
    "Nein" to the question about a production date on a Sunday lead to
    the same result: the same rows are stored, the same action is
    recorded and the same message is shown.  The date the answer
    changes is handed to [Order.create], which has no such field, and
    the line items are dated from the delivery date. *)
Theorem sunday_answer_changes_nothing (customers : gmap str Z) e
    (f : order_form F) st l :
  save_order_second customers e (Some false) f st l
  = save_order_second customers e (Some true) f st l.
Proof.
  unfold save_order_second.
  destruct (_ || _); [reflexivity|].
  destruct (bool_decide (form_order_items f = [])); [reflexivity|].
  destruct (customers !! customer_combo f) as [customer_|]; [|reflexivity].
  cbv zeta.
  destruct (weekday _ =? 6); [|reflexivity].
  unfold store_and_record.
  rewrite (store_order_of_a_date e customer_ f
             (get_date_from_entry e (delivery_date_frame f)
              - max_days (form_order_items f) - 1)
             (get_date_from_entry e (delivery_date_frame f)
              - max_days (form_order_items f))).
  reflexivity.
Qed.

End Prompt.

End SundayPromptProofs.

(** ** The rows of the production plan *)

Module PlanProofs.

Import StoreProofs QueryProofs.

Section Plan.
Context {F : Type} `{PyFloat F}.
Implicit Types (st : db F) (g : plan_row F) (oi : OrderItem F) (it : Item F).

Lemma add_to_groups_elem oi it gs g :
  g ∈ add_to_groups oi it gs ->
  (exists g0, g0 ∈ gs /\ same_columns g g0) \/ plan_row_for g oi it.
Proof.
  induction gs as [|g1 gs IH]; cbn [add_to_groups].
  - intros ->%list_elem_of_singleton. right. repeat split.
  - destruct (same_group g1 oi it).
    + intros [-> | Hin]%elem_of_cons.
      * left. exists g1. split; [apply list_elem_of_here | repeat split].
      * left. exists g. split; [by apply list_elem_of_further | repeat split].
    + intros [-> | Hin]%elem_of_cons.
      * left. exists g1. split; [apply list_elem_of_here | repeat split].
      * destruct (IH Hin) as [(g0 & Hg0 & Hsame) | Hfor]; [left|by right].
        exists g0. split; [by apply list_elem_of_further | exact Hsame].
Qed.

Lemma add_to_groups_has oi it gs :
  exists g, g ∈ add_to_groups oi it gs
            /\ r_production_date g = production_date oi
            /\ r_name g = item_name it.
Proof.
  induction gs as [|g1 gs IH]; cbn [add_to_groups].
  - eexists. split; [apply list_elem_of_here|]. split; reflexivity.
  - destruct (same_group g1 oi it) eqn:Hsame.
    + eexists. split; [apply list_elem_of_here|]. cbn.
      unfold same_group in Hsame.
      apply andb_prop in Hsame as [Hsame _].
      apply andb_prop in Hsame as [Hsame _].
      apply andb_prop in Hsame as [Hd%Z.eqb_eq Hn%bool_decide_eq_true].
      split; assumption.
    + destruct IH as (g & Hg & Hd & Hn).
      exists g. split; [by apply list_elem_of_further | by split].
Qed.

Lemma add_to_groups_keeps oi it gs g0 :
  g0 ∈ gs ->
  exists g, g ∈ add_to_groups oi it gs
            /\ r_production_date g = r_production_date g0
            /\ r_name g = r_name g0.
Proof.
  induction gs as [|g1 gs IH]; [by intros ?%elem_of_nil|].
  cbn [add_to_groups]. intros [-> | Hin]%elem_of_cons.
  - destruct (same_group g1 oi it);
      (eexists; split; [apply list_elem_of_here|]; split; reflexivity).
  - destruct (same_group g1 oi it).
    + exists g0. split; [by apply list_elem_of_further | by split].
    + destruct (IH Hin) as (g & Hg & Hd & Hn).
      exists g. split; [by apply list_elem_of_further | by split].
Qed.

Lemma plan_fold_elem (joined_rows : list (OrderItem F * Item F)) gs0 g :
  g ∈ foldl (fun gs r => add_to_groups r.1 r.2 gs) gs0 joined_rows ->
  (exists g0, g0 ∈ gs0 /\ same_columns g g0)
  \/ exists r, r ∈ joined_rows /\ plan_row_for g r.1 r.2.
Proof.
  revert gs0. induction joined_rows as [|r rest IH]; intros gs0; cbn [foldl].
  - intros Hin. left. exists g. split; [exact Hin | repeat split].
  - intros Hin. destruct (IH _ Hin) as [(g1 & Hg1 & Hsame) | (r' & Hr' & Hfor)].
    + destruct (add_to_groups_elem _ _ _ _ Hg1) as [(g0 & Hg0 & Hsame0) | Hfor].
      * left. exists g0. split; [exact Hg0|].
        destruct Hsame as (Hd & Hn & Hq & Hs), Hsame0 as (Hd0 & Hn0 & Hq0 & Hs0).
        repeat split; congruence.
      * right. exists r. split; [apply list_elem_of_here|].
        destruct Hsame as (Hd & Hn & Hq & Hs). unfold plan_row_for.
        destruct Hfor as (Hd1 & Hn1 & Hq1 & Hs1). repeat split; congruence.
    + right. exists r'. split; [by apply list_elem_of_further | exact Hfor].
Qed.

Lemma plan_fold_keeps (joined_rows : list (OrderItem F * Item F)) gs0 g0 :
  g0 ∈ gs0 ->
  exists g, g ∈ foldl (fun gs r => add_to_groups r.1 r.2 gs) gs0 joined_rows
            /\ r_production_date g = r_production_date g0
            /\ r_name g = r_name g0.
Proof.
  revert gs0 g0. induction joined_rows as [|r rest IH]; intros gs0 g0 Hin;
    cbn [foldl].
  - exists g0. by split.
  - destruct (add_to_groups_keeps r.1 r.2 gs0 g0 Hin) as (g1 & Hg1 & Hd1 & Hn1).
    destruct (IH _ _ Hg1) as (g & Hg & Hd & Hn).
    exists g. split; [exact Hg|]. split; congruence.
Qed.

Lemma plan_fold_has (joined_rows : list (OrderItem F * Item F)) gs0 r :
  r ∈ joined_rows ->
  exists g, g ∈ foldl (fun gs r => add_to_groups r.1 r.2 gs) gs0 joined_rows
            /\ r_production_date g = production_date r.1
            /\ r_name g = item_name r.2.
Proof.
  revert gs0. induction joined_rows as [|r1 rest IH]; intros gs0;
    [by intros ?%elem_of_nil|].
  cbn [foldl]. intros [-> | Hin]%elem_of_cons; [|by apply IH].
  destruct (add_to_groups_has r1.1 r1.2 gs0) as (g1 & Hg1 & Hd1 & Hn1).
  destruct (plan_fold_keeps rest _ g1 Hg1) as (g & Hg & Hd & Hn).
  exists g. split; [exact Hg|]. split; congruence.
Qed.

(** X21. The production plan of a range of dates shows line items and
    nothing else.  Every row has the production date, item name, seed
    quantity and substrate of a line item produced inside the range
    whose order row and item row exist; and every such line item has a
    row with its production date and the name of its item.  A line item
    whose order is gone is not shown. *)
Theorem production_plan_shows_the_line_items st (s e : date)
    (results : list (plan_row F)) :
  get_production_plan st (Some s) (Some e) results ->
  (forall g, g ∈ results ->
     s <= r_production_date g <= e
     /\ exists i oi it,
          order_items st !! i = Some oi
          /\ is_Some (orders st !! oi_order oi)
          /\ items st !! oi_item oi = Some it
          /\ plan_row_for g oi it)
  /\ (forall i oi it,
        order_items st !! i = Some oi ->
        is_Some (orders st !! oi_order oi) ->
        items st !! oi_item oi = Some it ->
        s <= production_date oi <= e ->
        exists g, g ∈ results
                  /\ r_production_date g = production_date oi
                  /\ r_name g = item_name it).
Proof.
  intros [Hperm _]. split.
  - intros g Hg. rewrite Hperm in Hg. unfold plan_groups in Hg.
    apply plan_fold_elem in Hg as [(g0 & Hg0 & _) | ([oi it] & Hr & Hfor)];
      [by apply elem_of_nil in Hg0|].
    apply elem_of_joined in Hr as ([i Hi] & Ho & Hit & Hrange).
    cbn [fst snd] in Hfor. split.
    + destruct Hfor as (-> & _). exact Hrange.
    + exists i, oi, it. auto.
  - intros i oi it Hi Ho Hit Hrange.
    assert ((oi, it) ∈ joined st (Some s) (Some e)) as Hr
      by (apply elem_of_joined; eauto).
    destruct (plan_fold_has _ [] _ Hr) as (g & Hg & Hd & Hn).
    exists g. split; [|by split].
    rewrite Hperm. exact Hg.
Qed.

End Plan.

(** The plan of 2024-12-31 in the store of the production example has a
    row for the Rucola line item. *)
Lemma production_plan_shows_the_line_items_witness :
  exists g, g ∈ [basilikum_row; rucola_row]
            /\ r_production_date g = 739251
            /\ r_name g = lit "Rucola".
Proof.
  destruct (production_plan_shows_the_line_items plan_store 739251 739251
              [basilikum_row; rucola_row]) as [_ Hshown].
  - split.
    + replace (plan_groups plan_store (Some 739251) (Some 739251))
        with [rucola_row; basilikum_row] by (vm_compute; reflexivity).
      apply perm_swap.
    + repeat constructor; unfold by_production_date; cbn; lia.
  - apply (Hshown 1 (line_item 1 1 rucola 2 739257) rucola).
    + vm_compute. reflexivity.
    + eexists. vm_compute. reflexivity.
    + vm_compute. reflexivity.
    + vm_compute. split; discriminate.
Defined.

End PlanProofs.
